(** * SyntaxCheckerServer: a shallow embedding of the request pipeline

    The repository holds three snapshots of one Express server:
    - [server.js]   : syntax checking only, fragments are wrapped first;
    - [part_002]    : syntax checking followed by direct execution;
    - [part_003]    : syntax checking followed by Docker based execution.

    The embedding follows the JavaScript text function by function.
    JavaScript strings are sequences of UTF-16 code units; here a string
    is a Rocq [string], each [ascii] standing for one code unit below 256,
    so [String.length] is [code.length] on such inputs.  Everything the
    server obtains from outside (the clock, child processes, the file
    system, the Babel parser, [decodeURIComponent]) is an operation of a
    small free monad and is answered by an [Oracle]; theorems quantify
    over every oracle. *)

From Stdlib Require Import NArith Ascii String DecimalString DecimalN Lia.
From stdpp Require Import base strings gmap list.

Local Open Scope N_scope.

(* ================================================================== *)
(** * JavaScript string primitives *)
(* ================================================================== *)

Module Js.

Definition chr (n : N) : ascii := ascii_of_N n.
Definition code (c : ascii) : N := N_of_ascii c.

Definition nl : string := String (chr 10) EmptyString.
Definition dq : string := String (chr 34) EmptyString.
Definition sq : string := String (chr 39) EmptyString.

(** [\s] restricted to code units below 256: TAB LF VT FF CR SP NBSP. *)
Definition isSpace (c : ascii) : bool :=
  let n := code c in
  ((9 <=? n) && (n <=? 13)) || (n =? 32) || (n =? 160).

(** [\d] *)
Definition isDigit (c : ascii) : bool :=
  let n := code c in (48 <=? n) && (n <=? 57).

(** [\w] is [A-Za-z0-9_]. *)
Definition isWord (c : ascii) : bool :=
  let n := code c in
  ((65 <=? n) && (n <=? 90)) || ((97 <=? n) && (n <=? 122))
  || isDigit c || (n =? 95).

(** [.] matches everything but a line terminator (LF, CR below 256). *)
Definition isDot (c : ascii) : bool :=
  let n := code c in negb ((n =? 10) || (n =? 13)).

(** [s.length] *)
Fixpoint len (s : string) : N :=
  match s with
  | EmptyString => 0
  | String _ s' => N.succ (len s')
  end.

(** JavaScript truthiness of a string. *)
Definition truthy (s : string) : bool :=
  match s with EmptyString => false | String _ _ => true end.

(** [s.startsWith(p)] *)
Fixpoint startsWith (p s : string) : bool :=
  match p, s with
  | EmptyString, _ => true
  | String a p', String b s' => if Ascii.eqb a b then startsWith p' s' else false
  | String _ _, EmptyString => false
  end.

(** [s.includes(p)] *)
Fixpoint includes (p s : string) : bool :=
  startsWith p s ||
  match s with
  | EmptyString => false
  | String _ s' => includes p s'
  end.

(** [s.split('\n')]; never empty: the empty string splits to one
    empty line. *)
Fixpoint split_nl (s : string) : list string :=
  match s with
  | EmptyString => [EmptyString]
  | String c s' =>
      if Ascii.eqb c (chr 10) then EmptyString :: split_nl s'
      else match split_nl s' with
           | [] => [String c EmptyString]
           | l :: ls => String c l :: ls
           end
  end.

(** [xs.join(sep)] *)
Fixpoint join (sep : string) (xs : list string) : string :=
  match xs with
  | [] => EmptyString
  | [x] => x
  | x :: rest => x +:+ sep +:+ join sep rest
  end.

(** [s.slice(n)] for [n >= 0]. *)
Fixpoint slice (n : nat) (s : string) : string :=
  match n, s with
  | O, _ => s
  | S n', String _ s' => slice n' s'
  | S _, EmptyString => EmptyString
  end.

(** [s.slice(0, -1)]: everything but the last code unit. *)
Fixpoint dropLast (s : string) : string :=
  match s with
  | EmptyString => EmptyString
  | String c EmptyString => EmptyString
  | String c s' => String c (dropLast s')
  end.

(** Length of the match of [/^\s*/]. *)
Fixpoint leadingSpaces (s : string) : nat :=
  match s with
  | String c s' => if isSpace c then S (leadingSpaces s') else O
  | EmptyString => O
  end.

Fixpoint trimStart (s : string) : string :=
  match s with
  | String c s' => if isSpace c then trimStart s' else s
  | EmptyString => EmptyString
  end.

Fixpoint trimEnd (s : string) : string :=
  match s with
  | EmptyString => EmptyString
  | String c s' =>
      match trimEnd s' with
      | EmptyString => if isSpace c then EmptyString else String c EmptyString
      | t => String c t
      end
  end.

(** [s.trim()] *)
Definition trim (s : string) : string := trimEnd (trimStart s).

Definition lowerChar (c : ascii) : ascii :=
  let n := code c in
  if ((65 <=? n) && (n <=? 90))
     || ((192 <=? n) && (n <=? 222) && negb (n =? 215))
  then chr (n + 32) else c.

(** [s.toLowerCase()] on code units below 256. *)
Fixpoint toLowerCase (s : string) : string :=
  match s with
  | EmptyString => EmptyString
  | String c s' => String (lowerChar c) (toLowerCase s')
  end.

(** Template interpolation of a non-negative integer: its decimal
    digits. *)
Definition ofN (n : N) : string := NilEmpty.string_of_uint (N.to_uint n).

(** [parseInt] on a string already matched by [\d+]; exact here, as in
    JavaScript for every number below 2^53. *)
Definition parseInt (s : string) : N :=
  let fix go (acc : N) (s : string) : N :=
    match s with
    | String c s' => if isDigit c then go (10 * acc + (code c - 48)) s' else acc
    | EmptyString => acc
    end in
  go 0 s.

(** Number of code units of [s] before its suffix [rest]. *)
Definition consumed (s rest : string) : string :=
  String.substring 0 (String.length s - String.length rest) s.

End Js.

(* ================================================================== *)
(** * The regular expressions of the server

    A backtracking matcher for the fragment the server's patterns use:
    literals, character classes, greedy and lazy repetition of a class,
    sequence, alternation and capture groups (numbered in the order they
    close, which for these patterns is their order of appearance). *)
(* ================================================================== *)

Module Regex.
Import Js.

Inductive re : Type :=
| Lit (s : string)
| Cls (p : ascii -> bool)
| Star (p : ascii -> bool)
| StarLazy (p : ascii -> bool)
| Seq (r1 r2 : re)
| Alt (r1 r2 : re)
| Cap (r : re).

Definition Plus (p : ascii -> bool) : re := Seq (Cls p) (Star p).

Fixpoint seqs (rs : list re) : re :=
  match rs with
  | [] => Lit EmptyString
  | [r] => r
  | r :: rest => Seq r (seqs rest)
  end.

Section Matcher.
Context {R : Type}.

(** [p*]: take as many as possible, give back one at a time. *)
Fixpoint starGreedy (p : ascii -> bool) (s : string)
         (k : string -> option R) : option R :=
  match s with
  | String c s' =>
      if p c then
        match starGreedy p s' k with
        | Some r => Some r
        | None => k s
        end
      else k s
  | EmptyString => k s
  end.

(** [p*?]: take as few as possible, extend one at a time. *)
Fixpoint starLazy (p : ascii -> bool) (s : string)
         (k : string -> option R) : option R :=
  match k s with
  | Some r => Some r
  | None =>
      match s with
      | String c s' => if p c then starLazy p s' k else None
      | EmptyString => None
      end
  end.

Fixpoint matchAt (r : re) (s : string) (caps : list string)
         (k : string -> list string -> option R) : option R :=
  match r with
  | Lit l =>
      if startsWith l s then k (slice (String.length l) s) caps else None
  | Cls p =>
      match s with
      | String c s' => if p c then k s' caps else None
      | EmptyString => None
      end
  | Star p => starGreedy p s (fun s' => k s' caps)
  | StarLazy p => starLazy p s (fun s' => k s' caps)
  | Seq a b => matchAt a s caps (fun s' caps' => matchAt b s' caps' k)
  | Alt a b =>
      match matchAt a s caps k with
      | Some x => Some x
      | None => matchAt b s caps k
      end
  | Cap a => matchAt a s caps (fun s' caps' => k s' (caps' ++ [consumed s s']))
  end.
End Matcher.

(** What it means for [r] to match a prefix of [s], leaving [s'], when
    the groups closed before are [caps] and those closed after are
    [caps']. *)
Fixpoint matches (r : re) (s : string) (caps : list string)
         (s' : string) (caps' : list string) : Prop :=
  match r with
  | Lit l =>
      startsWith l s = true /\ s' = slice (String.length l) s /\ caps' = caps
  | Cls p => (exists ch, s = String ch s' /\ p ch = true) /\ caps' = caps
  | Star p | StarLazy p =>
      (exists pre, s = pre +:+ s'
                   /\ Forall (fun ch => p ch = true) (list_ascii_of_string pre))
      /\ caps' = caps
  | Seq a b =>
      exists s1 c1, matches a s caps s1 c1 /\ matches b s1 c1 s' caps'
  | Alt a b => matches a s caps s' caps' \/ matches b s caps s' caps'
  | Cap a => exists c1, matches a s caps s' c1 /\ caps' = c1 ++ [consumed s s']
  end.

(** All code units of the string are decimal digits. *)
Definition allDigits (s : string) : Prop :=
  Forall (fun ch => isDigit ch = true) (list_ascii_of_string s).

(** The result of [s.match(r)]: text before the match, the match, its
    groups, the text after it. *)
Record found := {
  before : string;
  whole : string;
  groups : list string;
  after : string
}.

(** Leftmost match: the pattern is tried at every index in turn. *)
Fixpoint searchFrom (r : re) (pre : string) (s : string) : option found :=
  match matchAt r s [] (fun s' caps => Some (s', caps)) with
  | Some (s', caps) =>
      Some {| before := pre; whole := consumed s s';
              groups := caps; after := s' |}
  | None =>
      match s with
      | String c s' => searchFrom r (pre +:+ String c EmptyString) s'
      | EmptyString => None
      end
  end.

Definition search (r : re) (s : string) : option found :=
  searchFrom r EmptyString s.

(** [m[i]] for [i >= 1]; groups of these patterns always take part. *)
Definition group (i : nat) (m : found) : string :=
  nth (pred i) (groups m) EmptyString.

(** [s.replace(r, f)] without the [g] flag: first match only. *)
Definition replaceFirst (r : re) (f : found -> string) (s : string) : string :=
  match search r s with
  | Some m => before m +:+ f m +:+ after m
  | None => s
  end.

Definition notRParen (c : ascii) : bool := negb (Ascii.eqb c (chr 41)).

(** [/public\s+class\s+(\w+)/] *)
Definition publicClass : re :=
  seqs [Lit "public"; Plus isSpace; Lit "class"; Plus isSpace;
        Cap (Plus isWord)].

(** [/File ".*", line (\d+)/] *)
Definition pythonLine : re :=
  seqs [Lit ("File " +:+ dq); Star isDot; Lit (dq +:+ ", line ");
        Cap (Plus isDigit)].

(** [/:(\d+):/] *)
Definition colonLine : re :=
  seqs [Lit ":"; Cap (Plus isDigit); Lit ":"].

(** The diagnostic line of gcc and g++,
    [file:line:column: severity: message]: a lazy group of any
    characters, [:], digits, [:], digits, [:], optional blanks,
    [warning] or [error], [:], optional blanks, and the rest of the
    line as the last group. *)
Definition gccLine : re :=
  seqs [Cap (StarLazy isDot); Lit ":"; Cap (Plus isDigit); Lit ":";
        Cap (Plus isDigit); Lit ":"; Star isSpace;
        Cap (Alt (Lit "warning") (Lit "error")); Lit ":"; Star isSpace;
        Cap (Star isDot)].

(** [/int\s+main\s*\([^)]*\)\s*{/] *)
Definition intMain : re :=
  seqs [Lit "int"; Plus isSpace; Lit "main"; Star isSpace; Lit "(";
        Star notRParen; Lit ")"; Star isSpace; Lit "{"].

End Regex.

(* ================================================================== *)
(** * Effects: what the server asks of its environment *)
(* ================================================================== *)

Module Eff.
Import Js.

(** A thrown JavaScript value, with the properties the server reads:
    [message], [stderr] (set by the promisified [exec]), [signal] and
    [code]. *)
Record JsError := {
  message : string;
  stderr : option string;
  signal : option string;
  errcode : option string
}.

Definition mkError (msg : string) : JsError :=
  {| message := msg; stderr := None; signal := None; errcode := None |}.

(** What [child_process.exec] hands to its callback; [creates] lists
    the files the child left in the temp directory. *)
Inductive ExecOutcome : Type :=
| ExecOk (stdout stderr : string) (creates : list string)
| ExecFail (e : JsError) (stdout stderr : string) (creates : list string).

(** The error Babel throws. *)
Record BabelError := {
  bmessage : string;
  bcode : option string;
  bloc : option (N * N)
}.

Inductive Op : Type -> Type :=
| DateNow : Op N
| FsWriteFile (path content : string) : Op (option JsError)
| FsAccess (path : string) : Op (option JsError)
| FsUnlink (path : string) : Op (option JsError)
| ChildExec (cmd : string) (timeout : option N) : Op ExecOutcome
| ConsoleError (msg : string) : Op unit
| BabelParse (code : string) (asModule : bool) : Op (option BabelError)
| DecodeURIComponent (s : string) : Op (option string).

(** Programs: return, throw, or perform an operation and go on. *)
Inductive Prog (A : Type) : Type :=
| Ret (a : A)
| Throw (e : JsError)
| Vis {X : Type} (op : Op X) (k : X -> Prog A).
Arguments Ret {A} a.
Arguments Throw {A} e.
Arguments Vis {A X} op k.

Fixpoint bind {A B} (p : Prog A) (f : A -> Prog B) : Prog B :=
  match p with
  | Ret a => f a
  | Throw e => Throw e
  | Vis op k => Vis op (fun x => bind (k x) f)
  end.

#[global] Instance prog_ret : MRet Prog := @Ret.
#[global] Instance prog_bind : MBind Prog := fun A B f p => bind p f.

(** [try { p } catch (e) { h e }] *)
Fixpoint tryCatch {A} (p : Prog A) (h : JsError -> Prog A) : Prog A :=
  match p with
  | Ret a => Ret a
  | Throw e => h e
  | Vis op k => Vis op (fun x => tryCatch (k x) h)
  end.

(** [try { p } finally { f }] *)
Fixpoint tryFinally {A} (p : Prog A) (f : Prog unit) : Prog A :=
  match p with
  | Ret a => bind f (fun _ => Ret a)
  | Throw e => bind f (fun _ => Throw e)
  | Vis op k => Vis op (fun x => tryFinally (k x) f)
  end.

Definition call {X} (op : Op X) : Prog X := Vis op Ret.

(** An operation whose failure is a rejected promise. *)
Definition orThrow (op : Op (option JsError)) : Prog unit :=
  Vis op (fun r => match r with None => Ret tt | Some e => Throw e end).

Definition dateNow : Prog N := call DateNow.
Definition writeFile (path content : string) : Prog unit :=
  orThrow (FsWriteFile path content).
Definition access (path : string) : Prog unit := orThrow (FsAccess path).
Definition unlink (path : string) : Prog unit := orThrow (FsUnlink path).
Definition consoleError (msg : string) : Prog unit := call (ConsoleError msg).

(** [execAsync = util.promisify(exec)]: the rejection carries the
    child's stderr. *)
Definition execAsync (cmd : string) : Prog (string * string) :=
  Vis (ChildExec cmd None) (fun r =>
    match r with
    | ExecOk out err _ => Ret (out, err)
    | ExecFail e out err _ =>
        Throw {| message := message e; stderr := Some err;
                 signal := signal e; errcode := errcode e |}
    end).

(** ** The environment *)

Inductive Event : Type :=
| EvWrite (path content : string)
| EvUnlink (path : string)
| EvExec (cmd : string)
| EvLog (msg : string).

(** The store of the temp directory, the number of clock readings so
    far, and everything attempted so far, oldest first. *)
Record World := {
  files : gset string;
  reads : nat;
  trace : list Event
}.

Record Oracle := {
  o_clock : nat -> N;
  o_exec : string -> option N -> ExecOutcome;
  o_write : string -> option JsError;
  o_unlink : string -> option JsError;
  o_babel : string -> bool -> option BabelError;
  o_decode : string -> option string
}.

Definition enoent : JsError :=
  {| message := "ENOENT: no such file or directory"; stderr := None;
     signal := None; errcode := Some "ENOENT" |}.

Definition created (r : ExecOutcome) : list string :=
  match r with
  | ExecOk _ _ fs => fs
  | ExecFail _ _ _ fs => fs
  end.

Definition emit (ev : Event) (w : World) : World :=
  {| files := files w; reads := reads w; trace := trace w ++ [ev] |}.

Definition setFiles (fs : gset string) (w : World) : World :=
  {| files := fs; reads := reads w; trace := trace w |}.

Definition perform (o : Oracle) {X} (op : Op X) (w : World) : X * World :=
  match op in Op X return X * World with
  | DateNow =>
      (o_clock o (reads w),
       {| files := files w; reads := S (reads w); trace := trace w |})
  | FsWriteFile path content =>
      match o_write o path with
      | Some e => (Some e, emit (EvWrite path content) w)
      | None =>
          (None, emit (EvWrite path content) (setFiles ({[path]} ∪ files w) w))
      end
  | FsAccess path =>
      if bool_decide (path ∈ files w) then (None, w) else (Some enoent, w)
  | FsUnlink path =>
      if bool_decide (path ∈ files w) then
        match o_unlink o path with
        | Some e => (Some e, emit (EvUnlink path) w)
        | None => (None, emit (EvUnlink path) (setFiles (files w ∖ {[path]}) w))
        end
      else (Some enoent, emit (EvUnlink path) w)
  | ChildExec cmd timeout =>
      let r := o_exec o cmd timeout in
      (r, emit (EvExec cmd) (setFiles (list_to_set (created r) ∪ files w) w))
  | ConsoleError msg => (tt, emit (EvLog msg) w)
  | BabelParse code asModule => (o_babel o code asModule, w)
  | DecodeURIComponent s => (o_decode o s, w)
  end.

(** The value an [async] function settles with. *)
Inductive Settled (A : Type) : Type :=
| Fulfilled (a : A)
| Rejected (e : JsError).
Arguments Fulfilled {A} a.
Arguments Rejected {A} e.

Fixpoint run {A} (o : Oracle) (p : Prog A) (w : World) : Settled A * World :=
  match p with
  | Ret a => (Fulfilled a, w)
  | Throw e => (Rejected e, w)
  | Vis op k => let '(x, w') := perform o op w in run o (k x) w'
  end.

Definition world0 : World := {| files := ∅; reads := O; trace := [] |}.

Definition isExec (ev : Event) : bool :=
  match ev with EvExec _ => true | _ => false end.
Definition isWrite (ev : Event) : bool :=
  match ev with EvWrite _ _ => true | _ => false end.

End Eff.

(* ================================================================== *)
(** * Parts shared by the three snapshots *)
(* ================================================================== *)

Module Common.
Import Js Regex Eff.

(** The canonical language codes, the values of [LANGUAGE_ALIASES]. *)
Inductive Lang : Type := javascript | python | java | cpp | c.

#[global] Instance Lang_eq_dec : EqDecision Lang.
Proof. solve_decision. Defined.

Definition langName (l : Lang) : string :=
  match l with
  | javascript => "javascript"
  | python => "python"
  | java => "java"
  | cpp => "cpp"
  | c => "c"
  end.

(** [LANGUAGE_ALIASES], in the order of the object literal. *)
Definition LANGUAGE_ALIASES : list (string * Lang) :=
  [ ("javascript", javascript); ("js", javascript); ("node", javascript);
    ("nodejs", javascript); ("ecmascript", javascript);
    ("typescript", javascript); ("ts", javascript);
    ("python", python); ("py", python); ("python3", python); ("py3", python);
    ("java", java); ("javase", java);
    ("cpp", cpp); ("c++", cpp); ("cplusplus", cpp); ("c++11", cpp);
    ("c++14", cpp); ("c++17", cpp); ("c++20", cpp);
    ("c", c); ("ansi-c", c); ("c11", c); ("c17", c) ].

(** [Object.keys(LANGUAGE_ALIASES)] *)
Definition supportedAliases : list string := map fst LANGUAGE_ALIASES.

(** Own property lookup. *)
Fixpoint ownProperty {V} (key : string) (obj : list (string * V)) : option V :=
  match obj with
  | [] => None
  | (k, v) :: rest => if String.eqb k key then Some v else ownProperty key rest
  end.

(** [LANGUAGE_ALIASES] is an object literal, so [LANGUAGE_ALIASES[key]]
    also finds what every object inherits from [Object.prototype];
    each of these is a function or an object, hence truthy. *)
Definition objectPrototypeKeys : list string :=
  [ "constructor"; "__defineGetter__"; "__defineSetter__"; "hasOwnProperty";
    "__lookupGetter__"; "__lookupSetter__"; "isPrototypeOf";
    "propertyIsEnumerable"; "toString"; "valueOf"; "__proto__";
    "toLocaleString" ].

(** The value of [LANGUAGE_ALIASES[key] || null]. *)
Inductive Normalized : Type :=
| Canonical (l : Lang)
| Inherited (key : string)
| Null.

(** [normalizeLanguage] *)
Definition normalizeLanguage (lang : string) : Normalized :=
  let key := toLowerCase lang in
  match ownProperty key LANGUAGE_ALIASES with
  | Some l => Canonical l
  | None =>
      if bool_decide (key ∈ objectPrototypeKeys) then Inherited key else Null
  end.

(** [__dirname] is where the Dockerfile puts the application. *)
Definition tempDir : string := "/usr/src/app/temp".

(** [path.join(tempDir, name)] *)
Definition pathJoin (dir name : string) : string := dir +:+ "/" +:+ name.

Definition quoted (s : string) : string := dq +:+ s +:+ dq.

(** [cleanupTempFile] *)
Definition cleanupTempFile (filePath : string) : Prog unit :=
  tryCatch (access filePath;; unlink filePath)
    (fun error =>
       if bool_decide (errcode error = Some "ENOENT") then Ret tt
       else consoleError ("Error cleaning up temp file: " +:+ message error)).

(** One entry of [details] of the Python and Java checkers. *)
Record Detail := { d_line : N; d_message : string }.

(** One entry of [errors] of the C and C++ checkers. *)
Record Diag := {
  line : N;
  column : N;
  type : string;
  dmessage : string;
  suggestion : option string
}.

Record JsDetails := {
  jd_message : string;
  jd_type : string;
  jd_loc : option (N * N)
}.

Inductive Details : Type :=
| DetailList (l : list Detail)
| DetailObject (d : JsDetails).

(** The object a checker returns; an absent property is [None]. *)
Record SyntaxResult := {
  valid : bool;
  r_message : option string;
  r_error : option string;
  r_line : option N;
  r_column : option N;
  r_details : option Details;
  r_errors : option (list Diag);
  r_standard : option string;
  r_help : option string
}.

(** [{ valid: true, message: 'Syntax is valid' }] *)
Definition validResult : SyntaxResult :=
  {| valid := true; r_message := Some "Syntax is valid"; r_error := None;
     r_line := None; r_column := None; r_details := None;
     r_errors := None; r_standard := None; r_help := None |}.

(** [{ valid: false, error: e }] *)
Definition invalidResult (e : option string) : SyntaxResult :=
  {| valid := false; r_message := None; r_error := e;
     r_line := None; r_column := None; r_details := None;
     r_errors := None; r_standard := None; r_help := None |}.

Definition tooLarge : SyntaxResult :=
  invalidResult (Some "Code size exceeds maximum limit of 1MB").

Definition withDetails (d : Details) (r : SyntaxResult) : SyntaxResult :=
  {| valid := valid r; r_message := r_message r; r_error := r_error r;
     r_line := r_line r; r_column := r_column r; r_details := Some d;
     r_errors := r_errors r; r_standard := r_standard r; r_help := r_help r |}.

Definition withErrors (es : list Diag) (r : SyntaxResult) : SyntaxResult :=
  {| valid := valid r; r_message := r_message r; r_error := r_error r;
     r_line := r_line r; r_column := r_column r; r_details := r_details r;
     r_errors := Some es; r_standard := r_standard r; r_help := r_help r |}.

Definition withStandard (s : string) (r : SyntaxResult) : SyntaxResult :=
  {| valid := valid r; r_message := r_message r; r_error := r_error r;
     r_line := r_line r; r_column := r_column r; r_details := r_details r;
     r_errors := r_errors r; r_standard := Some s; r_help := r_help r |}.

Definition withHelp (s : string) (r : SyntaxResult) : SyntaxResult :=
  {| valid := valid r; r_message := r_message r; r_error := r_error r;
     r_line := r_line r; r_column := r_column r; r_details := r_details r;
     r_errors := r_errors r; r_standard := r_standard r; r_help := Some s |}.

(** [response.execution] of [part_003]. *)
Record Execution := {
  x_success : bool;
  x_output : option string;
  x_error : option string
}.

(** The JSON bodies the endpoints send: an error object (with the
    properties [help], [supported], [details] when present), the
    checker's result extended with [language] ([server.js]), or the
    response object [part_003] assembles. *)
Inductive Body : Type :=
| ErrorBody (error : string) (help : option string)
            (supported : option (list string)) (details : option string)
| ResultBody (result : SyntaxResult) (requested : string) (normalized : Lang)
| CheckedBody (valid : bool) (message error : option string)
              (details : option Details) (requested : string)
              (normalized : Lang) (execution : option Execution).

Record Response := { status : N; body : Body }.

(** The fields of [req.body] the handlers read.  The development
    follows the handlers on bodies whose [code] and [language] are
    strings or absent, [None] being an absent field; a field that holds
    another kind of JSON value is outside the model. *)
Record Request := { code : option string; language : option string }.

(** Reading a property of [undefined]. *)
Definition typeError (prop : string) : JsError :=
  mkError ("Cannot read properties of undefined (reading '" +:+ prop +:+ "')").

(** [x || y] on strings. *)
Definition orElse (x y : string) : string := if truthy x then x else y.

(** [checkJavaScriptSyntax]; the same text in the three snapshots. *)
Definition checkJavaScriptSyntax (code : string) : Prog SyntaxResult :=
  if 1000000 <? len code then Ret tooLarge
  else
    m ← call (BabelParse code true);
    match m with
    | None => Ret validResult
    | Some moduleError =>
        s ← call (BabelParse code false);
        match s with
        | None => Ret validResult
        | Some scriptError =>
            let error :=
              if bool_decide (bcode scriptError = Some "BABEL_PARSER_SYNTAX_ERROR")
              then scriptError else moduleError in
            let l := match bloc error with
                     | Some (l, _) => if l =? 0 then 1 else l
                     | None => 1
                     end in
            let col := match bloc error with
                       | Some (_, k) => k
                       | None => 0
                       end in
            let ty := match bcode error with
                      | Some t => orElse t "SyntaxError"
                      | None => "SyntaxError"
                      end in
            Ret {| valid := false; r_message := None;
                   r_error := head (split_nl (bmessage error));
                   r_line := Some l; r_column := Some col;
                   r_details := Some (DetailObject
                     {| jd_message := bmessage error; jd_type := ty;
                        jd_loc := bloc error |});
                   r_errors := None; r_standard := None; r_help := None |}
        end
    end.

(** The [details] of the Python checker: the stderr lines that name a
    file and a line. *)
Definition pythonDetails (stderr : string) : list Detail :=
  omap (fun ln =>
          match search pythonLine ln with
          | Some m => Some {| d_line := parseInt (group 1 m); d_message := trim ln |}
          | None => None
          end) (split_nl stderr).

(** [checkPythonSyntax]; the same text in the three snapshots. *)
Definition checkPythonSyntax (code : string) : Prog SyntaxResult :=
  now ← dateNow;
  let tempFile := pathJoin tempDir ("check_" +:+ ofN now +:+ ".py") in
  tryCatch
    (if 1000000 <? len code then Ret tooLarge
     else
       writeFile tempFile code;;
       tryCatch
         (execAsync ("/usr/bin/python3 -m py_compile " +:+ quoted tempFile);;
          cleanupTempFile tempFile;;
          Ret validResult)
         (fun error =>
            match stderr error with
            | None => Throw (typeError "split")
            | Some err =>
                let errorInfo :=
                  withDetails (DetailList (pythonDetails err))
                              (invalidResult (Some err)) in
                cleanupTempFile tempFile;;
                Ret errorInfo
            end))
    (fun error =>
       cleanupTempFile tempFile;;
       Ret (invalidResult (Some (message error)))).

(** The [errors] of the C checker: the stderr lines of the shape
    [file:line:column: (warning|error): message]. *)
Definition cDiagnostics (stderr : string) : list Diag :=
  omap (fun ln =>
          match search gccLine ln with
          | Some m =>
              Some {| line := parseInt (group 2 m);
                      column := parseInt (group 3 m);
                      type := group 4 m;
                      dmessage := trim (group 5 m);
                      suggestion := None |}
          | None => None
          end) (split_nl stderr).

(** [checkCSyntax]; the same text in the three snapshots. *)
Definition checkCSyntax (code : string) : Prog SyntaxResult :=
  now ← dateNow;
  let tempFile := pathJoin tempDir ("check_" +:+ ofN now +:+ ".c") in
  tryCatch
    (if 1000000 <? len code then Ret tooLarge
     else
       writeFile tempFile code;;
       tryCatch
         (execAsync ("gcc -fsyntax-only -Wall -pedantic " +:+ quoted tempFile);;
          cleanupTempFile tempFile;;
          Ret validResult)
         (fun error =>
            match stderr error with
            | None => Throw (typeError "split")
            | Some err =>
                let errors := cDiagnostics err in
                cleanupTempFile tempFile;;
                Ret (withErrors errors (invalidResult (Some err)))
            end))
    (fun error =>
       cleanupTempFile tempFile;;
       Ret (invalidResult (Some (message error)))).

End Common.

(* ================================================================== *)
(** * [server.js] *)
(* ================================================================== *)

Module ServerJs.
Import Js Regex Eff Common.

(** The text of [cppIncludes]; every line ends in a newline. *)
Definition cppIncludes : string :=
  join nl
    [ "#include <iostream>"; "#include <vector>"; "#include <string>";
      "#include <map>"; "#include <set>"; "#include <algorithm>";
      "#include <concepts>"; "#include <type_traits>"; "#include <memory>";
      "#include <functional>"; "#include <ranges>"; "#include <span>";
      "#include <numeric>"; "#include <iterator>"; "#include <optional>";
      "#include <tuple>"; "#include <utility>"; "#include <execution>";
      "#include <compare>"; "#include <stdexcept>"; "#include <cstdlib>";
      "#include <cstring>"; "#include <cmath>"; "using namespace std;";
      EmptyString ].

(** The import block both Java templates start with, up to and
    including the empty line after it. *)
Definition javaImports : list string :=
  [ "import java.util.*;"; "import java.util.stream.*;";
    "import java.util.function.*;"; "import java.time.*;";
    "import java.math.*;"; "import java.text.*;";
    "import java.security.*;"; "import java.util.concurrent.*;";
    "import java.util.regex.*;"; "import java.io.*;";
    "import static java.util.stream.Collectors.*;"; EmptyString ].

(** The first three statements of [wrapCodeSnippet]. *)
Definition unindent (code : string) : string :=
  let lines := split_nl code in
  let indentation := leadingSpaces (hd EmptyString lines) in
  join nl (map (slice indentation) lines).

(** The name given to the synthesized class at clock reading [now]. *)
Definition solutionName (now : N) : string := "Solution_" +:+ ofN now.

(** The template of the synthesized class. *)
Definition javaClassWrapper (className unindentedCode : string) : string :=
  join nl (javaImports ++
    [ "class " +:+ className +:+ " {";
      "    public static void main(String[] args) {";
      "        " +:+ unindentedCode;
      "    }";
      "}" ]).

(** The Java branches of [wrapCodeSnippet]. *)
Definition wrapJava (code unindentedCode : string) : Prog string :=
  if includes "class" code then
    Ret (join nl (javaImports ++
           [ replaceFirst publicClass (fun m => "class " +:+ group 1 m)
                          unindentedCode ]))
  else
    now ← dateNow;
    let className := solutionName now in
    Ret (javaClassWrapper className unindentedCode).

Definition wrapPython (unindentedCode : string) : string :=
  join nl [ "from typing import List, Optional"; "import math";
            "import collections"; "import heapq"; EmptyString;
            unindentedCode ].

Definition wrapC (code unindentedCode : string) : string :=
  if includes "main(" code then unindentedCode
  else
    join nl [ "#include <stdio.h>"; "#include <stdlib.h>";
              "#include <string.h>"; EmptyString; "int main() {";
              "    " +:+ unindentedCode; "    return 0;"; "}" ].

Definition wrapCpp (code unindentedCode : string) : string :=
  if includes "template" code || includes "concept" code then
    join nl [ cppIncludes; unindentedCode; EmptyString;
              "// Ensure there's at least one instantiation for templates";
              "namespace test_instantiation {";
              "    void ensure_instantiation();  // Forward declaration to prevent unused warnings";
              "}" ]
  else if includes "main(" code then
    join nl [ cppIncludes; unindentedCode ]
  else
    join nl [ cppIncludes; "int main() {"; "    " +:+ unindentedCode;
              "    return 0;"; "}" ].

(** [wrapCodeSnippet] *)
Definition wrapCodeSnippet (code language : string) : Prog string :=
  let unindentedCode := unindent code in
  let lang := toLowerCase language in
  if String.eqb lang "cpp" then Ret (wrapCpp code unindentedCode)
  else if String.eqb lang "java" then wrapJava code unindentedCode
  else if String.eqb lang "python" then Ret (wrapPython unindentedCode)
  else if String.eqb lang "c" then Ret (wrapC code unindentedCode)
  else Ret code.

(** The table [wrapperLines] of [adjustErrorLineNumbers], read as
    [wrapperLines[language.toLowerCase()] || 0].  The handler passes a
    canonical code only, so no inherited property is ever looked up
    here. *)
Definition wrapperLines (language : string) : N :=
  match ownProperty (toLowerCase language)
          [ ("cpp", 24); ("java", 13); ("python", 5); ("c", 5) ] with
  | Some n => n
  | None => 0
  end.

(** [x.line -= k; x.line = Math.max(1, x.line)] under [if (x.line)]. *)
Definition adjustLine (k : N) (l : N) : N :=
  if l =? 0 then l else N.max 1 (l - k).

Definition adjustDiag (k : N) (d : Diag) : Diag :=
  {| line := adjustLine k (line d); column := column d; type := type d;
     dmessage := dmessage d; suggestion := suggestion d |}.

(** [adjustErrorLineNumbers]: only [line] and the entries of [errors]
    are touched. *)
Definition adjustErrorLineNumbers (error : SyntaxResult) (language : string)
           (hasWrapper : bool) : SyntaxResult :=
  if negb hasWrapper then error
  else
    let k := wrapperLines language in
    {| valid := valid error; r_message := r_message error;
       r_error := r_error error;
       r_line := option_map (adjustLine k) (r_line error);
       r_column := r_column error; r_details := r_details error;
       r_errors := option_map (map (adjustDiag k)) (r_errors error);
       r_standard := r_standard error; r_help := r_help error |}.

(** The [details] of the Java checker. *)
Definition javaDetails (stderr : string) : list Detail :=
  omap (fun ln =>
          match search colonLine ln with
          | Some m => Some {| d_line := parseInt (group 1 m); d_message := trim ln |}
          | None => None
          end) (split_nl stderr).

(** [checkJavaSyntax] *)
Definition checkJavaSyntax (code : string) : Prog SyntaxResult :=
  timestamp ← dateNow;
  let className := "Solution_" +:+ ofN timestamp in
  let tempFile := pathJoin tempDir (className +:+ ".java") in
  tryCatch
    (if 1000000 <? len code then Ret tooLarge
     else
       writeFile tempFile code;;
       tryCatch
         (execAsync ("javac " +:+ quoted tempFile);;
          cleanupTempFile tempFile;;
          cleanupTempFile (pathJoin tempDir (className +:+ ".class"));;
          Ret validResult)
         (fun error =>
            match stderr error with
            | None => Throw (typeError "split")
            | Some err =>
                let errorInfo :=
                  withDetails (DetailList (javaDetails err))
                              (invalidResult (Some err)) in
                cleanupTempFile tempFile;;
                Ret errorInfo
            end))
    (fun error =>
       cleanupTempFile tempFile;;
       Ret (invalidResult (Some (message error)))).

(** [getSuggestionForError] *)
Definition getSuggestionForError (error : string) : string :=
  if includes "undefined reference" error then
    "Make sure you have included the necessary header files and implemented all declared functions."
  else if includes "expected" error then
    "Check for missing semicolons, parentheses, or braces."
  else if includes "no matching function" error then
    "Verify that the function call matches the function declaration and all types are correct."
  else if includes "was not declared" error then
    "Make sure you have declared the variable/function before using it or included the necessary header."
  else if includes "invalid use of" error then
    "Check if you are using the type/variable correctly according to its declaration."
  else
    "Review the syntax and ensure all variables and types are properly declared.".

(** The list [standards], newest first: the compiler flag and the
    name reported. *)
Definition standards : list (string * string) :=
  [ ("c++20", "C++20"); ("c++17", "C++17"); ("c++14", "C++14");
    ("c++11", "C++11"); ("c++98", "C++98") ].

(** What the [for] loop over [standards] leaves in [success],
    [lastError] and [usedStandard]. *)
Record Search := {
  success : bool;
  lastError : option JsError;
  usedStandard : option string
}.

(** The [for] loop of the C++ checkers; [command] builds the compiler
    invocation for a flag. *)
Fixpoint searchStandards (command : string -> string)
         (stds : list (string * string)) (lastError : option JsError)
  : Prog Search :=
  match stds with
  | [] => Ret {| success := false; lastError := lastError; usedStandard := None |}
  | (std, name) :: rest =>
      r ← tryCatch (execAsync (command std);; Ret None) (fun e => Ret (Some e));
      match r with
      | None =>
          Ret {| success := true; lastError := lastError;
                 usedStandard := Some name |}
      | Some e =>
          match stderr e with
          | None => Throw (typeError "includes")
          | Some err =>
              if negb (includes "standard" err) then
                Ret {| success := false; lastError := Some e;
                       usedStandard := Some name |}
              else searchStandards command rest (Some e)
          end
      end
  end.

(** The loop over [errorLines]: [errors] and [mainError] after the
    lines [lns].  The callers differ in three places: [skip] is the
    test of the [continue] statement, [adjust] what is done to a line
    number, [suggest] the suggestion table. *)
Fixpoint collectErrors (skip : string -> bool) (adjust : N -> N)
         (suggest : string -> string)
         (lns : list string) (errors : list Diag)
         (mainError : string) : list Diag * string :=
  match lns with
  | [] => (errors, mainError)
  | ln :: rest =>
      if skip ln then
        collectErrors skip adjust suggest rest errors mainError
      else
        match search gccLine ln with
        | Some m =>
            let ty := group 4 m in
            let msg := group 5 m in
            let mainError' :=
              if String.eqb ty "error" && negb (truthy mainError)
              then msg else mainError in
            collectErrors skip adjust suggest rest
              (errors ++ [ {| line := adjust (parseInt (group 2 m));
                              column := parseInt (group 3 m);
                              type := ty;
                              dmessage := trim msg;
                              suggestion := Some (suggest msg) |} ])
              mainError'
        | None => collectErrors skip adjust suggest rest errors mainError
        end
  end.

Definition cppHelp : string :=
  "Make sure your code follows C++ syntax rules and all required headers are included.".

(** The part of [checkCPPSyntax] inside its inner [try], once the file
    is written. *)
Definition checkWithStandards (command : string -> string)
           (stds : list (string * string)) (adjust : N -> N)
           (suggest : string -> string) (tempFile : string)
  : Prog SyntaxResult :=
  tryCatch
    (s ← searchStandards command stds None;
     if success s then
       cleanupTempFile tempFile;;
       Ret {| valid := true; r_message := Some "Syntax is valid";
              r_error := None; r_line := None; r_column := None;
              r_details := None; r_errors := None;
              r_standard := usedStandard s; r_help := None |}
     else
       match lastError s with
       | None => Throw (typeError "stderr")
       | Some e =>
           match stderr e with
           | None => Throw (typeError "split")
           | Some err =>
               let '(errors, mainError) :=
                 collectErrors (includes "standard") adjust suggest
                               (split_nl err) [] EmptyString in
               cleanupTempFile tempFile;;
               Ret {| valid := false; r_message := None;
                      r_error := Some (orElse mainError "Syntax error in C++ code");
                      r_line := None; r_column := None; r_details := None;
                      r_errors := Some errors;
                      r_standard :=
                        Some (match usedStandard s with
                              | Some n => orElse n "Unknown"
                              | None => "Unknown"
                              end);
                      r_help := Some cppHelp |}
           end
       end)
    (fun error =>
       cleanupTempFile tempFile;;
       Ret (withHelp "An unexpected error occurred while checking the syntax."
              (withErrors []
                 (invalidResult
                    (Some (match stderr error with
                           | Some s => orElse s (message error)
                           | None => message error
                           end)))))).

Definition gppCommand (tempFile std : string) : string :=
  "g++ -std=" +:+ std +:+ " -fsyntax-only -Wall -Wextra " +:+ quoted tempFile.

(** [checkCPPSyntax] *)
Definition checkCPPSyntax (code : string) : Prog SyntaxResult :=
  now ← dateNow;
  let tempFile := pathJoin tempDir ("check_" +:+ ofN now +:+ ".cpp") in
  tryCatch
    (if 1000000 <? len code then Ret tooLarge
     else
       writeFile tempFile code;;
       checkWithStandards (gppCommand tempFile) standards (fun l => l)
                          getSuggestionForError tempFile)
    (fun error =>
       cleanupTempFile tempFile;;
       Ret (invalidResult (Some (message error)))).

(** ** The endpoint *)

Definition requiredResponse : Response :=
  {| status := 400;
     body := ErrorBody "Code and language are required"
               (Some "Please provide both code and language parameters.")
               None None |}.

Definition sizeResponse : Response :=
  {| status := 400;
     body := ErrorBody "Code size exceeds maximum limit of 1MB"
               (Some "Please reduce the size of your code snippet.")
               None None |}.

Definition unsupportedResponse : Response :=
  {| status := 400;
     body := ErrorBody "Unsupported language"
               (Some "Please use one of the supported language identifiers.")
               (Some supportedAliases) None |}.

Definition internalError (error : JsError) : Response :=
  {| status := 500;
     body := ErrorBody "Internal server error"
               (Some "Please try again or contact support if the problem persists.")
               None (Some (message error)) |}.

(** The handler of [POST /check-syntax]. *)
Definition checkSyntaxEndpoint (req : Request) : Prog Response :=
  match code req, language req with
  | Some code, Some language =>
      if negb (truthy code) || negb (truthy language) then Ret requiredResponse
      else if 1000000 <? len code then Ret sizeResponse
      else
        match normalizeLanguage language with
        | Null => Ret unsupportedResponse
        | normalizedLang =>
            tryCatch
              (let hasWrapper :=
                 negb (includes "main(" code) && negb (includes "class" code) in
               match normalizedLang with
               | Canonical lang =>
                   wrappedCode ← wrapCodeSnippet code (langName lang);
                   result ← match lang with
                            | javascript => checkJavaScriptSyntax wrappedCode
                            | python => checkPythonSyntax wrappedCode
                            | java => checkJavaSyntax wrappedCode
                            | cpp => checkCPPSyntax wrappedCode
                            | c => checkCSyntax wrappedCode
                            end;
                   let result :=
                     if negb (valid result) && hasWrapper
                     then adjustErrorLineNumbers result (langName lang) hasWrapper
                     else result in
                   Ret {| status := 200; body := ResultBody result language lang |}
               | _ =>
                   (* [language.toLowerCase()] inside [wrapCodeSnippet],
                      on a value that is not a string *)
                   Throw (mkError "language.toLowerCase is not a function")
               end)
              (fun error =>
                 consoleError ("Syntax check error: " +:+ message error);;
                 Ret (internalError error))
        end
  | _, _ => Ret requiredResponse
  end.

End ServerJs.

(* ================================================================== *)
(** * [part_003]: checking followed by execution in containers *)
(* ================================================================== *)

Module Part003.
Import Js Regex Eff Common.

(** Defaults of the environment variables read at start-up. *)
Definition DOCKER_JAVA_IMAGE : string := "openjdk:11".
Definition DOCKER_PYTHON_IMAGE : string := "python:3.9-slim".
Definition DOCKER_CPP_IMAGE : string := "gcc:latest".
Definition DOCKER_C_IMAGE : string := "gcc:latest".
Definition EXECUTION_TIMEOUT : N := 10000.
Definition COMPILE_TIMEOUT : N := 15000.

(** [executeWithTimeout] *)
Definition executeWithTimeout (cmd : string) (timeout : N)
  : Prog (string * string) :=
  Vis (ChildExec cmd (Some timeout)) (fun r =>
    match r with
    | ExecOk out err _ => Ret (out, err)
    | ExecFail error _ _ _ =>
        if bool_decide (signal error = Some "SIGTERM")
        then Throw (mkError "Command timed out")
        else Throw error
    end).

(** [wrapCodeSnippet]: C++ is returned untouched, the other branches
    are those of [server.js]. *)
Definition wrapCodeSnippet (code language : string) : Prog string :=
  if String.eqb (toLowerCase language) "cpp" then Ret code
  else
    let unindentedCode := ServerJs.unindent code in
    let lang := toLowerCase language in
    if String.eqb lang "java" then ServerJs.wrapJava code unindentedCode
    else if String.eqb lang "python" then Ret (ServerJs.wrapPython unindentedCode)
    else if String.eqb lang "c" then Ret (ServerJs.wrapC code unindentedCode)
    else Ret code.

(** What an [execute...] function returns. *)
Record ExecutionResult := {
  e_success : bool;
  e_output : option string;
  e_error : option string;
  e_errors : option (list Diag)
}.

(** [x || null] on strings. *)
Definition orNull (x : string) : option string :=
  if truthy x then Some x else None.

(** The [catch] block the container based functions share. *)
Definition timedOutOr (error : JsError) : ExecutionResult :=
  {| e_success := false; e_output := None;
     e_error := Some (if includes "timed out" (message error)
                      then "Execution timed out. Your code took too long to run."
                      else message error);
     e_errors := None |}.

(** [executeJavaScript]; the same text in [part_002]. *)
Definition executeJavaScript (code : string) : Prog ExecutionResult :=
  now ← dateNow;
  let tempFile := pathJoin tempDir ("js_" +:+ ofN now +:+ ".js") in
  tryCatch
    (writeFile tempFile code;;
     '(stdout, stderr) ← execAsync ("node " +:+ quoted tempFile);
     cleanupTempFile tempFile;;
     if truthy stderr then
       Ret {| e_success := false; e_output := None; e_error := Some stderr;
              e_errors := None |}
     else
       Ret {| e_success := true;
              e_output := Some (orElse stdout "Code executed successfully with no output");
              e_error := None; e_errors := None |})
    (fun error =>
       cleanupTempFile tempFile;;
       Ret {| e_success := false; e_output := None;
              e_error := Some (message error); e_errors := None |}).

Definition dockerRun (image rest : string) : string :=
  "docker run --rm -v " +:+ quoted (tempDir +:+ ":/code") +:+ " -w /code "
  +:+ image +:+ " " +:+ rest.

Definition basenameOf (file : string) : string :=
  "$(basename " +:+ quoted file +:+ ")".

(** [executePython] *)
Definition executePython (code : string) : Prog ExecutionResult :=
  now ← dateNow;
  let pythonFile := pathJoin tempDir ("script_" +:+ ofN now +:+ ".py") in
  tryFinally
    (tryCatch
       (writeFile pythonFile code;;
        '(stdout, stderr) ←
          executeWithTimeout
            (dockerRun DOCKER_PYTHON_IMAGE ("python /code/" +:+ basenameOf pythonFile))
            EXECUTION_TIMEOUT;
        Ret {| e_success := true; e_output := Some stdout;
               e_error := orNull stderr; e_errors := None |})
       (fun error => Ret (timedOutOr error)))
    (cleanupTempFile pythonFile).

(** [extractJavaClassName] *)
Definition extractJavaClassName (code : string) : option string :=
  option_map (group 1) (search publicClass code).

(** [executeJava] *)
Definition executeJava (code : string) : Prog ExecutionResult :=
  className ← match extractJavaClassName code with
              | Some n => Ret n
              | None => now ← dateNow; Ret ("Solution_" +:+ ofN now)
              end;
  let javaFile := pathJoin tempDir (className +:+ ".java") in
  let classFile := pathJoin tempDir (className +:+ ".class") in
  tryFinally
    (tryCatch
       (writeFile javaFile code;;
        executeWithTimeout
          (dockerRun DOCKER_JAVA_IMAGE ("javac /code/" +:+ basenameOf javaFile))
          COMPILE_TIMEOUT;;
        '(stdout, stderr) ←
          executeWithTimeout
            (dockerRun DOCKER_JAVA_IMAGE ("java -cp /code " +:+ className))
            EXECUTION_TIMEOUT;
        Ret {| e_success := true; e_output := Some stdout;
               e_error := orNull stderr; e_errors := None |})
       (fun error => Ret (timedOutOr error)))
    (cleanupTempFile javaFile;; cleanupTempFile classFile).

(** The string [headers] of [executeCPP] and [checkCPPSyntax]. *)
Definition headers : string :=
  "#include <iostream>" +:+ nl +:+ "#include <stdexcept>" +:+ nl +:+
  "#include <string>" +:+ nl +:+ "#include <vector>" +:+ nl +:+
  "#include <algorithm>" +:+ nl +:+ "#include <memory>" +:+ nl +:+
  "#include <cstdlib>" +:+ nl +:+ "#include <cstring>" +:+ nl +:+
  "#include <cctype>" +:+ nl +:+ "#include <cmath>" +:+ nl +:+ nl +:+
  "using namespace std;" +:+ nl +:+ nl.

(** [Math.max(1, parseInt(lineNum) - headers.split('\n').length + 1)] *)
Definition adjustedLineNum (lineNum : N) : N :=
  Z.to_N (Z.max 1 (Z.of_N lineNum
                   - Z.of_nat (length (split_nl headers)) + 1)%Z).

(** [getSuggestionForError] *)
Definition getSuggestionForError (error : string) : string :=
  if includes "template declaration cannot appear at block scope" error then
    "Template declarations must be at global scope. Move your template class/function definition outside of any function."
  else if includes "was not declared in this scope" error then
    "Make sure the identifier is declared before use. Check for typos and proper includes."
  else if includes "expected primary-expression" error then
    "Check for missing semicolons, parentheses, or braces. Also verify template syntax is correct."
  else if includes "no matching function" error then
    "Verify that the function call matches the function declaration and all types are correct."
  else if includes "invalid use of" error then
    "Check if you are using the type/variable correctly according to its declaration."
  else if includes "undefined reference" error then
    "Make sure you have included the necessary header files and implemented all declared functions."
  else if includes "local class shall not have static data member" error then
    "Move the class definition to global scope and ensure static members are properly declared."
  else
    "Review the syntax and ensure all variables and types are properly declared.".

(** [executeCPP] *)
Definition executeCPP (code : string) : Prog ExecutionResult :=
  timestamp ← dateNow;
  let ts := ofN timestamp in
  let cppFile := pathJoin tempDir ("program_" +:+ ts +:+ ".cpp") in
  let execFile := pathJoin tempDir ("program_" +:+ ts) in
  tryFinally
    (tryCatch
       (let finalCode := headers +:+ code in
        writeFile cppFile finalCode;;
        let absoluteTempDir := tempDir in
        let relativeFilePath := "program_" +:+ ts +:+ ".cpp" in
        let relativeExecPath := "program_" +:+ ts in
        let dockerfilePath := pathJoin tempDir ("Dockerfile_" +:+ ts) in
        let dockerfileContent :=
          join nl
            [ "FROM " +:+ DOCKER_CPP_IMAGE;
              "WORKDIR /workspace";
              "COPY " +:+ relativeFilePath +:+ " .";
              "RUN g++ -Wall -Wextra -std=c++20 " +:+ relativeFilePath
                +:+ " -o " +:+ relativeExecPath;
              "CMD [" +:+ quoted ("./program_" +:+ ts) +:+ "]" ] in
        writeFile dockerfilePath dockerfileContent;;
        tryFinally
          (tryCatch
             (let buildCmd :=
                "docker build -t cpp_program_" +:+ ts +:+ " -f "
                +:+ quoted dockerfilePath +:+ " " +:+ quoted absoluteTempDir in
              '(buildStdout, buildStderr) ← executeWithTimeout buildCmd COMPILE_TIMEOUT;
              if truthy buildStderr then
                let '(errors, mainError) :=
                  ServerJs.collectErrors (fun _ => false) adjustedLineNum
                    getSuggestionForError (split_nl buildStderr) [] EmptyString in
                Ret {| e_success := false; e_output := None;
                       e_error := Some (orElse mainError "Compilation failed");
                       e_errors := Some errors |}
              else
                let runCmd := "docker run --rm cpp_program_" +:+ ts in
                '(stdout, stderr) ← executeWithTimeout runCmd EXECUTION_TIMEOUT;
                Ret {| e_success := true; e_output := Some stdout;
                       e_error := orNull stderr; e_errors := None |})
             (fun error => Ret (timedOutOr error)))
          (tryCatch (execAsync ("docker rmi cpp_program_" +:+ ts);; Ret tt)
                    (fun e => Ret tt)))
       (fun error => Ret (timedOutOr error)))
    (cleanupTempFile cppFile;;
     cleanupTempFile execFile;;
     cleanupTempFile (pathJoin tempDir ("Dockerfile_" +:+ ts))).

(** The C program [executeC] writes around [body]. *)
Definition cProgram (body : string) : string :=
  join nl
    [ EmptyString;
      "#include <stdio.h>"; "#include <stdlib.h>"; "#include <signal.h>";
      "#include <string.h>"; EmptyString;
      "void signal_handler(int signal_num) {";
      "    switch (signal_num) {";
      "        case SIGSEGV:";
      "            fprintf(stderr, " +:+ quoted "Segmentation fault (accessing invalid memory)\n" +:+ ");";
      "            exit(1);";
      "        case SIGFPE:";
      "            fprintf(stderr, " +:+ quoted "Floating point exception (division by zero)\n" +:+ ");";
      "            exit(1);";
      "        case SIGABRT:";
      "            fprintf(stderr, " +:+ quoted "Aborted (assertion failed or abort() called)\n" +:+ ");";
      "            exit(1);";
      "    }";
      "}"; EmptyString;
      "int main() {";
      "    signal(SIGSEGV, signal_handler);";
      "    signal(SIGFPE, signal_handler);";
      "    signal(SIGABRT, signal_handler);";
      "    " +:+ body;
      "    return 0;";
      "}" ].

(** [executeC] *)
Definition executeC (code : string) : Prog ExecutionResult :=
  now1 ← dateNow;
  let cFile := pathJoin tempDir ("program_" +:+ ofN now1 +:+ ".c") in
  now2 ← dateNow;
  let execFile := pathJoin tempDir ("program_" +:+ ofN now2) in
  tryFinally
    (tryCatch
       (let wrappedCode :=
          cProgram (if includes "main()" code
                    then dropLast (replaceFirst intMain (fun _ => EmptyString) code)
                    else code) in
        writeFile cFile wrappedCode;;
        executeWithTimeout
          (dockerRun DOCKER_C_IMAGE
             ("gcc -Wall -Wextra -std=c17 /code/" +:+ basenameOf cFile
              +:+ " -o /code/" +:+ basenameOf execFile))
          COMPILE_TIMEOUT;;
        '(stdout, stderr) ←
          executeWithTimeout
            (dockerRun DOCKER_C_IMAGE ("/code/" +:+ basenameOf execFile))
            EXECUTION_TIMEOUT;
        Ret {| e_success := if truthy stderr then false else true;
               e_output := Some stdout;
               e_error := orNull stderr; e_errors := None |})
       (fun error => Ret (timedOutOr error)))
    (cleanupTempFile cFile;; cleanupTempFile execFile).

(** [checkJavaSyntax] *)
Definition checkJavaSyntax (code : string) : Prog SyntaxResult :=
  tryCatch
    (className ← match search publicClass code with
                 | Some publicClassMatch => Ret (group 1 publicClassMatch)
                 | None => now ← dateNow; Ret ("Check_" +:+ ofN now)
                 end;
     let tempFile := pathJoin tempDir (className +:+ ".java") in
     writeFile tempFile code;;
     execAsync (dockerRun "openjdk:11" ("javac /code/" +:+ basenameOf tempFile));;
     cleanupTempFile tempFile;;
     cleanupTempFile (replaceFirst (Lit ".java") (fun _ => ".class") tempFile);;
     Ret validResult)
    (fun error =>
       Ret (withDetails (DetailList [])
              (invalidResult (Some (message error))))).

(** The list [standards], newest first. *)
Definition standards : list (string * string) :=
  [ ("c++20", "C++20"); ("c++17", "C++17"); ("c++14", "C++14");
    ("c++11", "C++11") ].

Definition gppCommand (tempFile std : string) : string :=
  "docker run --rm -v " +:+ quoted (tempDir +:+ ":/workspace")
  +:+ " -w /workspace " +:+ DOCKER_CPP_IMAGE +:+ " bash -c "
  +:+ sq +:+ "cat /workspace/" +:+ basenameOf tempFile
  +:+ " && g++ -std=" +:+ std +:+ " -fsyntax-only -Wall -Wextra /workspace/"
  +:+ basenameOf tempFile +:+ sq.

(** [checkCPPSyntax] *)
Definition checkCPPSyntax (code : string) : Prog SyntaxResult :=
  now ← dateNow;
  let tempFile := pathJoin tempDir ("check_" +:+ ofN now +:+ ".cpp") in
  tryCatch
    (if 1000000 <? len code then Ret tooLarge
     else
       let finalCode := headers +:+ code in
       writeFile tempFile finalCode;;
       ServerJs.checkWithStandards (gppCommand tempFile) standards
         adjustedLineNum getSuggestionForError tempFile)
    (fun error =>
       cleanupTempFile tempFile;;
       Ret (invalidResult (Some (message error)))).

(** ** The endpoint *)

Definition requiredResponse : Response :=
  {| status := 400;
     body := ErrorBody "Both code and language are required" None None None |}.

Definition unsupportedResponse : Response :=
  {| status := 400; body := ErrorBody "Unsupported language" None None None |}.

Definition internalError (error : JsError) : Response :=
  {| status := 500;
     body := ErrorBody "Internal server error" None None (Some (message error)) |}.

(** [execute...] of the language, as the [switch] selects it. *)
Definition execute (lang : Lang) (code : string) : Prog ExecutionResult :=
  match lang with
  | javascript => executeJavaScript code
  | python => executePython code
  | java => executeJava code
  | cpp => executeCPP code
  | c => executeC code
  end.

(** [check...Syntax] of the language, as the [switch] selects it. *)
Definition checkSyntax (lang : Lang) (code : string) : Prog SyntaxResult :=
  match lang with
  | javascript => checkJavaScriptSyntax code
  | python => checkPythonSyntax code
  | java => checkJavaSyntax code
  | cpp => checkCPPSyntax code
  | c => checkCSyntax code
  end.

(** The object assigned to [response.execution]. *)
Definition executionField (r : ExecutionResult) : Execution :=
  {| x_success := e_success r;
     x_output := if e_success r then e_output r else None;
     x_error := if e_success r then None else e_error r |}.

(** The handler of [POST /check-syntax]. *)
Definition checkSyntaxEndpoint (req : Request) : Prog Response :=
  match code req, language req with
  | Some code, Some language =>
      if negb (truthy code) || negb (truthy language) then Ret requiredResponse
      else
        decoded ← call (DecodeURIComponent code);
        let code := match decoded with Some d => d | None => code end in
        match normalizeLanguage language with
        | Null => Ret unsupportedResponse
        | Inherited _ =>
            (* no [case] matches: the [default] branch *)
            Ret unsupportedResponse
        | Canonical lang =>
            tryCatch
              (syntaxResult ← checkSyntax lang code;
               executionResult ←
                 (if valid syntaxResult
                  then r ← execute lang code; Ret (Some r)
                  else Ret None);
               Ret {| status := 200;
                      body := CheckedBody (valid syntaxResult)
                                (r_message syntaxResult) (r_error syntaxResult)
                                (r_details syntaxResult) language lang
                                (if valid syntaxResult
                                 then option_map executionField executionResult
                                 else None) |})
              (fun error =>
                 consoleError ("Error processing request: " +:+ message error);;
                 Ret (internalError error))
        end
  | _, _ => Ret requiredResponse
  end.

End Part003.
(* ================================================================== *)
(** * Worlds after one step *)
(* ================================================================== *)

Module Steps.
Import Eff Common.

(** The world after a clock reading. *)
Definition tick (w : World) : World :=
  {| files := files w; reads := S (reads w); trace := trace w |}.

(** The world after a successful write. *)
Definition written (path content : string) (w : World) : World :=
  emit (EvWrite path content) (setFiles ({[path]} ∪ files w) w).

(** The world after a child process has run. *)
Definition executed (o : Oracle) (cmd : string) (timeout : option N)
           (w : World) : World :=
  emit (EvExec cmd)
       (setFiles (list_to_set (created (o_exec o cmd timeout)) ∪ files w) w).

(** The world after [cleanupTempFile]. *)
Definition cleaned (o : Oracle) (path : string) (w : World) : World :=
  snd (run o (cleanupTempFile path) w).

End Steps.

(* ================================================================== *)
(** * Environments used to exercise the server *)
(* ================================================================== *)

Module Scenario.
Import Js Eff Common.

(** A clock stuck at one millisecond, children that exit successfully
    and silently, a file system that never fails, a parser that
    accepts, a decoder that leaves the text alone. *)
Definition quiet : Oracle :=
  {| o_clock := fun _ => 1700000000000;
     o_exec := fun _ _ => ExecOk EmptyString EmptyString [];
     o_write := fun _ => None;
     o_unlink := fun _ => None;
     o_babel := fun _ _ => None;
     o_decode := fun s => Some s |}.

(** [quiet] with another answer to [exec]. *)
Definition withExec (f : string -> option N -> ExecOutcome) : Oracle :=
  {| o_clock := o_clock quiet; o_exec := f; o_write := o_write quiet;
     o_unlink := o_unlink quiet; o_babel := o_babel quiet;
     o_decode := o_decode quiet |}.

(** [quiet] with another clock. *)
Definition withClock (f : nat -> N) : Oracle :=
  {| o_clock := f; o_exec := o_exec quiet; o_write := o_write quiet;
     o_unlink := o_unlink quiet; o_babel := o_babel quiet;
     o_decode := o_decode quiet |}.

(** A child that exits with a non-zero status and the given stderr. *)
Definition exitsWith (stderr : string) : ExecOutcome :=
  ExecFail {| message := "Command failed"; Eff.stderr := None;
              signal := None; errcode := None |}
           EmptyString stderr [].

Definition request (language code : string) : Request :=
  {| Common.code := Some code; Common.language := Some language |}.

(** g++ rejects the program under C++20 with a complaint about the
    standard and accepts it under every older one. *)
Definition rejectedByCpp20 : Oracle :=
  withExec (fun cmd _ =>
    if includes "-std=c++20" cmd
    then exitsWith "check.cpp:3:5: error: 'auto_ptr' was removed from the standard library"
    else ExecOk EmptyString EmptyString []).

(** Every compile or build step exits successfully and silently; every
    other child exits successfully after writing [out] and [err]. *)
Definition ranWith (out err : string) : Oracle :=
  withExec (fun _ timeout =>
    if bool_decide (timeout = Some Part003.COMPILE_TIMEOUT)
    then ExecOk EmptyString EmptyString []
    else ExecOk out err []).

Definition unusedVariable : string :=
  "/usr/src/app/temp/check_1700000000000.c:1:18: warning: unused variable 'x' [-Wunused-variable]".

(** gcc exits successfully after a warning. *)
Definition warnsOnly : Oracle :=
  withExec (fun _ _ => ExecOk EmptyString unusedVariable []).

End Scenario.

(* ================================================================== *)
(** * Readings of the specification that the code does not meet

    Each definition states a sentence of the specification at one
    input, so that it can be tested there. *)
(* ================================================================== *)

Module Stated.
Import Js Eff Common.

(** The body is an error object whose [supported] property is the
    alias list. *)
Definition listsSupported (r : Response) : Prop :=
  match body r with
  | ErrorBody _ _ (Some l) _ => l = supportedAliases
  | _ => False
  end.

Definition clientError (r : Response) : Prop := 400 <= status r < 500.

(** Unknown identifier: a client error listing the aliases, nothing
    written, nothing executed. *)
Definition unknown_language_listed (endpoint : Request -> Prog Response)
           (o : Oracle) (w : World) (language code : string) : Prop :=
  exists r w',
    run o (endpoint (Scenario.request language code)) w = (Fulfilled r, w')
    /\ clientError r /\ listsSupported r /\ trace w' = trace w.

(** Line 13 of a wrapped Java fragment, where the synthesized class
    is declared. *)
Definition classLine (wrapped : string) : option string :=
  split_nl wrapped !! 12%nat.

(** Two requests, wrapped at the worlds [w1] and [w2], declare
    different classes. *)
Definition class_names_differ (o : Oracle) (w1 w2 : World)
           (code1 code2 : string) : Prop :=
  forall s1 s2,
    fst (run o (ServerJs.wrapCodeSnippet code1 "java") w1) = Fulfilled s1 ->
    fst (run o (ServerJs.wrapCodeSnippet code2 "java") w2) = Fulfilled s2 ->
    classLine s1 <> classLine s2.

(** The temp file [checkCPPSyntax] of [server.js] uses when started
    in world [w]. *)
Definition cppTempFile (o : Oracle) (w : World) : string :=
  pathJoin tempDir ("check_" +:+ ofN (o_clock o (reads w)) +:+ ".cpp").

(** g++ accepts the file under the flag [std]. *)
Definition accepts (o : Oracle) (tempFile std : string) : bool :=
  match o_exec o (ServerJs.gppCommand tempFile std) None with
  | ExecOk _ _ _ => true
  | ExecFail _ _ _ _ => false
  end.

(** The reported name of the oldest standard of the list that
    accepts. *)
Definition oldestAccepting (o : Oracle) (tempFile : string)
           (stds : list (string * string)) : option string :=
  last (map snd (List.filter (fun p => accepts o tempFile (fst p)) stds)).

(** When the newest standard rejects and some standard accepts, the
    checker reports the oldest accepting one. *)
Definition reports_oldest_accepting (o : Oracle) (w : World)
           (code : string) : Prop :=
  accepts o (cppTempFile o w) "c++20" = false ->
  oldestAccepting o (cppTempFile o w) ServerJs.standards <> None ->
  exists r w',
    run o (ServerJs.checkCPPSyntax code) w = (Fulfilled r, w')
    /\ r_standard r = oldestAccepting o (cppTempFile o w) ServerJs.standards.


(** What gcc wrote to stderr when [checkCSyntax] is started in [w]. *)
Definition gccStderr (o : Oracle) (w : World) : string :=
  match o_exec o ("gcc -fsyntax-only -Wall -pedantic "
                  +:+ quoted (pathJoin tempDir
                        ("check_" +:+ ofN (o_clock o (reads w)) +:+ ".c")))
               None with
  | ExecOk _ err _ => err
  | ExecFail _ _ err _ => err
  end.

(** The diagnostics the result carries. *)
Definition diagnostics (r : SyntaxResult) : list Diag :=
  default [] (r_errors r).

(** Every warning and error gcc printed is a diagnostic of the
    result, and the result is valid exactly when none of its
    diagnostics is an error. *)
Definition c_diagnostics_captured (o : Oracle) (w : World) (code : string) : Prop :=
  exists r w',
    run o (checkCSyntax code) w = (Fulfilled r, w')
    /\ (forall d, d ∈ cDiagnostics (gccStderr o w) -> d ∈ diagnostics r)
    /\ (valid r = true <-> forall d, d ∈ diagnostics r -> type d <> "error").


End Stated.

(* ================================================================== *)
(** * Structure of wrapped output *)
(* ================================================================== *)

Module Shape.
Import Js.

(** No line feed in the string. *)
Definition oneLine (s : string) : Prop :=
  Forall (fun ch => Ascii.eqb ch (chr 10) = false) (list_ascii_of_string s).

End Shape.

(* ================================================================== *)
(** * Vocabulary for the behaviour of whole functions *)
(* ================================================================== *)

Module Outcome.
Import Js Eff Common.

(** The promise of [p] is fulfilled in every world: no exception
    escapes. *)
Definition settles {A} (o : Oracle) (p : Prog A) : Prop :=
  forall w, exists r w', run o p w = (Fulfilled r, w').

(** The events a program adds to the trace. *)
Definition added {A} (o : Oracle) (p : Prog A) (w : World) : list Event :=
  drop (length (trace w)) (trace (snd (run o p w))).

(** The temp file names of the checkers, for the clock reading [now]. *)
Definition pythonTempFile (now : N) : string :=
  pathJoin tempDir ("check_" +:+ ofN now +:+ ".py").
Definition cTempFile (now : N) : string :=
  pathJoin tempDir ("check_" +:+ ofN now +:+ ".c").
Definition cppTempFileAt (now : N) : string :=
  pathJoin tempDir ("check_" +:+ ofN now +:+ ".cpp").
Definition javaTempFile (now : N) : string :=
  pathJoin tempDir ("Solution_" +:+ ofN now +:+ ".java").

(** The promise of [p] is fulfilled in every world, and afterwards the
    file [path] is not in the temp directory, unless [unlink] itself
    fails on it. *)
Definition removes {A} (o : Oracle) (p : Prog A) (path : string) : Prop :=
  forall w, exists r w',
    run o p w = (Fulfilled r, w')
    /\ (o_unlink o path = None -> path ∉ files w').

(** A string of 1,048,576 code units. *)
Fixpoint doubled (n : nat) (s : string) : string :=
  match n with
  | O => s
  | S n' => doubled n' (s +:+ s)
  end.
Definition oversized : string := doubled 20 "a".

End Outcome.

(* ================================================================== *)
(** * The files of the execute functions *)
(* ================================================================== *)

Module Artifacts.
Import Js Eff Common.

(** The names the [execute...] functions of [part_003] build from the
    clock reading [now]. *)
Definition jsRunFile (now : N) : string :=
  pathJoin tempDir ("js_" +:+ ofN now +:+ ".js").
Definition pythonRunFile (now : N) : string :=
  pathJoin tempDir ("script_" +:+ ofN now +:+ ".py").
Definition cppRunFile (now : N) : string :=
  pathJoin tempDir ("program_" +:+ ofN now +:+ ".cpp").
Definition cppRunBinary (now : N) : string :=
  pathJoin tempDir ("program_" +:+ ofN now).
Definition cppDockerfile (now : N) : string :=
  pathJoin tempDir ("Dockerfile_" +:+ ofN now).
Definition cRunFile (now : N) : string :=
  pathJoin tempDir ("program_" +:+ ofN now +:+ ".c").
Definition cRunBinary (now : N) : string :=
  pathJoin tempDir ("program_" +:+ ofN now).

(** [extractJavaClassName(code) || `Solution_${Date.now()}`] *)
Definition javaRunName (code : string) (now : N) : string :=
  match Part003.extractJavaClassName code with
  | Some n => n
  | None => "Solution_" +:+ ofN now
  end.
Definition javaRunFile (className : string) : string :=
  pathJoin tempDir (className +:+ ".java").
Definition javaClassFile (className : string) : string :=
  pathJoin tempDir (className +:+ ".class").

(** What the container based functions return after a timeout. *)
Definition timedOut : Part003.ExecutionResult :=
  {| Part003.e_success := false; Part003.e_output := None;
     Part003.e_error :=
       Some "Execution timed out. Your code took too long to run.";
     Part003.e_errors := None |}.

(** Every command started with a timeout is killed by it. *)
Definition alwaysTimesOut (o : Oracle) : Prop :=
  forall cmd t, exists e out err fs,
    o_exec o cmd (Some t) = ExecFail e out err fs
    /\ signal e = Some "SIGTERM".

(** A child killed by the timeout of [exec]. *)
Definition killed : ExecOutcome :=
  ExecFail {| message := "Command failed"; Eff.stderr := None;
              signal := Some "SIGTERM"; errcode := None |}
           EmptyString EmptyString [].

(** An environment in which every child is killed by its timeout. *)
Definition slow : Oracle := Scenario.withExec (fun _ _ => killed).

(** What [py_compile] prints for an error on line 6 of the file. *)
Definition pythonComplaint : string :=
  "  File " +:+ dq +:+ "/usr/src/app/temp/check_1700000000000.py" +:+ dq
  +:+ ", line 6" +:+ nl +:+ "SyntaxError: '(' was never closed".

(** An environment in which every compiler rejects with that output. *)
Definition pythonRejects : Oracle :=
  Scenario.withExec (fun _ _ => Scenario.exitsWith pythonComplaint).

End Artifacts.

(* ================================================================== *)
(** * Requests *)
(* ================================================================== *)

Module Requests.
Import Js Eff Common.

(** Both fields of the body are there and neither is the empty string:
    the request passes [if (!code || !language)]. *)
Definition filled (req : Request) (code language : string) : Prop :=
  Common.code req = Some code /\ Common.language req = Some language
  /\ truthy code = true /\ truthy language = true.

End Requests.

(* ================================================================== *)
(** * The Stack template of Stack.hpp, Stack.h and stack_test.cpp *)
(* ================================================================== *)

Module StackHpp.
Local Open Scope Z_scope.

(** [MAX_SIZE] *)
Definition MAX_SIZE : Z := 100.

(** The class: the array and the index of the top element.  [top] is an
    [int]; it stays far from the ends of its range, so it is an integer
    here. *)
Record Stack (T : Type) := { arr : list T; top : Z }.
Arguments arr {T} s.
Arguments top {T} s.

(** The three files hold the same class.  [Stack.h] throws with other
    texts and takes the argument of [push] by value; [stack_test.cpp]
    adds [peek] and [size]. *)
Inductive Header := Stack_hpp | Stack_h | stack_test_cpp.

Definition fullText (h : Header) : string :=
  match h with
  | Stack_h => "Stack overflow"
  | Stack_hpp | stack_test_cpp => "Stack is full"
  end.

Definition emptyText (h : Header) : string :=
  match h with
  | Stack_h => "Stack underflow"
  | Stack_hpp | stack_test_cpp => "Stack is empty"
  end.

Inductive exception :=
| overflow_error (what : string)
| underflow_error (what : string).

(** How a member function ends: it returns, it throws (the object is
    as it was), or it indexes [arr] outside the array, which the
    language leaves undefined. *)
Inductive Result (A : Type) :=
| Returns (a : A)
| Throws (e : exception)
| OutOfBounds.
Arguments Returns {A} a.
Arguments Throws {A} e.
Arguments OutOfBounds {A}.

(** [Stack() : top(-1) {}]; [storage] is what default initialisation
    leaves in [T arr[MAX_SIZE]]. *)
Definition construct {T} (storage : list T) : Stack T :=
  {| arr := storage; top := -1 |}.

(** [isEmpty] *)
Definition isEmpty {T} (s : Stack T) : bool := top s =? -1.

(** [size] *)
Definition size {T} (s : Stack T) : Z := top s + 1.

(** [arr[i]] is an element of the array. *)
Definition inArray {T} (s : Stack T) (i : Z) : bool :=
  (0 <=? i) && (i <? Z.of_nat (length (arr s))).

(** [push]: [arr[++top] = value] behind the test for a full stack. *)
Definition push {T} (h : Header) (value : T) (s : Stack T) : Result (Stack T) :=
  if top s >=? MAX_SIZE - 1 then Throws (overflow_error (fullText h))
  else
    let top' := top s + 1 in
    if inArray s top'
    then Returns {| arr := <[Z.to_nat top' := value]> (arr s); top := top' |}
    else OutOfBounds.

(** [pop]: [return arr[top--]] behind the test for an empty stack. *)
Definition pop {T} (h : Header) (s : Stack T) : Result (T * Stack T) :=
  if isEmpty s then Throws (underflow_error (emptyText h))
  else
    match (if inArray s (top s) then arr s !! Z.to_nat (top s) else None) with
    | Some v => Returns (v, {| arr := arr s; top := top s - 1 |})
    | None => OutOfBounds
    end.

(** [peek]: [return arr[top]] behind the same test. *)
Definition peek {T} (h : Header) (s : Stack T) : Result T :=
  if isEmpty s then Throws (underflow_error (emptyText h))
  else
    match (if inArray s (top s) then arr s !! Z.to_nat (top s) else None) with
    | Some v => Returns v
    | None => OutOfBounds
    end.

(** The loops of the test programs that push one value after the
    other; an exception ends the loop. *)
Fixpoint pushAll {T} (h : Header) (values : list T) (s : Stack T)
  : Result (Stack T) :=
  match values with
  | [] => Returns s
  | v :: rest =>
      match push h v s with
      | Returns s' => pushAll h rest s'
      | Throws e => Throws e
      | OutOfBounds => OutOfBounds
      end
  end.

(** [while (!stack.isEmpty()) std::cout << stack.pop() << " ";] run for
    at most [fuel] tests of the condition: the values printed, in the
    order printed, and the stack afterwards; [None] when the loop is
    still running. *)
Fixpoint drain {T} (h : Header) (fuel : nat) (s : Stack T)
  : option (Result (list T * Stack T)) :=
  match fuel with
  | O => None
  | S fuel' =>
      if isEmpty s then Some (Returns ([], s))
      else
        match pop h s with
        | Returns (v, s') =>
            match drain h fuel' s' with
            | Some (Returns (vs, s'')) => Some (Returns (v :: vs, s''))
            | other => other
            end
        | Throws e => Some (Throws e)
        | OutOfBounds => Some OutOfBounds
        end
  end.

(** The elements of the stack, bottom first. *)
Definition contents {T} (s : Stack T) : list T :=
  take (Z.to_nat (top s + 1)) (arr s).

(** The array has its [MAX_SIZE] elements and [top] is [-1] or an index
    of it. *)
Definition wellFormed {T} (s : Stack T) : Prop :=
  Z.of_nat (length (arr s)) = MAX_SIZE /\ -1 <= top s < MAX_SIZE.

(** The operations a client can apply to the object. *)
Inductive Call (T : Type) :=
| CallPush (value : T)
| CallPop
| CallPeek.
Arguments CallPush {T} value.
Arguments CallPop {T}.
Arguments CallPeek {T}.

(** The object after a call; after an exception it is as before. *)
Definition after {T} (h : Header) (c : Call T) (s : Stack T) : option (Stack T) :=
  match c with
  | CallPush v =>
      match push h v s with
      | Returns s' => Some s'
      | Throws _ => Some s
      | OutOfBounds => None
      end
  | CallPop =>
      match pop h s with
      | Returns (_, s') => Some s'
      | Throws _ => Some s
      | OutOfBounds => None
      end
  | CallPeek =>
      match peek h s with
      | Returns _ | Throws _ => Some s
      | OutOfBounds => None
      end
  end.

(** The object after a sequence of calls whose exceptions are caught;
    [None] once a call has left the array. *)
Fixpoint afterAll {T} (h : Header) (cs : list (Call T)) (s : Stack T)
  : option (Stack T) :=
  match cs with
  | [] => Some s
  | c0 :: rest =>
      match after h c0 s with
      | Some s' => afterAll h rest s'
      | None => None
      end
  end.

(** A stack of integers just constructed, its array zeroed. *)
Definition fresh : Stack Z := construct (replicate 100%nat 0).

End StackHpp.

(* ================================================================== *)
(** * part_002: the execute functions that run on the host *)
(* ================================================================== *)

Module Part002.
Import Js Regex Eff Common.

#[local] Abbreviation ExecutionResult := Part003.ExecutionResult.

Definition noOutput : string := "Code executed successfully with no output".

(** [{ success: true, output: stdout || '...' }] *)
Definition succeeded (stdout : string) : ExecutionResult :=
  {| Part003.e_success := true;
     Part003.e_output := Some (orElse stdout noOutput);
     Part003.e_error := None; Part003.e_errors := None |}.

(** [{ success: false, error: text }] *)
Definition failed (text : string) : ExecutionResult :=
  {| Part003.e_success := false; Part003.e_output := None;
     Part003.e_error := Some text; Part003.e_errors := None |}.

(** The class [executeJava] writes around code without "class". *)
Definition javaProgram (className code : string) : string :=
  join nl
    [ EmptyString;
      "public class " +:+ className +:+ " {";
      "    public static void main(String[] args) {";
      "        " +:+ code;
      "    }";
      "}" ].

Definition javaClassName (code : string) (now : N) : string :=
  match search publicClass code with
  | Some publicClassMatch => group 1 publicClassMatch
  | None => "Solution_" +:+ ofN now
  end.

Definition wrappedJava (code className : string) : string :=
  if includes "class" code then code else javaProgram className code.

Definition javacCommand (javaFile : string) : string :=
  Part003.dockerRun "openjdk:11" ("javac /code/" +:+ Part003.basenameOf javaFile).

Definition javaCommand (className : string) : string :=
  Part003.dockerRun "openjdk:11" ("java -cp /code " +:+ className).

(** [executeJava] *)
Definition executeJava (code : string) : Prog ExecutionResult :=
  className ← match search publicClass code with
              | Some publicClassMatch => Ret (group 1 publicClassMatch)
              | None => now ← dateNow; Ret ("Solution_" +:+ ofN now)
              end;
  let javaFile := pathJoin tempDir (className +:+ ".java") in
  let classFile := pathJoin tempDir (className +:+ ".class") in
  tryCatch
    (let wrappedCode := wrappedJava code className in
     writeFile javaFile wrappedCode;;
     execAsync (javacCommand javaFile);;
     '(stdout, stderr) ← execAsync (javaCommand className);
     cleanupTempFile javaFile;;
     cleanupTempFile classFile;;
     if truthy stderr then Ret (failed stderr) else Ret (succeeded stdout))
    (fun error =>
       cleanupTempFile javaFile;;
       cleanupTempFile classFile;;
       Ret (failed (message error))).

(** The body [executeCPP] and [executeC] share: write the source,
    build it with [build], run the executable, remove both files. *)
Definition buildAndRun (sourceFile executableFile build code : string)
  : Prog ExecutionResult :=
  tryCatch
    (writeFile sourceFile code;;
     execAsync build;;
     '(stdout, _) ← execAsync (quoted executableFile);
     cleanupTempFile sourceFile;;
     cleanupTempFile executableFile;;
     Ret (succeeded stdout))
    (fun error =>
       cleanupTempFile sourceFile;;
       cleanupTempFile executableFile;;
       Ret (failed (message error))).

Definition cppSource (now : N) : string :=
  pathJoin tempDir ("cpp_" +:+ ofN now) +:+ ".cpp".
Definition cppExecutable (now : N) : string :=
  pathJoin tempDir ("cpp_" +:+ ofN now) +:+ ".out".
Definition cSource (now : N) : string :=
  pathJoin tempDir ("c_" +:+ ofN now) +:+ ".c".
Definition cExecutable (now : N) : string :=
  pathJoin tempDir ("c_" +:+ ofN now) +:+ ".out".

Definition gppBuild (now : N) : string :=
  "g++ -std=c++20 " +:+ quoted (cppSource now) +:+ " -o "
  +:+ quoted (cppExecutable now).
Definition gccBuild (now : N) : string :=
  "gcc " +:+ quoted (cSource now) +:+ " -o " +:+ quoted (cExecutable now).

(** [executeCPP] *)
Definition executeCPP (code : string) : Prog ExecutionResult :=
  now ← dateNow;
  let tempFile := pathJoin tempDir ("cpp_" +:+ ofN now) in
  let sourceFile := tempFile +:+ ".cpp" in
  let executableFile := tempFile +:+ ".out" in
  buildAndRun sourceFile executableFile
    ("g++ -std=c++20 " +:+ quoted sourceFile +:+ " -o " +:+ quoted executableFile)
    code.

(** [executeC] *)
Definition executeC (code : string) : Prog ExecutionResult :=
  now ← dateNow;
  let tempFile := pathJoin tempDir ("c_" +:+ ofN now) in
  let sourceFile := tempFile +:+ ".c" in
  let executableFile := tempFile +:+ ".out" in
  buildAndRun sourceFile executableFile
    ("gcc " +:+ quoted sourceFile +:+ " -o " +:+ quoted executableFile)
    code.

(** The child exited with status 0. *)
Definition exitedCleanly (r : ExecOutcome) : Prop :=
  exists out err fs, r = ExecOk out err fs.

End Part002.

(* ================================================================== *)
(** * Preparing code: the wrapped text and its line offset *)
(* ================================================================== *)

Module Prepared.
Import Js Eff Common.

(** [hasWrapper], as the handler of [server.js] computes it from the
    code, before it wraps it. *)
Definition hasWrapper (code : string) : bool :=
  negb (includes "main(" code) && negb (includes "class" code).

(** The number of lines taken off every reported line for this code
    and this language: the entry of [wrapperLines] when [hasWrapper]
    holds, and nothing otherwise.  ([part_003] has the same table in
    its [adjustErrorLineNumbers].) *)
Definition wrapperLineOffset (code : string) (lang : Lang) : N :=
  if hasWrapper code then ServerJs.wrapperLines (langName lang) else 0.

(** Preparing a pair: the wrapped text, and the offset that goes with
    it. *)
Definition prepare (wrap : string -> string -> Prog string)
           (code : string) (lang : Lang) : Prog (string * N) :=
  let offset := wrapperLineOffset code lang in
  wrapped ← wrap code (langName lang);
  Ret (wrapped, offset).

(** The pair is on the Java path that synthesizes a wrapper class. *)
Definition synthesizesClass (code : string) (lang : Lang) : bool :=
  match lang with
  | java => negb (includes "class" code)
  | _ => false
  end.

(** Preparation is deterministic: whenever and wherever a pair is
    prepared, the outcome is the same. *)
Definition deterministic (wrap : string -> string -> Prog string)
           (code : string) (lang : Lang) : Prop :=
  forall o1 o2 w1 w2,
    fst (run o1 (prepare wrap code lang) w1)
    = fst (run o2 (prepare wrap code lang) w2).

(** What two preparations of one pair, at the worlds [w1] and [w2],
    have in common: the same offset, texts with the same number of
    lines that agree on every line but line 13, and the same text
    altogether exactly when no class is synthesized or the two clock
    readings are the same. *)
Definition alike (wrap : string -> string -> Prog string)
           (o1 o2 : Oracle) (w1 w2 : World)
           (code : string) (lang : Lang) : Prop :=
  exists s1 s2 offset,
    fst (run o1 (prepare wrap code lang) w1) = Fulfilled (s1, offset)
    /\ fst (run o2 (prepare wrap code lang) w2) = Fulfilled (s2, offset)
    /\ length (split_nl s1) = length (split_nl s2)
    /\ (forall i, i <> 12%nat -> split_nl s1 !! i = split_nl s2 !! i)
    /\ (s1 = s2 <->
        synthesizesClass code lang = false
        \/ o_clock o1 (reads w1) = o_clock o2 (reads w2)).

End Prepared.

(* ================================================================== *)
(** * The application around the handlers *)
(* ================================================================== *)

Module App.
Import Js Eff Common.




(** What the client gets: a response of the application's own, or the
    status 413 with which the JSON middleware refuses a body that is
    over its limit. *)
Inductive Answer : Type :=
| Sent (r : Response)
| PayloadTooLarge.

Definition statusOf (a : Answer) : N :=
  match a with
  | Sent r => status r
  | PayloadTooLarge => 413
  end.







(** The number of bytes of a string in UTF-8, for code units below
    256. *)
Fixpoint utf8Length (s : string) : N :=
  match s with
  | EmptyString => 0
  | String ch s' => (if Js.code ch <? 128 then 1 else 2) + utf8Length s'
  end.


Definition clientError (a : Answer) : Prop := 400 <= statusOf a < 500.


End App.

(* ================================================================== *)
(** * Diagnostic lines, read without the pattern *)
(* ================================================================== *)

Module Diagnosed.
Import Js Eff Common.

(** A run of one or more decimal digits. *)
Definition digits (s : string) : Prop :=
  s <> EmptyString
  /\ Forall (fun ch => isDigit ch = true) (list_ascii_of_string s).

(** White space only, possibly none. *)
Definition blanks (s : string) : Prop :=
  Forall (fun ch => isSpace ch = true) (list_ascii_of_string s).

(** No line terminator inside. *)
Definition withinLine (s : string) : Prop :=
  Forall (fun ch => isDot ch = true) (list_ascii_of_string s).

Definition severity (s : string) : Prop := s = "warning" \/ s = "error".

(** The text is over, or its first character is not of the class. *)
Definition stopsAt (p : ascii -> bool) (s : string) : Prop :=
  match s with
  | EmptyString => True
  | String ch _ => p ch = false
  end.

(** One way of reading a line as
    [file:line:column: severity: message], with what comes before and
    after. *)
Record Reading := {
  lead : string;
  file : string;
  lineText : string;
  columnText : string;
  gap : string;
  severityText : string;
  gap' : string;
  messageText : string;
  trail : string
}.

Definition readsAs (ln : string) (r : Reading) : Prop :=
  ln = lead r +:+ file r +:+ ":" +:+ lineText r +:+ ":" +:+ columnText r
       +:+ ":" +:+ gap r +:+ severityText r +:+ ":" +:+ gap' r
       +:+ messageText r +:+ trail r
  /\ withinLine (file r)
  /\ digits (lineText r)
  /\ digits (columnText r)
  /\ blanks (gap r)
  /\ severity (severityText r)
  /\ blanks (gap' r)
  /\ withinLine (messageText r)
  /\ stopsAt isDot (trail r).

(** The line has the shape. *)
Definition shaped (ln : string) : Prop := exists r, readsAs ln r.

(** Of the readings of a line, the one that starts first, has the
    shortest file part from there, and leaves no blank after the
    severity's colon to the message. *)
Definition preferred (ln : string) (r : Reading) : Prop :=
  (forall r', readsAs ln r' ->
              (String.length (lead r) <= String.length (lead r'))%nat)
  /\ (forall r', readsAs ln r' -> lead r' = lead r ->
                 (String.length (file r) <= String.length (file r'))%nat)
  /\ stopsAt isSpace (messageText r +:+ trail r).

(** The structured entry of a reading. *)
Definition entryOf (r : Reading) : Diag :=
  {| line := parseInt (lineText r);
     column := parseInt (columnText r);
     type := severityText r;
     dmessage := trim (messageText r);
     suggestion := None |}.

(** The entries [ds] are what the lines [lns] hold: one entry for
    every line of the shape, made from the preferred reading of that
    line, in the order of the lines, and nothing for the other
    lines. *)
Inductive captured : list string -> list Diag -> Prop :=
| captured_nil : captured [] []
| captured_skip (ln : string) (lns : list string) (ds : list Diag) :
    ~ shaped ln -> captured lns ds -> captured (ln :: lns) ds
| captured_take (ln : string) (lns : list string) (r : Reading)
                (ds : list Diag) :
    readsAs ln r -> preferred ln r -> captured lns ds ->
    captured (ln :: lns) (entryOf r :: ds).

End Diagnosed.

(* ================================================================== *)
(** * Properties *)
(* ================================================================== *)

Module RegexTests.
Import Js Regex.

Example gccLine_error :
  option_map groups (search gccLine "/tmp/check_5.c:7:13: error: expected ';' before 'return'")
  = Some ["/tmp/check_5.c"; "7"; "13"; "error"; "expected ';' before 'return'"].
Proof. vm_compute. reflexivity. Qed.

Example gccLine_note :
  search gccLine "/tmp/check_5.c:7:13: note: declared here" = None.
Proof. vm_compute. reflexivity. Qed.

Example publicClass_replace :
  replaceFirst publicClass (fun m => "class " +:+ group 1 m)
               "  public   class Foo { }" = "  class Foo { }".
Proof. vm_compute. reflexivity. Qed.

Example split_join :
  split_nl (join nl ["a"; EmptyString; "b"]) = ["a"; EmptyString; "b"].
Proof. vm_compute. reflexivity. Qed.

Example ofN_13 : ofN 1700000000000 = "1700000000000".
Proof. vm_compute. reflexivity. Qed.
End RegexTests.

(* ================================================================== *)
(** * What a match of the diagnostic pattern captures *)
(* ================================================================== *)

Section RegexSoundness.
Import Js Regex Eff Common.

Lemma starGreedy_sound {R} (p : ascii -> bool) (s : string)
      (k : string -> option R) (x : R) :
  starGreedy p s k = Some x ->
  exists pre s',
    s = pre +:+ s'
    /\ Forall (fun ch => p ch = true) (list_ascii_of_string pre)
    /\ k s' = Some x.
Proof.
  induction s as [|ch s IH]; cbn [starGreedy]; intros H.
  - exists EmptyString, EmptyString. repeat split; [constructor | exact H].
  - destruct (p ch) eqn:Hp.
    + destruct (starGreedy p s k) as [y|] eqn:Hrec.
      * inversion H; subst y.
        destruct (IH eq_refl) as (pre & s' & -> & Hall & Hk).
        exists (String ch pre), s'. repeat split; [constructor; assumption | exact Hk].
      * exists EmptyString, (String ch s). repeat split; [constructor | exact H].
    + exists EmptyString, (String ch s). repeat split; [constructor | exact H].
Qed.

Lemma starLazy_sound {R} (p : ascii -> bool) (s : string)
      (k : string -> option R) (x : R) :
  starLazy p s k = Some x ->
  exists pre s',
    s = pre +:+ s'
    /\ Forall (fun ch => p ch = true) (list_ascii_of_string pre)
    /\ k s' = Some x.
Proof.
  induction s as [|ch s IH]; cbn [starLazy]; intros H.
  - destruct (k EmptyString) as [y|] eqn:Hk; [|discriminate].
    exists EmptyString, EmptyString. repeat split; [constructor|].
    rewrite Hk. exact H.
  - destruct (k (String ch s)) as [y|] eqn:Hk.
    + exists EmptyString, (String ch s). repeat split; [constructor|].
      rewrite Hk. exact H.
    + destruct (p ch) eqn:Hp; [|discriminate].
      destruct (IH H) as (pre & s' & -> & Hall & Hk').
      exists (String ch pre), s'. repeat split; [constructor; assumption | exact Hk'].
Qed.

(** Whatever the matcher hands to its continuation is a match. *)
Lemma matchAt_sound {R} (r : re) :
  forall (s : string) (caps : list string)
         (k : string -> list string -> option R) (x : R),
    matchAt r s caps k = Some x ->
    exists s' caps', matches r s caps s' caps' /\ k s' caps' = Some x.
Proof.
  induction r as [l | p | p | p | a IHa b IHb | a IHa b IHb | a IHa];
    intros s caps k x H; cbn [matchAt] in H; cbn [matches].
  - destruct (startsWith l s) eqn:Hl; [|discriminate].
    eexists _, _. split; [|exact H]. auto.
  - destruct s as [|ch s]; [discriminate|].
    destruct (p ch) eqn:Hp; [|discriminate].
    exists s, caps. split; [|exact H]. split; [exists ch; auto | reflexivity].
  - apply starGreedy_sound in H. destruct H as (pre & s' & Hs & Hall & Hk).
    exists s', caps. split; [|exact Hk]. split; [exists pre; auto | reflexivity].
  - apply starLazy_sound in H. destruct H as (pre & s' & Hs & Hall & Hk).
    exists s', caps. split; [|exact Hk]. split; [exists pre; auto | reflexivity].
  - apply IHa in H. destruct H as (s1 & c1 & Ha & H).
    apply IHb in H. destruct H as (s' & caps' & Hb & Hk).
    exists s', caps'. split; [|exact Hk]. exists s1, c1. auto.
  - destruct (matchAt a s caps k) as [y|] eqn:Ha.
    + inversion H; subst y. apply IHa in Ha.
      destruct Ha as (s' & caps' & Hm & Hk). exists s', caps'. auto.
    + apply IHb in H. destruct H as (s' & caps' & Hm & Hk). exists s', caps'. auto.
  - apply IHa in H. destruct H as (s' & c1 & Hm & Hk).
    eexists _, _. split; [|exact Hk]. exists c1. auto.
Qed.

Lemma searchFrom_sound (r : re) (s pre : string) (m : found) :
  searchFrom r pre s = Some m ->
  exists s0 s', matches r s0 [] s' (groups m).
Proof.
  revert pre. induction s as [|ch s IH]; intros pre H; cbn [searchFrom] in H.
  - destruct (matchAt r EmptyString [] _) as [[s' caps]|] eqn:Hm; [|discriminate].
    inversion H; subst m. cbn [groups].
    apply matchAt_sound in Hm. destruct Hm as (s1 & c1 & Hmt & Hk).
    inversion Hk; subst. eauto.
  - destruct (matchAt r (String ch s) [] _) as [[s' caps]|] eqn:Hm.
    + inversion H; subst m. cbn [groups].
      apply matchAt_sound in Hm. destruct Hm as (s1 & c1 & Hmt & Hk).
      inversion Hk; subst. eauto.
    + eapply IH. exact H.
Qed.

Lemma string_length_app (a b : string) :
  String.length (a +:+ b) = (String.length a + String.length b)%nat.
Proof. induction a as [|ch a IH]; simpl; [reflexivity | rewrite IH; reflexivity]. Qed.

Lemma substring_prefix (a b : string) :
  String.substring 0 (String.length a) (a +:+ b) = a.
Proof. induction a as [|ch a IH]; simpl; [destruct b; reflexivity | rewrite IH; reflexivity]. Qed.

(** The text consumed in front of a suffix is the prefix. *)
Lemma consumed_app (pre rest : string) : consumed (pre +:+ rest) rest = pre.
Proof.
  unfold consumed. rewrite string_length_app.
  replace (String.length pre + String.length rest - String.length rest)%nat
    with (String.length pre) by lia.
  apply substring_prefix.
Qed.

Lemma startsWith_split (l s : string) :
  startsWith l s = true -> s = l +:+ slice (String.length l) s.
Proof.
  revert s. induction l as [|a l IH]; intros s H; [reflexivity|].
  destruct s as [|b s]; [discriminate|]. cbn [startsWith] in H.
  destruct (Ascii.eqb a b) eqn:E; [|discriminate].
  apply Ascii.eqb_eq in E. subst b. cbn [String.length slice].
  change (String a l +:+ slice (String.length l) s)
    with (String a (l +:+ slice (String.length l) s)).
  f_equal. apply IH. exact H.
Qed.

Lemma consumed_literal (l s : string) :
  startsWith l s = true -> consumed s (slice (String.length l) s) = l.
Proof.
  intros H. rewrite (startsWith_split l s H) at 1. apply consumed_app.
Qed.

(** A match of the gcc diagnostic pattern has five groups; the second
    and third are non-empty runs of digits and the fourth is "warning"
    or "error". *)
Lemma gccLine_groups (ln : string) (m : found) :
  search gccLine ln = Some m ->
  exists file lineNum col ty msg,
    groups m = [file; lineNum; col; ty; msg]
    /\ allDigits lineNum /\ lineNum <> EmptyString
    /\ allDigits col /\ col <> EmptyString
    /\ (ty = "warning" \/ ty = "error").
Proof.
  intros H. apply searchFrom_sound in H. destruct H as (s0 & s' & H).
  unfold gccLine, Plus in H. cbn [seqs matches] in H.
  destruct H as (s1 & c1 & (c1' & [_ ->] & ->) & H).
  destruct H as (s2 & c2 & (_ & _ & ->) & H).
  destruct H as (s3 & c3 & (c3' & Hline & ->) & H).
  destruct Hline as (s3a & c3a & [(d1 & -> & Hd1) ->] & [(ds1 & -> & Hds1) ->]).
  destruct H as (s4 & c4 & (_ & _ & ->) & H).
  destruct H as (s5 & c5 & (c5' & Hcol & ->) & H).
  destruct Hcol as (s5a & c5a & [(d2 & -> & Hd2) ->] & [(ds2 & -> & Hds2) ->]).
  destruct H as (s6 & c6 & (_ & _ & ->) & H).
  destruct H as (s7 & c7 & (_ & ->) & H).
  destruct H as (s8 & c8 & (c8' & Hty & ->) & H).
  destruct H as (s9 & c9 & (_ & _ & ->) & H).
  destruct H as (s10 & c10 & (_ & ->) & H).
  destruct H as (c11 & [_ ->] & ->).
  change (String d1 (ds1 +:+ s3)) with (String d1 ds1 +:+ s3) in *.
  change (String d2 (ds2 +:+ s5)) with (String d2 ds2 +:+ s5) in *.
  destruct Hty as [(Hl & -> & ->) | (Hl & -> & ->)];
    rewrite (consumed_literal _ _ Hl), !consumed_app; cbn [app];
    eexists _, _, _, _, _; (split; [reflexivity|]);
    (split; [constructor; assumption|]); (split; [discriminate|]);
    (split; [constructor; assumption|]); (split; [discriminate|]); auto.
Qed.

(** Every entry of [errors] of the C checker has severity "warning" or
    "error". *)
Lemma cDiagnostics_severity (stderr : string) (d : Diag) :
  d ∈ cDiagnostics stderr -> type d = "warning" \/ type d = "error".
Proof.
  unfold cDiagnostics. intros H. apply list_elem_of_omap in H.
  destruct H as (ln & _ & H).
  destruct (search gccLine ln) as [m|] eqn:Hm; [|discriminate].
  inversion H; subst d. cbn [type].
  destruct (gccLine_groups ln m Hm) as (f & l & c0 & ty & msg & Hg & _ & _ & _ & _ & Hty).
  unfold group. rewrite Hg. exact Hty.
Qed.

End RegexSoundness.

(* ================================================================== *)
(** * Running programs: the equations of [run] *)
(* ================================================================== *)

Section RunLemmas.
Import Eff.
Context (o : Oracle).

Lemma run_bind {A B} (p : Prog A) (f : A -> Prog B) (w : World) :
  run o (bind p f) w =
  match run o p w with
  | (Fulfilled a, w') => run o (f a) w'
  | (Rejected e, w') => (Rejected e, w')
  end.
Proof.
  revert w. induction p as [a | e | X op k IH]; intros w; simpl; try reflexivity.
  destruct (perform o op w) as [x w']. apply IH.
Qed.

Lemma run_mbind {A B} (p : Prog A) (f : A -> Prog B) (w : World) :
  run o (p ≫= f) w =
  match run o p w with
  | (Fulfilled a, w') => run o (f a) w'
  | (Rejected e, w') => (Rejected e, w')
  end.
Proof. apply run_bind. Qed.

Lemma run_tryCatch {A} (p : Prog A) (h : JsError -> Prog A) (w : World) :
  run o (tryCatch p h) w =
  match run o p w with
  | (Fulfilled a, w') => (Fulfilled a, w')
  | (Rejected e, w') => run o (h e) w'
  end.
Proof.
  revert w. induction p as [a | e | X op k IH]; intros w; simpl; try reflexivity.
  destruct (perform o op w) as [x w']. apply IH.
Qed.

Lemma run_tryFinally {A} (p : Prog A) (f : Prog unit) (w : World) :
  run o (tryFinally p f) w =
  match run o p w with
  | (Fulfilled a, w') =>
      match run o f w' with
      | (Fulfilled _, w'') => (Fulfilled a, w'')
      | (Rejected e, w'') => (Rejected e, w'')
      end
  | (Rejected e, w') =>
      match run o f w' with
      | (Fulfilled _, w'') => (Rejected e, w'')
      | (Rejected e', w'') => (Rejected e', w'')
      end
  end.
Proof.
  revert w. induction p as [a | e | X op k IH]; intros w; simpl.
  - rewrite run_bind. destruct (run o f w) as [[[]|e] w']; reflexivity.
  - rewrite run_bind. destruct (run o f w) as [[[]|e'] w']; reflexivity.
  - destruct (perform o op w) as [x w']. apply IH.
Qed.

(** [cleanupTempFile] never rejects, never adds a file, never reads
    the clock. *)
Lemma run_cleanupTempFile (path : string) (w : World) :
  exists w', run o (Common.cleanupTempFile path) w = (Fulfilled tt, w')
             /\ files w' ⊆ files w
             /\ reads w' = reads w
             /\ (path ∈ files w' -> path ∈ files w /\ o_unlink o path <> None).
Proof.
  unfold Common.cleanupTempFile. rewrite run_tryCatch, run_mbind.
  simpl. destruct (bool_decide (path ∈ files w)) eqn:Hin; simpl.
  - rewrite Hin. apply bool_decide_eq_true in Hin.
    destruct (o_unlink o path) as [e|] eqn:Hu; simpl.
    + destruct (bool_decide (errcode e = Some "ENOENT")); simpl;
        eexists; (split; [reflexivity|]); simpl; repeat split; auto; congruence.
    + eexists; split; [reflexivity|]; simpl.
      split; [intros x Hx; apply elem_of_difference in Hx; tauto|].
      split; [reflexivity|].
      intros Hx. apply elem_of_difference in Hx. destruct Hx as [_ Hx].
      exfalso. apply Hx. apply elem_of_singleton. reflexivity.
  - exists w. repeat split; auto. intros Hp.
    apply bool_decide_eq_false in Hin. contradiction.
Qed.

End RunLemmas.

(* ================================================================== *)
(** * The guards at the head of the endpoint *)
(* ================================================================== *)

Section Guards.
Import Js Eff Common.

Lemma ownProperty_None {V} (key : string) (obj : list (string * V)) :
  key ∉ map fst obj -> ownProperty key obj = None.
Proof.
  induction obj as [|[k v] rest IH]; intros Hn; simpl; [reflexivity|].
  destruct (String.eqb k key) eqn:E.
  - apply String.eqb_eq in E. subst. exfalso. apply Hn. simpl. left.
  - apply IH. intros Hin. apply Hn. simpl. right. exact Hin.
Qed.

Lemma normalizeLanguage_Null (language : string) :
  toLowerCase language ∉ supportedAliases ->
  toLowerCase language ∉ objectPrototypeKeys ->
  normalizeLanguage language = Null.
Proof.
  intros Ha Hp. unfold normalizeLanguage.
  rewrite (ownProperty_None _ _ Ha).
  rewrite bool_decide_eq_false_2 by exact Hp. reflexivity.
Qed.

(** C10.  A request whose [code] or [language] is the empty string is
    answered with status 400 and the 'required' error, by [server.js]
    and by [part_003] alike: the handler is the program that returns
    that response at once, so nothing is normalized, wrapped, written
    or executed. *)
Theorem C10_empty_field_is_required_error (req : Request) :
  code req = Some EmptyString \/ language req = Some EmptyString ->
  ServerJs.checkSyntaxEndpoint req = Ret ServerJs.requiredResponse
  /\ Part003.checkSyntaxEndpoint req = Ret Part003.requiredResponse
  /\ status ServerJs.requiredResponse = 400
  /\ status Part003.requiredResponse = 400.
Proof.
  intros H. unfold ServerJs.checkSyntaxEndpoint, Part003.checkSyntaxEndpoint.
  destruct req as [[cd|] [lg|]]; simpl in *;
    destruct H as [H|H]; try discriminate; inversion H; subst; simpl;
    repeat split; try reflexivity;
    destruct cd; simpl; reflexivity.
Qed.

Lemma C10_witness :
  ServerJs.checkSyntaxEndpoint (Scenario.request "python" EmptyString)
    = Ret ServerJs.requiredResponse
  /\ Part003.checkSyntaxEndpoint (Scenario.request "python" EmptyString)
    = Ret Part003.requiredResponse
  /\ status ServerJs.requiredResponse = 400
  /\ status Part003.requiredResponse = 400.
Proof.
  apply (C10_empty_field_is_required_error (Scenario.request "python" EmptyString)).
  left. reflexivity.
Defined.

End Guards.

Section UnknownLanguage.
Import Js Eff Common Stated.

(** C7, as stated, fails on [part_003]: for the identifier "cobol",
    which no alias matches, the answer is a 400 whose body has no
    [supported] property. *)
Lemma C7_counterexample :
  ownProperty (toLowerCase "cobol") LANGUAGE_ALIASES = None
  /\ ~ unknown_language_listed Part003.checkSyntaxEndpoint
         Scenario.quiet world0 "cobol" "DISPLAY 'HI'.".
Proof.
  split; [reflexivity|].
  intros (r & w' & Hrun & _ & Hlist & _).
  vm_compute in Hrun. inversion Hrun; subst r. exact Hlist.
Qed.

(** C7, amended.  For a request with non-empty code within the size
    limit and a non-empty identifier whose lower-case form is neither
    a key of the alias table nor a property every object inherits,
    [server.js] returns at once the 400 'Unsupported language' error
    that lists the aliases; [part_003] answers 400 'Unsupported
    language' without the list, after [decodeURIComponent] and nothing
    else: no file is written and no process started. *)
Theorem C7_unknown_language_rejected (o : Oracle) (w : World)
        (language code : string) :
  truthy code = true ->
  truthy language = true ->
  len code <= 1000000 ->
  toLowerCase language ∉ supportedAliases ->
  toLowerCase language ∉ objectPrototypeKeys ->
  normalizeLanguage language = Null
  /\ ServerJs.checkSyntaxEndpoint (Scenario.request language code)
     = Ret ServerJs.unsupportedResponse
  /\ run o (Part003.checkSyntaxEndpoint (Scenario.request language code)) w
     = (Fulfilled Part003.unsupportedResponse, w)
  /\ clientError ServerJs.unsupportedResponse
  /\ listsSupported ServerJs.unsupportedResponse
  /\ clientError Part003.unsupportedResponse
  /\ ~ listsSupported Part003.unsupportedResponse.
Proof.
  intros Hc Hl Hsize Ha Hp.
  pose proof (normalizeLanguage_Null language Ha Hp) as Hn.
  split; [exact Hn|].
  unfold ServerJs.checkSyntaxEndpoint, Part003.checkSyntaxEndpoint,
    Scenario.request. simpl. rewrite Hc, Hl, Hn. simpl.
  assert (Hs : (1000000 <? len code) = false) by (apply N.ltb_ge; exact Hsize).
  rewrite Hs.
  repeat split; try reflexivity; try (vm_compute; congruence).
Qed.

Lemma C7_witness :
  normalizeLanguage "cobol" = Null
  /\ ServerJs.checkSyntaxEndpoint (Scenario.request "cobol" "DISPLAY 'HI'.")
     = Ret ServerJs.unsupportedResponse
  /\ run Scenario.quiet
         (Part003.checkSyntaxEndpoint (Scenario.request "cobol" "DISPLAY 'HI'."))
         world0
     = (Fulfilled Part003.unsupportedResponse, world0)
  /\ clientError ServerJs.unsupportedResponse
  /\ listsSupported ServerJs.unsupportedResponse
  /\ clientError Part003.unsupportedResponse
  /\ ~ listsSupported Part003.unsupportedResponse.
Proof.
  apply (C7_unknown_language_rejected Scenario.quiet world0 "cobol" "DISPLAY 'HI'.").
  - reflexivity.
  - reflexivity.
  - vm_compute. congruence.
  - compute_done.
  - compute_done.
Defined.

(** The two inherited names that survive [toLowerCase] are not
    rejected as unsupported by [server.js]: the value found is not a
    string, [wrapCodeSnippet] throws, and the answer is a 500. *)
Lemma ServerJs_constructor_is_internal_error :
  exists r w',
    run Scenario.quiet
        (ServerJs.checkSyntaxEndpoint (Scenario.request "constructor" "x = 1"))
        world0 = (Fulfilled r, w')
    /\ status r = 500.
Proof. eexists _, _. split; [vm_compute; reflexivity | reflexivity]. Qed.

End UnknownLanguage.

Section JavaChecker.
Import Js Regex Eff Common.
Context (o : Oracle).

Lemma perform_trace {X} (op : Op X) (w : World) :
  exists evs, trace (snd (perform o op w)) = trace w ++ evs.
Proof.
  destruct op; simpl.
  - exists []. rewrite app_nil_r. reflexivity.
  - destruct (o_write o path); eexists; reflexivity.
  - destruct (bool_decide (path ∈ files w)); exists []; rewrite app_nil_r; reflexivity.
  - destruct (bool_decide (path ∈ files w)); [destruct (o_unlink o path)|];
      eexists; reflexivity.
  - eexists; reflexivity.
  - eexists; reflexivity.
  - exists []. rewrite app_nil_r. reflexivity.
  - exists []. rewrite app_nil_r. reflexivity.
Qed.

(** Events are only ever appended. *)
Lemma run_trace {A} (p : Prog A) (w : World) :
  exists evs, trace (snd (run o p w)) = trace w ++ evs.
Proof.
  revert w. induction p as [a | e | X op k IH]; intros w; simpl.
  - exists []. rewrite app_nil_r. reflexivity.
  - exists []. rewrite app_nil_r. reflexivity.
  - destruct (perform_trace op w) as [evs1 H1].
    destruct (perform o op w) as [x w1]. simpl in H1.
    destruct (IH x w1) as [evs2 H2].
    exists (evs1 ++ evs2). rewrite H2, H1, app_assoc. reflexivity.
Qed.

(** [checkJavaSyntax] of [part_003] never looks at the length of the
    code: for every non-empty program sent as "java", whatever its
    size, the handler's first recorded action is to write the
    (decoded) program to a temp file, and, when the write succeeds, its
    second is to start the Docker [javac] container. *)
Lemma Part003_java_handler_starts_with_the_write (w : World) (a : ascii) (s : string) :
  let code := String a s in
  let decoded := default code (o_decode o code) in
  exists f rest,
    trace (snd (run o (Part003.checkSyntaxEndpoint (Scenario.request "java" code)) w))
    = trace w ++ EvWrite f decoded :: rest
    /\ match o_write o f with
       | Some _ => True
       | None => exists cmd rest', rest = EvExec cmd :: rest'
       end.
Proof.
  intros code decoded.
  unfold Part003.checkSyntaxEndpoint, Scenario.request. simpl.
  fold code. destruct (o_decode o code) as [d|] eqn:Hd;
    simpl in decoded; subst decoded.
  all: unfold Part003.checkJavaSyntax.
  all: match goal with
       | |- context [search publicClass ?c] =>
           destruct (search publicClass c) as [m|]
       end; simpl.
  all: match goal with
       | |- context [o_write o ?f] => exists f; destruct (o_write o f) as [e|] eqn:Hw
       end; simpl.
  all: try (eexists; split; [reflexivity | exact I]).
  all: match goal with
       | |- context [run o ?p ?w1] =>
           destruct (run_trace p w1) as [evs Hevs]; simpl in Hevs
       end.
  all: rewrite Hevs, <- !app_assoc; simpl.
  all: eexists; split; [reflexivity|]; eexists _, _; reflexivity.
Qed.

End JavaChecker.

Section Cleanup.
Import Js Regex Eff Common.

(** C8.  When the compiler container fails, [checkJavaSyntax] of
    [part_003] returns from its [catch] block without calling
    [cleanupTempFile]: the request ends with the [.java] file it wrote
    still in the temp directory, and its only recorded actions are the
    write and the compiler run. *)
Theorem C8_part003_java_failure_keeps_temp_file
        (o : Oracle) (w : World) (code : string) :
  (forall p, o_write o p = None) ->
  (forall cmd t, exists e out err fs, o_exec o cmd t = ExecFail e out err fs) ->
  exists f cmd r w',
    run o (Part003.checkJavaSyntax code) w = (Fulfilled r, w')
    /\ valid r = false
    /\ trace w' = trace w ++ [EvWrite f code; EvExec cmd]
    /\ f ∈ files w'.
Proof.
  intros Hw Hx. unfold Part003.checkJavaSyntax.
  destruct (search publicClass code) as [m|]; simpl.
  all: rewrite Hw; simpl.
  all: match goal with
       | Hx : forall cmd t, _ |- context [o_exec _ ?c None] =>
           destruct (Hx c None) as (e & out & err & fs & He); rewrite He
       end; simpl.
  all: eexists _, _, _, _; split; [reflexivity|]; simpl.
  all: split; [reflexivity|]; split; [rewrite <- app_assoc; reflexivity|].
  all: set_solver.
Qed.

Lemma C8_witness :
  exists f cmd r w',
    run (Scenario.withExec (fun _ _ => Scenario.exitsWith "error: ';' expected"))
        (Part003.checkJavaSyntax "int x") world0 = (Fulfilled r, w')
    /\ valid r = false
    /\ trace w' = trace world0 ++ [EvWrite f "int x"; EvExec cmd]
    /\ f ∈ files w'.
Proof.
  apply (C8_part003_java_failure_keeps_temp_file
           (Scenario.withExec (fun _ _ => Scenario.exitsWith "error: ';' expected"))
           world0 "int x").
  - intros p. reflexivity.
  - intros cmd t. eexists _, _, _, _. reflexivity.
Defined.

(** The same failure in [server.js]: the file is removed again. *)
Example ServerJs_java_failure_cleans_up :
  let w' := snd (run (Scenario.withExec (fun _ _ => Scenario.exitsWith "error: ';' expected"))
                     (ServerJs.checkJavaSyntax "int x") world0) in
  files w' = ∅
  /\ trace w' =
     [ EvWrite "/usr/src/app/temp/Solution_1700000000000.java" "int x";
       EvExec ("javac " +:+ quoted "/usr/src/app/temp/Solution_1700000000000.java");
       EvUnlink "/usr/src/app/temp/Solution_1700000000000.java" ].
Proof. split; vm_compute; reflexivity. Qed.

End Cleanup.

(* ================================================================== *)
(** * Lines of the wrapped file *)
(* ================================================================== *)

Section Lines.
Import Js Regex Eff Common.

Lemma split_nl_nonempty (s : string) : split_nl s <> [].
Proof.
  destruct s as [|ch s]; cbn [split_nl].
  - discriminate.
  - destruct (Ascii.eqb ch (chr 10)).
    + discriminate.
    + destruct (split_nl s); discriminate.
Qed.

(** Splitting distributes over a newline. *)
Lemma split_nl_app (a b : string) :
  split_nl (a +:+ nl +:+ b) = split_nl a ++ split_nl b.
Proof.
  induction a as [|ch a IH]; [reflexivity|].
  change (String ch a +:+ nl +:+ b) with (String ch (a +:+ nl +:+ b)).
  cbn [split_nl]. rewrite IH.
  destruct (Ascii.eqb ch (chr 10)); [reflexivity|].
  destruct (split_nl a) as [|l ls] eqn:E; [|reflexivity].
  exfalso. exact (split_nl_nonempty a E).
Qed.

Lemma split_nl_join (x : string) (xs : list string) :
  split_nl (join nl (x :: xs)) = concat (map split_nl (x :: xs)).
Proof.
  revert x. induction xs as [|y ys IH]; intros x.
  - simpl. rewrite app_nil_r. reflexivity.
  - change (join nl (x :: y :: ys)) with (x +:+ nl +:+ join nl (y :: ys)).
    rewrite split_nl_app, IH. reflexivity.
Qed.

(** The first line of an indented fragment is the indentation
    followed by the fragment's first line. *)
Lemma split_nl_indented (pad u : string) :
  Forall (fun ch => Ascii.eqb ch (chr 10) = false) (list_ascii_of_string pad) ->
  exists l ls ls',
    split_nl u = l :: ls /\ split_nl (pad +:+ u) = (pad +:+ l) :: ls'
    /\ ls' = ls.
Proof.
  induction pad as [|ch pad IH]; intros Hpad.
  - change (EmptyString +:+ u) with u.
    destruct (split_nl u) as [|l ls] eqn:E.
    + exfalso. exact (split_nl_nonempty u E).
    + exists l, ls, ls. auto.
  - inversion Hpad as [|? ? Hch Hrest]; subst.
    destruct (IH Hrest) as (l & ls & ls' & Hu & Hp & Heq).
    change (String ch pad +:+ u) with (String ch (pad +:+ u)).
    cbn [split_nl]. rewrite Hch, Hp. exists l, ls, ls'. auto.
Qed.

(** Where the fragment starts in the C++ file with a synthesized
    [main]: 26 lines come first. *)
Lemma wrapCpp_fragment_starts_at_line_27 (code u : string) :
  includes "template" code = false ->
  includes "concept" code = false ->
  includes "main(" code = false ->
  exists l ls rest,
    split_nl u = l :: ls
    /\ split_nl (ServerJs.wrapCpp code u)
       = (split_nl ServerJs.cppIncludes ++ ["int main() {"])
         ++ ("    " +:+ l) :: rest
    /\ length (split_nl ServerJs.cppIncludes ++ ["int main() {"]) = 26%nat.
Proof.
  intros Ht Hc Hm. unfold ServerJs.wrapCpp. rewrite Ht, Hc, Hm. simpl orb.
  cbv iota. rewrite split_nl_join.
  destruct (split_nl_indented "    " u) as (l & ls & ls' & Hu & Hp & _).
  { repeat constructor. }
  exists l, ls. eexists. split; [exact Hu|]. split; [|reflexivity].
  cbn [map concat]. rewrite Hp. rewrite <- app_assoc. reflexivity.
Qed.

(** Where the fragment starts in the Java file with a synthesized
    class: 14 lines come first. *)
Lemma javaClassWrapper_fragment_starts_at_line_15 (className u : string) :
  exists l ls rest,
    split_nl u = l :: ls
    /\ split_nl (ServerJs.javaClassWrapper className u)
       = (ServerJs.javaImports
          ++ split_nl ("class " +:+ className +:+ " {")
          ++ ["    public static void main(String[] args) {"])
         ++ ("        " +:+ l) :: rest
    /\ length ServerJs.javaImports = 12%nat.
Proof.
  unfold ServerJs.javaClassWrapper. cbn [ServerJs.javaImports app].
  rewrite split_nl_join.
  destruct (split_nl_indented "        " u) as (l & ls & ls' & Hu & Hp & _).
  { repeat constructor. }
  exists l, ls. eexists. split; [exact Hu|]. split; [|reflexivity].
  cbn [map concat]. rewrite Hp.
  repeat (rewrite <- app_assoc; cbn [app]).
  reflexivity.
Qed.

(** Where the fragment starts in the C file with a synthesized [main]:
    5 lines come first, as the table says. *)
Lemma wrapC_fragment_starts_at_line_6 (code u : string) :
  includes "main(" code = false ->
  exists l ls rest,
    split_nl u = l :: ls
    /\ split_nl (ServerJs.wrapC code u)
       = [ "#include <stdio.h>"; "#include <stdlib.h>"; "#include <string.h>";
           EmptyString; "int main() {" ]
         ++ ("    " +:+ l) :: rest
    /\ ServerJs.wrapperLines "c" = 5.
Proof.
  intros Hm. unfold ServerJs.wrapC. rewrite Hm. rewrite split_nl_join.
  destruct (split_nl_indented "    " u) as (l & ls & ls' & Hu & Hp & _).
  { repeat constructor. }
  exists l, ls. eexists. split; [exact Hu|]. split; [|reflexivity].
  cbn [map concat]. rewrite Hp. reflexivity.
Qed.

(** What the table does to a raw line number. *)
Lemma adjustLine_spec (k raw : N) :
  raw <> 0 -> ServerJs.adjustLine k raw = N.max 1 (raw - k).
Proof.
  intros H. unfold ServerJs.adjustLine.
  destruct (raw =? 0) eqn:E; [apply N.eqb_eq in E; contradiction | reflexivity].
Qed.

Lemma adjustLine_beyond (k j : N) :
  1 <= j -> ServerJs.adjustLine k (k + j) = j.
Proof.
  intros H. rewrite adjustLine_spec by lia. lia.
Qed.

Lemma adjustLine_clamped (k raw : N) :
  1 <= raw <= k -> ServerJs.adjustLine k raw = 1.
Proof.
  intros H. rewrite adjustLine_spec by lia. lia.
Qed.

(** C1.  In [server.js] a C++ fragment without [main] is wrapped with
    26 lines before it, but [adjustErrorLineNumbers] subtracts the 24
    of its table: a g++ diagnostic on the fragment's first line (raw
    line 27) is reported at line 3, and one at raw line [27 + j] at
    line [3 + j]. *)
Theorem C1_cpp_first_line_reported_as_line_3 :
  let code := "int x = ;" in
  let o := Scenario.withExec (fun _ _ => Scenario.exitsWith
             "/usr/src/app/temp/check_1700000000000.cpp:27:13: error: expected primary-expression before ';' token") in
  (exists wrapped,
      fst (run o (ServerJs.wrapCodeSnippet code "cpp") world0) = Fulfilled wrapped
      /\ split_nl wrapped !! 26%nat = Some ("    " +:+ code))
  /\ ServerJs.wrapperLines "cpp" = 24
  /\ (exists r w',
         run o (ServerJs.checkSyntaxEndpoint (Scenario.request "cpp" code)) world0
         = (Fulfilled {| status := 200; body := ResultBody r "cpp" cpp |}, w')
         /\ option_map (map line) (r_errors r) = Some [3])
  /\ (forall j, ServerJs.adjustLine (ServerJs.wrapperLines "cpp") (27 + j) = 3 + j).
Proof.
  split; [|split; [|split]].
  - eexists. split; vm_compute; reflexivity.
  - reflexivity.
  - eexists _, _. split; vm_compute; reflexivity.
  - intros j. change (ServerJs.wrapperLines "cpp") with 24.
    rewrite adjustLine_spec by lia. lia.
Qed.

(** The Java table entry is one short as well, and the Java checker's
    [details] are not touched by [adjustErrorLineNumbers] at all. *)
Example ServerJs_java_details_keep_raw_lines :
  let o := Scenario.withExec (fun _ _ => Scenario.exitsWith
             "/usr/src/app/temp/Solution_1700000000000.java:15: error: illegal start of expression") in
  exists r w',
    run o (ServerJs.checkSyntaxEndpoint (Scenario.request "java" "int x = ;")) world0
    = (Fulfilled {| status := 200; body := ResultBody r "java" java |}, w')
    /\ r_details r = Some (DetailList
         [ {| d_line := 15;
              d_message := "/usr/src/app/temp/Solution_1700000000000.java:15: error: illegal start of expression" |} ]).
Proof. eexists _, _. split; vm_compute; reflexivity. Qed.

End Lines.

(* ================================================================== *)
(** * The synthesized Java class *)
(* ================================================================== *)

Section ClassName.
Import Js Regex Eff Common Stated Shape.

Lemma ofN_inj (a b : N) : ofN a = ofN b -> a = b.
Proof.
  unfold ofN. intros H.
  apply Unsigned.to_uint_inj.
  assert (Hs : Some (N.to_uint a) = Some (N.to_uint b)).
  { rewrite <- !NilEmpty.usu. rewrite H. reflexivity. }
  inversion Hs. reflexivity.
Qed.

Lemma append_inj_l (p a b : string) : p +:+ a = p +:+ b -> a = b.
Proof.
  induction p as [|ch p IH]; simpl; intros H; [exact H|].
  inversion H. auto.
Qed.

(** The generated name determines the clock reading and conversely. *)
Lemma solutionName_inj (a b : N) :
  ServerJs.solutionName a = ServerJs.solutionName b <-> a = b.
Proof.
  split; [|intros ->; reflexivity].
  unfold ServerJs.solutionName. intros H.
  apply ofN_inj. exact (append_inj_l _ _ _ H).
Qed.

Lemma oneLine_app (a b : string) : oneLine a -> oneLine b -> oneLine (a +:+ b).
Proof.
  unfold oneLine. induction a as [|ch a IH]; simpl; intros Ha Hb; [exact Hb|].
  inversion Ha; subst. constructor; auto.
Qed.

Lemma oneLine_uint (d : Decimal.uint) : oneLine (NilEmpty.string_of_uint d).
Proof.
  unfold oneLine. induction d; simpl; constructor; auto.
Qed.

Lemma oneLine_solutionName (t : N) : oneLine (ServerJs.solutionName t).
Proof.
  unfold ServerJs.solutionName, ofN. apply oneLine_app.
  - repeat constructor.
  - apply oneLine_uint.
Qed.

Lemma split_nl_oneLine (s : string) : oneLine s -> split_nl s = [s].
Proof.
  unfold oneLine. induction s as [|ch s IH]; intros H; [reflexivity|].
  cbn [list_ascii_of_string] in H. inversion H as [|? ? Hch Hrest]; subst.
  cbn [split_nl]. rewrite Hch, (IH Hrest). reflexivity.
Qed.

(** The lines of the synthesized-class template: the import block, the
    class line, then lines that do not depend on the name. *)
Lemma javaClassWrapper_lines (className u : string) :
  oneLine className ->
  split_nl (ServerJs.javaClassWrapper className u)
  = ServerJs.javaImports
    ++ ("class " +:+ className +:+ " {")
    :: "    public static void main(String[] args) {"
    :: split_nl ("        " +:+ u) ++ ["    }"; "}"].
Proof.
  intros H. unfold ServerJs.javaClassWrapper. cbn [ServerJs.javaImports app].
  rewrite split_nl_join. cbn [map concat].
  rewrite (split_nl_oneLine ("class " +:+ className +:+ " {")).
  - rewrite app_nil_r. reflexivity.
  - apply oneLine_app; [repeat constructor|].
    apply oneLine_app; [exact H | repeat constructor].
Qed.

(** What [wrapCodeSnippet] does to a Java fragment without "class". *)
Lemma run_wrap_java_fragment (o : Oracle) (w : World) (code : string) :
  includes "class" code = false ->
  fst (run o (ServerJs.wrapCodeSnippet code "java") w)
  = Fulfilled (ServerJs.javaClassWrapper
                 (ServerJs.solutionName (o_clock o (reads w)))
                 (ServerJs.unindent code)).
Proof.
  intros H. unfold ServerJs.wrapCodeSnippet, ServerJs.wrapJava.
  cbn [toLowerCase]. simpl String.eqb. cbv iota. rewrite H. reflexivity.
Qed.

(** C5, as stated, fails: two different fragments wrapped at two
    different clock readings that return the same millisecond declare
    the same class. *)
Lemma C5_counterexample :
  ~ class_names_differ Scenario.quiet
      {| files := ∅; reads := 0; trace := [] |}
      {| files := ∅; reads := 1; trace := [] |}
      "int a = 1;" "int b = 2;".
Proof.
  intros H.
  eapply H; [vm_compute; reflexivity | vm_compute; reflexivity | ].
  vm_compute. reflexivity.
Qed.

(** C5, amended.  For Java fragments without "class" the wrapper class
    is named [Solution_] followed by the clock reading taken while
    wrapping, and by nothing else: the names of two requests are equal
    exactly when their two clock readings are equal; line 13 of each
    wrapped file declares that class. *)
Theorem C5_class_name_is_the_clock_reading
        (o : Oracle) (w1 w2 : World) (code1 code2 : string) :
  includes "class" code1 = false ->
  includes "class" code2 = false ->
  exists n1 n2 s1 s2,
    n1 = ServerJs.solutionName (o_clock o (reads w1))
    /\ n2 = ServerJs.solutionName (o_clock o (reads w2))
    /\ fst (run o (ServerJs.wrapCodeSnippet code1 "java") w1) = Fulfilled s1
    /\ fst (run o (ServerJs.wrapCodeSnippet code2 "java") w2) = Fulfilled s2
    /\ classLine s1 = Some ("class " +:+ n1 +:+ " {")
    /\ classLine s2 = Some ("class " +:+ n2 +:+ " {")
    /\ (n1 = n2 <-> o_clock o (reads w1) = o_clock o (reads w2)).
Proof.
  intros H1 H2. eexists _, _, _, _.
  split; [reflexivity|]. split; [reflexivity|].
  split; [apply run_wrap_java_fragment; exact H1|].
  split; [apply run_wrap_java_fragment; exact H2|].
  unfold classLine.
  rewrite !javaClassWrapper_lines by apply oneLine_solutionName.
  split; [reflexivity|]. split; [reflexivity|].
  apply solutionName_inj.
Qed.

Lemma C5_witness :
  exists n1 n2 s1 s2,
    n1 = ServerJs.solutionName (o_clock Scenario.quiet (reads world0))
    /\ n2 = ServerJs.solutionName (o_clock Scenario.quiet (reads world0))
    /\ fst (run Scenario.quiet (ServerJs.wrapCodeSnippet "int a = 1;" "java") world0)
       = Fulfilled s1
    /\ fst (run Scenario.quiet (ServerJs.wrapCodeSnippet "int b = 2;" "java") world0)
       = Fulfilled s2
    /\ classLine s1 = Some ("class " +:+ n1 +:+ " {")
    /\ classLine s2 = Some ("class " +:+ n2 +:+ " {")
    /\ (n1 = n2 <-> o_clock Scenario.quiet (reads world0)
                    = o_clock Scenario.quiet (reads world0)).
Proof.
  apply (C5_class_name_is_the_clock_reading Scenario.quiet world0 world0
           "int a = 1;" "int b = 2;"); reflexivity.
Defined.

End ClassName.

Section Reproducible.
Import Js Regex Eff Common Stated Shape.

(** The result of wrapping is fixed by the code and the language, or
    it is the synthesized-class template at the current clock
    reading. *)
Lemma ServerJs_wrap_result (code language : string) :
  (exists s, forall o w,
      fst (run o (ServerJs.wrapCodeSnippet code language) w) = Fulfilled s)
  \/ (forall o w,
        fst (run o (ServerJs.wrapCodeSnippet code language) w)
        = Fulfilled (ServerJs.javaClassWrapper
                       (ServerJs.solutionName (o_clock o (reads w)))
                       (ServerJs.unindent code))).
Proof.
  unfold ServerJs.wrapCodeSnippet, ServerJs.wrapJava.
  destruct (String.eqb (toLowerCase language) "cpp");
    [left; eexists; intros; reflexivity|].
  destruct (String.eqb (toLowerCase language) "java").
  - destruct (includes "class" code).
    + left; eexists; intros; reflexivity.
    + right; intros; reflexivity.
  - destruct (String.eqb (toLowerCase language) "python");
      [left; eexists; intros; reflexivity|].
    destruct (String.eqb (toLowerCase language) "c");
      left; eexists; intros; reflexivity.
Qed.

Lemma Part003_wrap_result (code language : string) :
  (exists s, forall o w,
      fst (run o (Part003.wrapCodeSnippet code language) w) = Fulfilled s)
  \/ (forall o w,
        fst (run o (Part003.wrapCodeSnippet code language) w)
        = Fulfilled (ServerJs.javaClassWrapper
                       (ServerJs.solutionName (o_clock o (reads w)))
                       (ServerJs.unindent code))).
Proof.
  unfold Part003.wrapCodeSnippet, ServerJs.wrapJava.
  destruct (String.eqb (toLowerCase language) "cpp");
    [left; eexists; intros; reflexivity|].
  destruct (String.eqb (toLowerCase language) "java").
  - destruct (includes "class" code).
    + left; eexists; intros; reflexivity.
    + right; intros; reflexivity.
  - destruct (String.eqb (toLowerCase language) "python");
      [left; eexists; intros; reflexivity|].
    destruct (String.eqb (toLowerCase language) "c");
      left; eexists; intros; reflexivity.
Qed.

(** Two instances of the synthesized-class template around one
    fragment agree on every line but the class line. *)
Lemma javaClassWrapper_same_lines (t1 t2 : N) (u : string) (i : nat) :
  i <> 12%nat ->
  split_nl (ServerJs.javaClassWrapper (ServerJs.solutionName t1) u) !! i
  = split_nl (ServerJs.javaClassWrapper (ServerJs.solutionName t2) u) !! i.
Proof.
  intros Hi. rewrite !javaClassWrapper_lines by apply oneLine_solutionName.
  do 12 (destruct i as [|i]; [reflexivity|]).
  destruct i as [|i]; [contradiction|]. reflexivity.
Qed.

Lemma javaClassWrapper_same_length (t1 t2 : N) (u : string) :
  length (split_nl (ServerJs.javaClassWrapper (ServerJs.solutionName t1) u))
  = length (split_nl (ServerJs.javaClassWrapper (ServerJs.solutionName t2) u)).
Proof.
  rewrite !javaClassWrapper_lines by apply oneLine_solutionName. reflexivity.
Qed.

End Reproducible.

(* ================================================================== *)
(** * One step of a program *)
(* ================================================================== *)

Section RunSteps.
Import Js Eff Common Steps.
Context (o : Oracle).
#[local] Abbreviation executed := (Steps.executed o).
#[local] Abbreviation cleaned := (Steps.cleaned o).

Lemma run_dateNow {A} (f : N -> Prog A) (w : World) :
  run o (dateNow ≫= f) w = run o (f (o_clock o (reads w))) (tick w).
Proof. reflexivity. Qed.

Lemma run_writeFile_ok {A} (path content : string) (f : unit -> Prog A) (w : World) :
  o_write o path = None ->
  run o (writeFile path content ≫= f) w = run o (f tt) (written path content w).
Proof. intros H. simpl. rewrite H. reflexivity. Qed.

Lemma run_writeFile_fail {A} (path content : string) (f : unit -> Prog A)
      (w : World) (e : JsError) :
  o_write o path = Some e ->
  run o (writeFile path content ≫= f) w
  = (Rejected e, emit (EvWrite path content) w).
Proof. intros H. simpl. rewrite H. reflexivity. Qed.

Lemma run_execAsync_ok {A} (cmd out err : string) (fs : list string)
      (f : string * string -> Prog A) (w : World) :
  o_exec o cmd None = ExecOk out err fs ->
  run o (execAsync cmd ≫= f) w = run o (f (out, err)) (executed cmd None w).
Proof. intros H. unfold executed. simpl. rewrite H. reflexivity. Qed.

Lemma run_execAsync_fail {A} (cmd out err : string) (fs : list string)
      (e : JsError) (f : string * string -> Prog A) (w : World) :
  o_exec o cmd None = ExecFail e out err fs ->
  run o (execAsync cmd ≫= f) w
  = (Rejected {| message := message e; stderr := Some err;
                 signal := signal e; errcode := errcode e |},
     executed cmd None w).
Proof. intros H. unfold executed. simpl. rewrite H. reflexivity. Qed.


Lemma run_cleanup_then {A} (path : string) (f : unit -> Prog A) (w : World) :
  run o (cleanupTempFile path ≫= f) w = run o (f tt) (cleaned path w).
Proof.
  rewrite run_mbind. unfold cleaned.
  destruct (run_cleanupTempFile o path w) as (w' & H & _).
  rewrite H. reflexivity.
Qed.

End RunSteps.

(* ================================================================== *)
(** * The search over C++ standards *)
(* ================================================================== *)

Section Dialects.
Import Js Regex Eff Common Stated.
Context (o : Oracle).

(** The loop passes over every standard whose failure mentions
    "standard" and stops at the first one that compiles. *)
Lemma searchStandards_first_success (command : string -> string)
      (pre post : list (string * string)) (std name : string) :
  (forall s n, (s, n) ∈ pre ->
     exists e out err fs,
       o_exec o (command s) None = ExecFail e out err fs
       /\ includes "standard" err = true) ->
  (exists out err fs, o_exec o (command std) None = ExecOk out err fs) ->
  forall le w, exists le' w',
    run o (ServerJs.searchStandards command (pre ++ (std, name) :: post) le) w
    = (Fulfilled {| ServerJs.success := true; ServerJs.lastError := le';
                    ServerJs.usedStandard := Some name |}, w')
    /\ reads w' = reads w.
Proof.
  intros Hpre (out & err & fs & Hok).
  induction pre as [|[s n] pre IH]; intros le w.
  - simpl. rewrite Hok. simpl. eexists _, _. split; reflexivity.
  - assert (Hhd : (s, n) ∈ (s, n) :: pre) by left.
    destruct (Hpre s n Hhd) as (e & out' & err' & fs' & Hfail & Hstd).
    simpl. rewrite Hfail. simpl. rewrite Hstd. simpl.
    edestruct IH as (le' & w' & Hrun & Hreads).
    { intros s' n' Hin. apply (Hpre s' n'). right. exact Hin. }
    rewrite Hrun. eexists _, _. split; [reflexivity|]. rewrite Hreads. reflexivity.
Qed.

(** The loop stops at the first standard whose failure does not
    mention "standard". *)
Lemma searchStandards_first_real_error (command : string -> string)
      (pre post : list (string * string)) (std name : string)
      (e : JsError) (out err : string) (fs : list string) :
  (forall s n, (s, n) ∈ pre ->
     exists e out err fs,
       o_exec o (command s) None = ExecFail e out err fs
       /\ includes "standard" err = true) ->
  o_exec o (command std) None = ExecFail e out err fs ->
  includes "standard" err = false ->
  forall le w, exists le' w',
    run o (ServerJs.searchStandards command (pre ++ (std, name) :: post) le) w
    = (Fulfilled {| ServerJs.success := false; ServerJs.lastError := Some le';
                    ServerJs.usedStandard := Some name |}, w')
    /\ Eff.stderr le' = Some err.
Proof.
  intros Hpre Hfail Hreal.
  induction pre as [|[s n] pre IH]; intros le w.
  - simpl. rewrite Hfail. simpl. rewrite Hreal. simpl.
    eexists _, _. split; reflexivity.
  - assert (Hhd : (s, n) ∈ (s, n) :: pre) by left.
    destruct (Hpre s n Hhd) as (e' & out' & err' & fs' & Hfail' & Hstd).
    simpl. rewrite Hfail'. simpl. rewrite Hstd. simpl.
    edestruct IH as (le' & w' & Hrun & Herr).
    { intros s' n' Hin. apply (Hpre s' n'). right. exact Hin. }
    rewrite Hrun. eexists _, _. split; [reflexivity | exact Herr].
Qed.

End Dialects.

Section DialectExamples.
Import Js Regex Eff Common Stated.

(** C2, as stated, fails: C++20 rejects the program and every older
    standard accepts it, so the oldest accepting standard is C++98, but
    the checker reports C++17. *)
Lemma C2_counterexample :
  ~ reports_oldest_accepting Scenario.rejectedByCpp20 world0 "auto_ptr<int> p;".
Proof.
  intros H. destruct H as (r & w' & Hrun & Hstd).
  - vm_compute. reflexivity.
  - vm_compute. discriminate.
  - vm_compute in Hrun. inversion Hrun; subst r.
    vm_compute in Hstd. discriminate.
Qed.

End DialectExamples.

(* ================================================================== *)
(** * The C checker *)
(* ================================================================== *)

Section CChecker.
Import Js Regex Eff Common Stated Steps.

(** C9, as stated, fails: gcc exits successfully after printing a
    warning, the result is valid, and the warning is not among its
    diagnostics (it has none). *)
Lemma C9_counterexample :
  (forall cmd t, o_exec Scenario.warnsOnly cmd t
                 = ExecOk EmptyString Scenario.unusedVariable [])
  /\ ~ c_diagnostics_captured Scenario.warnsOnly world0
        "int main() { int x; return 0; }".
Proof.
  split; [intros cmd t; reflexivity|].
  intros (r & w' & Hrun & Hall & _).
  vm_compute in Hrun. inversion Hrun; subst r. clear Hrun.
  specialize (Hall {| line := 1; column := 18; type := "warning";
                      dmessage := "unused variable 'x' [-Wunused-variable]";
                      suggestion := None |}).
  assert (Hin : {| line := 1; column := 18; type := "warning";
                   dmessage := "unused variable 'x' [-Wunused-variable]";
                   suggestion := None |}
                ∈ cDiagnostics (gccStderr Scenario.warnsOnly world0)).
  { vm_compute. left. }
  specialize (Hall Hin). vm_compute in Hall. inversion Hall.
Qed.

(** A failing compilation: the warning and the error are both captured,
    in the order gcc printed them; the note is not. *)
Example cDiagnostics_warning_and_error :
  cDiagnostics
    (join nl [ "t.c: In function 'main':";
               "t.c:1:18: warning: unused variable 'x' [-Wunused-variable]";
               "t.c:2:9: error: expected ';' before '}' token";
               "t.c:2:9: note: each undeclared identifier is reported only once" ])
  = [ {| line := 1; column := 18; type := "warning";
         dmessage := "unused variable 'x' [-Wunused-variable]"; suggestion := None |};
      {| line := 2; column := 9; type := "error";
         dmessage := "expected ';' before '}' token"; suggestion := None |} ].
Proof. vm_compute. reflexivity. Qed.

End CChecker.

(* ================================================================== *)
(** * Execution *)
(* ================================================================== *)

Section Execution.
Import Js Regex Eff Common Stated Steps.
Context (o : Oracle).
#[local] Abbreviation executed := (Steps.executed o).
#[local] Abbreviation cleaned := (Steps.cleaned o).



Lemma run_cleanup (path : string) (w : World) :
  run o (cleanupTempFile path) w = (Fulfilled tt, cleaned path w).
Proof.
  unfold Steps.cleaned. destruct (run_cleanupTempFile o path w) as (w' & H & _).
  rewrite H. reflexivity.
Qed.

Section Clean.
Context (out err : string).
Hypothesis Hwrite : forall p, o_write o p = None.
Hypothesis Hcompile :
  forall cmd, exists fs,
    o_exec o cmd (Some Part003.COMPILE_TIMEOUT) = ExecOk EmptyString EmptyString fs.
Hypothesis Hrun :
  forall cmd, exists fs,
    o_exec o cmd (Some Part003.EXECUTION_TIMEOUT) = ExecOk out err fs.
Hypothesis Hnode :
  forall cmd, exists fs, o_exec o cmd None = ExecOk out err fs.



Lemma run_cleanup2 (a b : string) (w : World) :
  run o (cleanupTempFile a;; cleanupTempFile b) w
  = (Fulfilled tt, cleaned b (cleaned a w)).
Proof. rewrite run_cleanup_then. apply run_cleanup. Qed.




End Clean.


End Execution.

Section ExecutionExamples.
Import Js Regex Eff Common Stated Steps.



(** The same run through the endpoint: the response says the execution
    succeeded and its [error] is null. *)
Example Part003_python_stderr_is_dropped :
  fst (run (Scenario.ranWith "hello" "note: careful")
           (Part003.checkSyntaxEndpoint (Scenario.request "python" "print('hello')"))
           world0)
  = Fulfilled
      {| status := 200;
         body := CheckedBody true (Some "Syntax is valid") None None
                   "python" python
                   (Some {| x_success := true; x_output := Some "hello";
                            x_error := None |}) |}.
Proof. vm_compute. reflexivity. Qed.

End ExecutionExamples.

Section SizeLimit.
Import Js Regex Eff Common Stated Steps.

(** [server.js] rejects oversized code at the head of the handler, for
    every language identifier, before anything else happens. *)
Lemma ServerJs_oversized_code_rejected (language code : string) :
  truthy language = true ->
  1000000 < len code ->
  ServerJs.checkSyntaxEndpoint (Scenario.request language code)
  = Ret ServerJs.sizeResponse.
Proof.
  intros Hl Hsize. unfold ServerJs.checkSyntaxEndpoint, Scenario.request.
  cbn [Common.code Common.language].
  assert (Hc : truthy code = true).
  { destruct code; [cbn in Hsize; lia | reflexivity]. }
  rewrite Hc, Hl. cbn [negb orb].
  apply N.ltb_lt in Hsize. rewrite Hsize. reflexivity.
Qed.

(** The other checkers of [part_003] keep their guard: oversized code
    is answered before any file is written or process started. *)
Lemma Part003_python_oversized_not_checked (o : Oracle) (w : World) (code : string) :
  1000000 < len code ->
  run o (checkPythonSyntax code) w = (Fulfilled tooLarge, tick w).
Proof.
  intros Hsize. apply N.ltb_lt in Hsize.
  unfold checkPythonSyntax. rewrite run_dateNow. cbv beta zeta.
  rewrite run_tryCatch, Hsize. reflexivity.
Qed.

End SizeLimit.

(* ================================================================== *)
(** * Language aliases *)
(* ================================================================== *)

Section Aliases.
Import Js Regex Eff Common.

Lemma ownProperty_Some_elem {V} (key : string) (obj : list (string * V)) (v : V) :
  ownProperty key obj = Some v -> (key, v) ∈ obj.
Proof.
  induction obj as [|[k x] rest IH]; simpl; [discriminate|].
  destruct (String.eqb k key) eqn:E.
  - apply String.eqb_eq in E. subst k. intros H. inversion H; subst. left.
  - intros H. right. apply IH. exact H.
Qed.

(** Every entry of the alias table is found under its own key: no key
    occurs twice with different values. *)
Lemma LANGUAGE_ALIASES_lookup (key : string) (l : Lang) :
  (key, l) ∈ LANGUAGE_ALIASES -> ownProperty key LANGUAGE_ALIASES = Some l.
Proof.
  intros H. unfold LANGUAGE_ALIASES in H.
  repeat (apply elem_of_cons in H; destruct H as [H|H];
          [inversion H; subst; reflexivity|]).
  inversion H.
Qed.

(** X1.  [normalizeLanguage] answers a canonical code exactly for the
    identifiers whose lower-case form is a key of the alias table, and
    then it is the code the table gives for that key: the lookup does
    not depend on the case of the identifier. *)
Theorem normalizeLanguage_is_the_table_modulo_case (lang : string) (l : Lang) :
  normalizeLanguage lang = Canonical l <-> (toLowerCase lang, l) ∈ LANGUAGE_ALIASES.
Proof.
  unfold normalizeLanguage. split.
  - destruct (ownProperty (toLowerCase lang) LANGUAGE_ALIASES) as [l'|] eqn:E.
    + intros H. inversion H; subst l'. apply ownProperty_Some_elem. exact E.
    + destruct (bool_decide _); discriminate.
  - intros H. rewrite (LANGUAGE_ALIASES_lookup _ _ H). reflexivity.
Qed.

(** The canonical code of a language is itself one of its aliases. *)
Lemma normalizeLanguage_langName (l : Lang) :
  normalizeLanguage (langName l) = Canonical l.
Proof. destruct l; reflexivity. Qed.

End Aliases.

(* ================================================================== *)
(** * Removing a temp file *)
(* ================================================================== *)

Section CleanupSpec.
Import Js Regex Eff Common Steps.
Context (o : Oracle).

Lemma cleaned_subset (path : string) (w : World) :
  files (cleaned o path w) ⊆ files w.
Proof.
  unfold cleaned. destruct (run_cleanupTempFile o path w) as (w' & H & Hs & _).
  rewrite H. exact Hs.
Qed.

Lemma cleaned_reads (path : string) (w : World) :
  reads (cleaned o path w) = reads w.
Proof.
  unfold cleaned. destruct (run_cleanupTempFile o path w) as (w' & H & _ & Hr & _).
  rewrite H. exact Hr.
Qed.

Lemma cleaned_absent (path : string) (w : World) :
  o_unlink o path = None -> path ∉ files (cleaned o path w).
Proof.
  intros Hu Hin. unfold cleaned in Hin.
  destruct (run_cleanupTempFile o path w) as (w' & H & _ & _ & Hp).
  rewrite H in Hin. destruct (Hp Hin) as [_ Hne]. contradiction.
Qed.

Lemma cleaned_keeps_absent (path other : string) (w : World) :
  other ∉ files w -> other ∉ files (cleaned o path w).
Proof. intros Hn Hin. apply Hn. apply (cleaned_subset path w). exact Hin. Qed.

(** X2.  [cleanupTempFile] never rejects.  It leaves the clock alone
    and adds no file; when [unlink] does not fail it removes exactly
    the given path, whether or not the file existed. *)
Theorem cleanupTempFile_removes_exactly_the_path (path : string) (w : World) :
  exists w',
    run o (cleanupTempFile path) w = (Fulfilled tt, w')
    /\ files w' ⊆ files w
    /\ reads w' = reads w
    /\ match o_unlink o path with
       | None => files w' = files w ∖ {[path]}
       | Some _ => forall other, other <> path -> (other ∈ files w' <-> other ∈ files w)
       end.
Proof.
  unfold cleanupTempFile. rewrite run_tryCatch, run_mbind. simpl.
  destruct (bool_decide (path ∈ files w)) eqn:Hin; simpl.
  - rewrite Hin. apply bool_decide_eq_true in Hin.
    destruct (o_unlink o path) as [e|] eqn:Hu; simpl.
    + destruct (bool_decide (errcode e = Some "ENOENT")); simpl;
        eexists; (split; [reflexivity|]); simpl; repeat split; auto.
    + eexists; split; [reflexivity|]; simpl.
      split; [intros x Hx; apply elem_of_difference in Hx; tauto|].
      split; reflexivity.
  - apply bool_decide_eq_false in Hin. exists w.
    split; [reflexivity|]. split; [reflexivity|]. split; [reflexivity|].
    destruct (o_unlink o path); [tauto|].
    apply set_eq. intros x. rewrite elem_of_difference, elem_of_singleton.
    split; [|tauto]. intros Hx. split; [exact Hx|]. intros ->. contradiction.
Qed.

End CleanupSpec.

(* ================================================================== *)
(** * The checkers as a whole *)
(* ================================================================== *)

Section Checkers.
Import Js Regex Eff Common Steps Outcome.
Context (o : Oracle).
#[local] Abbreviation executed := (Steps.executed o).
#[local] Abbreviation cleaned := (Steps.cleaned o).

Lemma run_execAsync (cmd : string) (w : World) :
  run o (execAsync cmd) w =
  match o_exec o cmd None with
  | ExecOk out err _ => (Fulfilled (out, err), executed cmd None w)
  | ExecFail e out err _ =>
      (Rejected {| message := message e; stderr := Some err;
                   signal := signal e; errcode := errcode e |},
       executed cmd None w)
  end.
Proof. unfold Steps.executed. simpl. destruct (o_exec o cmd None); reflexivity. Qed.

Lemma run_writeFile (path content : string) (w : World) :
  run o (writeFile path content) w =
  match o_write o path with
  | None => (Fulfilled tt, written path content w)
  | Some e => (Rejected e, emit (EvWrite path content) w)
  end.
Proof. simpl. destruct (o_write o path); reflexivity. Qed.

Lemma run_cleanup_ret {A} (path : string) (x : A) (w : World) :
  run o (cleanupTempFile path;; Ret x) w = (Fulfilled x, cleaned path w).
Proof. rewrite run_cleanup_then. reflexivity. Qed.

Lemma removes_cleanup_ret {A} (path : string) (x : A) :
  removes o (cleanupTempFile path;; Ret x) path.
Proof.
  intros w. rewrite run_cleanup_ret. eexists _, _. split; [reflexivity|].
  apply cleaned_absent.
Qed.

Lemma removes_settles {A} (p : Prog A) (path : string) :
  removes o p path -> settles o p.
Proof. intros H w. destruct (H w) as (r & w' & Hr & _). eauto. Qed.

(** A checker of the shape shared by the Python and C checkers and the
    Java checker of [server.js]: write, run one command, clean up on
    each of the three ways out. *)
Lemma guarded_body_removes (tempFile content cmd : string)
      (onSuccess : Prog SyntaxResult) (onFailure : string -> SyntaxResult) :
  removes o onSuccess tempFile ->
  removes o
    (tryCatch
       (writeFile tempFile content;;
        tryCatch
          (execAsync cmd;; onSuccess)
          (fun error =>
             match stderr error with
             | None => Throw (typeError "split")
             | Some err =>
                 let errorInfo := onFailure err in
                 cleanupTempFile tempFile;; Ret errorInfo
             end))
       (fun error =>
          cleanupTempFile tempFile;;
          Ret (invalidResult (Some (message error)))))
    tempFile.
Proof.
  intros Hs w. rewrite run_tryCatch, run_mbind, run_writeFile.
  destruct (o_write o tempFile) as [e|].
  - apply removes_cleanup_ret.
  - rewrite run_tryCatch, run_mbind, run_execAsync.
    destruct (o_exec o cmd None) as [out err fs | e out err fs].
    + destruct (Hs (executed cmd None (written tempFile content w)))
        as (r & w' & Hr & Habs).
      rewrite Hr. eauto.
    + cbn [stderr]. cbv zeta. rewrite run_cleanup_ret.
      eexists _, _. split; [reflexivity | apply cleaned_absent].
Qed.

Lemma checkPythonSyntax_removes (code : string) (w : World) :
  len code <= 1000000 ->
  exists r w',
    run o (checkPythonSyntax code) w = (Fulfilled r, w')
    /\ (o_unlink o (pythonTempFile (o_clock o (reads w))) = None ->
        pythonTempFile (o_clock o (reads w)) ∉ files w').
Proof.
  intros Hsize. apply N.ltb_ge in Hsize.
  unfold checkPythonSyntax. rewrite run_dateNow. cbv beta zeta.
  fold (pythonTempFile (o_clock o (reads w))). rewrite Hsize.
  apply guarded_body_removes. apply removes_cleanup_ret.
Qed.

Lemma checkCSyntax_removes (code : string) (w : World) :
  len code <= 1000000 ->
  exists r w',
    run o (checkCSyntax code) w = (Fulfilled r, w')
    /\ (o_unlink o (cTempFile (o_clock o (reads w))) = None ->
        cTempFile (o_clock o (reads w)) ∉ files w').
Proof.
  intros Hsize. apply N.ltb_ge in Hsize.
  unfold checkCSyntax. rewrite run_dateNow. cbv beta zeta.
  fold (cTempFile (o_clock o (reads w))). rewrite Hsize.
  apply (guarded_body_removes _ _ _ _
           (fun err => withErrors (cDiagnostics err) (invalidResult (Some err)))).
  apply removes_cleanup_ret.
Qed.

Lemma ServerJs_checkJavaSyntax_removes (code : string) (w : World) :
  len code <= 1000000 ->
  exists r w',
    run o (ServerJs.checkJavaSyntax code) w = (Fulfilled r, w')
    /\ (o_unlink o (javaTempFile (o_clock o (reads w))) = None ->
        javaTempFile (o_clock o (reads w)) ∉ files w').
Proof.
  intros Hsize. apply N.ltb_ge in Hsize.
  unfold ServerJs.checkJavaSyntax. rewrite run_dateNow. cbv beta zeta.
  rewrite Hsize.
  apply (guarded_body_removes (javaTempFile (o_clock o (reads w))) _ _ _
           (fun err => withDetails (DetailList (ServerJs.javaDetails err))
                                   (invalidResult (Some err)))).
  intros w1. rewrite run_cleanup_then, run_cleanup_ret.
  eexists _, _. split; [reflexivity|]. intros Hu.
  apply cleaned_keeps_absent, cleaned_absent. exact Hu.
Qed.

(** The part of the C++ checkers after the file is written. *)
Lemma checkWithStandards_removes (command : string -> string)
      (stds : list (string * string)) (adjust : N -> N)
      (suggest : string -> string) (tempFile : string) :
  removes o (ServerJs.checkWithStandards command stds adjust suggest tempFile)
          tempFile.
Proof.
  intros w. unfold ServerJs.checkWithStandards.
  rewrite run_tryCatch, run_mbind.
  destruct (run o (ServerJs.searchStandards command stds None) w) as [[s|e] w1].
  - destruct (ServerJs.success s).
    + rewrite run_cleanup_ret. eexists _, _. split; [reflexivity|].
      apply cleaned_absent.
    + destruct (ServerJs.lastError s) as [e|];
        [|cbn [run]; apply removes_cleanup_ret].
      destruct (stderr e) as [err|];
        [|cbn [run]; apply removes_cleanup_ret].
      destruct (ServerJs.collectErrors _ _ _ _ _ _) as [errors mainError].
      rewrite run_cleanup_ret. eexists _, _. split; [reflexivity|].
      apply cleaned_absent.
  - apply removes_cleanup_ret.
Qed.

Lemma cpp_checker_removes (code content : string) (command : string -> string)
      (stds : list (string * string)) (adjust : N -> N)
      (suggest : string -> string) (tempFile : string) :
  removes o
    (tryCatch
       (writeFile tempFile content;;
        ServerJs.checkWithStandards command stds adjust suggest tempFile)
       (fun error =>
          cleanupTempFile tempFile;;
          Ret (invalidResult (Some (message error)))))
    tempFile.
Proof.
  intros w. rewrite run_tryCatch, run_mbind, run_writeFile.
  destruct (o_write o tempFile) as [e|].
  - apply removes_cleanup_ret.
  - destruct (checkWithStandards_removes command stds adjust suggest tempFile
                (written tempFile content w)) as (r & w' & Hr & Habs).
    rewrite Hr. eauto.
Qed.

Lemma ServerJs_checkCPPSyntax_removes (code : string) (w : World) :
  len code <= 1000000 ->
  exists r w',
    run o (ServerJs.checkCPPSyntax code) w = (Fulfilled r, w')
    /\ (o_unlink o (cppTempFileAt (o_clock o (reads w))) = None ->
        cppTempFileAt (o_clock o (reads w)) ∉ files w').
Proof.
  intros Hsize. apply N.ltb_ge in Hsize.
  unfold ServerJs.checkCPPSyntax. rewrite run_dateNow. cbv beta zeta.
  fold (cppTempFileAt (o_clock o (reads w))). rewrite Hsize.
  apply (cpp_checker_removes code).
Qed.

Lemma Part003_checkCPPSyntax_removes (code : string) (w : World) :
  len code <= 1000000 ->
  exists r w',
    run o (Part003.checkCPPSyntax code) w = (Fulfilled r, w')
    /\ (o_unlink o (cppTempFileAt (o_clock o (reads w))) = None ->
        cppTempFileAt (o_clock o (reads w)) ∉ files w').
Proof.
  intros Hsize. apply N.ltb_ge in Hsize.
  unfold Part003.checkCPPSyntax. rewrite run_dateNow. cbv beta zeta.
  fold (cppTempFileAt (o_clock o (reads w))). rewrite Hsize.
  apply (cpp_checker_removes code).
Qed.

(** X3.  Every checker that has a cleanup on its error path removes its
    temp file on every way out: for code within the size limit, the
    Python and C checkers, the Java checker of [server.js] and the C++
    checkers of [server.js] and [part_003] fulfil their promise, and
    afterwards the temp file named after the clock reading is not in the
    temp directory, whatever the file system and the compiler did
    ([unlink] itself not failing). *)
Theorem checkers_remove_their_temp_file (w : World) (code : string) :
  len code <= 1000000 ->
  (forall p, o_unlink o p = None) ->
  let now := o_clock o (reads w) in
  (pythonTempFile now ∉ files (snd (run o (checkPythonSyntax code) w)))
  /\ (cTempFile now ∉ files (snd (run o (checkCSyntax code) w)))
  /\ (javaTempFile now ∉ files (snd (run o (ServerJs.checkJavaSyntax code) w)))
  /\ (cppTempFileAt now ∉ files (snd (run o (ServerJs.checkCPPSyntax code) w)))
  /\ (cppTempFileAt now ∉ files (snd (run o (Part003.checkCPPSyntax code) w))).
Proof.
  intros Hsize Hu now. subst now.
  destruct (checkPythonSyntax_removes code w Hsize) as (r1 & w1 & H1 & A1).
  destruct (checkCSyntax_removes code w Hsize) as (r2 & w2 & H2 & A2).
  destruct (ServerJs_checkJavaSyntax_removes code w Hsize) as (r3 & w3 & H3 & A3).
  destruct (ServerJs_checkCPPSyntax_removes code w Hsize) as (r4 & w4 & H4 & A4).
  destruct (Part003_checkCPPSyntax_removes code w Hsize) as (r5 & w5 & H5 & A5).
  rewrite H1, H2, H3, H4, H5. cbn [snd].
  repeat split; auto.
Qed.

End Checkers.

Section CheckerGuards.
Import Js Regex Eff Common Steps Outcome.

Lemma checkers_remove_their_temp_file_witness :
  let now := o_clock Scenario.quiet (reads world0) in
  (pythonTempFile now ∉ files (snd (run Scenario.quiet (checkPythonSyntax "x = 1") world0)))
  /\ (cTempFile now ∉ files (snd (run Scenario.quiet (checkCSyntax "x = 1") world0)))
  /\ (javaTempFile now
      ∉ files (snd (run Scenario.quiet (ServerJs.checkJavaSyntax "x = 1") world0)))
  /\ (cppTempFileAt now
      ∉ files (snd (run Scenario.quiet (ServerJs.checkCPPSyntax "x = 1") world0)))
  /\ (cppTempFileAt now
      ∉ files (snd (run Scenario.quiet (Part003.checkCPPSyntax "x = 1") world0))).
Proof.
  apply (checkers_remove_their_temp_file Scenario.quiet world0 "x = 1").
  - vm_compute. congruence.
  - intros p. reflexivity.
Defined.

(** X4.  Code of more than 1,000,000 code units is refused by every
    checker that has the size test, with the same result object and
    before anything is written or run: the JavaScript checker leaves
    the world untouched, the others have only read the clock (for the
    file name they never use). *)
Theorem guarded_checkers_refuse_oversized_code
        (o : Oracle) (w : World) (code : string) :
  1000000 < len code ->
  run o (checkJavaScriptSyntax code) w = (Fulfilled tooLarge, w)
  /\ run o (checkPythonSyntax code) w = (Fulfilled tooLarge, tick w)
  /\ run o (checkCSyntax code) w = (Fulfilled tooLarge, tick w)
  /\ run o (ServerJs.checkJavaSyntax code) w = (Fulfilled tooLarge, tick w)
  /\ run o (ServerJs.checkCPPSyntax code) w = (Fulfilled tooLarge, tick w)
  /\ run o (Part003.checkCPPSyntax code) w = (Fulfilled tooLarge, tick w).
Proof.
  intros Hsize. apply N.ltb_lt in Hsize.
  unfold checkJavaScriptSyntax, checkPythonSyntax, checkCSyntax,
    ServerJs.checkJavaSyntax, ServerJs.checkCPPSyntax, Part003.checkCPPSyntax.
  rewrite !run_dateNow. cbv beta zeta. rewrite !run_tryCatch, !Hsize.
  repeat split; reflexivity.
Qed.

Lemma guarded_checkers_refuse_oversized_code_witness :
  run Scenario.quiet (checkJavaScriptSyntax oversized) world0 = (Fulfilled tooLarge, world0)
  /\ run Scenario.quiet (checkPythonSyntax oversized) world0 = (Fulfilled tooLarge, tick world0)
  /\ run Scenario.quiet (checkCSyntax oversized) world0 = (Fulfilled tooLarge, tick world0)
  /\ run Scenario.quiet (ServerJs.checkJavaSyntax oversized) world0
     = (Fulfilled tooLarge, tick world0)
  /\ run Scenario.quiet (ServerJs.checkCPPSyntax oversized) world0
     = (Fulfilled tooLarge, tick world0)
  /\ run Scenario.quiet (Part003.checkCPPSyntax oversized) world0
     = (Fulfilled tooLarge, tick world0).
Proof.
  apply (guarded_checkers_refuse_oversized_code Scenario.quiet world0 oversized).
  vm_compute. reflexivity.
Defined.

(** X5.  The JavaScript checker touches neither the file system nor any
    process: for code within the size limit the world is unchanged.  The
    result is valid exactly when the code parses as a module or,
    failing that, as a script; an invalid result always carries a line
    number, and that number is at least 1. *)
Theorem checkJavaScriptSyntax_is_pure_and_parses_twice
        (o : Oracle) (w : World) (code : string) :
  len code <= 1000000 ->
  exists r,
    run o (checkJavaScriptSyntax code) w = (Fulfilled r, w)
    /\ (valid r = true <-> o_babel o code true = None \/ o_babel o code false = None)
    /\ (valid r = false -> exists l, r_line r = Some l /\ 1 <= l).
Proof.
  intros Hsize. apply N.ltb_ge in Hsize.
  unfold checkJavaScriptSyntax. rewrite Hsize. simpl.
  destruct (o_babel o code true) as [me|] eqn:Hm; simpl.
  - destruct (o_babel o code false) as [se|] eqn:Hs; simpl.
    + eexists. split; [reflexivity|]. cbn [valid r_line]. split.
      * split; [discriminate | intros [H|H]; discriminate].
      * intros _. eexists. split; [reflexivity|].
        destruct (bloc _) as [[l k]|]; [|lia].
        destruct (l =? 0) eqn:E; [lia|]. apply N.eqb_neq in E. lia.
    + eexists. split; [reflexivity|]. cbn [valid validResult]. split.
      * split; auto.
      * discriminate.
  - eexists. split; [reflexivity|]. cbn [valid validResult]. split.
    + split; auto.
    + discriminate.
Qed.

Lemma checkJavaScriptSyntax_is_pure_and_parses_twice_witness :
  exists r,
    run Scenario.quiet (checkJavaScriptSyntax "let x = 1;") world0 = (Fulfilled r, world0)
    /\ (valid r = true <-> o_babel Scenario.quiet "let x = 1;" true = None
                           \/ o_babel Scenario.quiet "let x = 1;" false = None)
    /\ (valid r = false -> exists l, r_line r = Some l /\ 1 <= l).
Proof.
  apply (checkJavaScriptSyntax_is_pure_and_parses_twice Scenario.quiet world0 "let x = 1;").
  vm_compute. congruence.
Defined.

End CheckerGuards.

(* ================================================================== *)
(** * Line numbers of the C++ checker of [part_003] *)
(* ================================================================== *)

Section HeaderLines.
Import Js Regex Eff Common Steps Outcome.



End HeaderLines.

(* ================================================================== *)
(** * The search over standards, for every environment *)
(* ================================================================== *)

Section DialectSearch.
Import Js Regex Eff Common Steps Outcome.
Context (o : Oracle).
#[local] Abbreviation executed := (Steps.executed o).

Lemma run_search_step (command : string -> string) (std name : string)
      (rest : list (string * string)) (le : option JsError) (w : World) :
  run o (ServerJs.searchStandards command ((std, name) :: rest) le) w =
  match o_exec o (command std) None with
  | ExecOk _ _ _ =>
      (Fulfilled {| ServerJs.success := true; ServerJs.lastError := le;
                    ServerJs.usedStandard := Some name |},
       executed (command std) None w)
  | ExecFail e _ err _ =>
      let e' := {| message := message e; stderr := Some err;
                   signal := signal e; errcode := errcode e |} in
      if negb (includes "standard" err) then
        (Fulfilled {| ServerJs.success := false; ServerJs.lastError := Some e';
                      ServerJs.usedStandard := Some name |},
         executed (command std) None w)
      else run o (ServerJs.searchStandards command rest (Some e'))
               (executed (command std) None w)
  end.
Proof.
  cbn [ServerJs.searchStandards].
  rewrite run_mbind, run_tryCatch, run_mbind, (run_execAsync o).
  destruct (o_exec o (command std) None) as [out err fs | e out err fs].
  - reflexivity.
  - cbn [run stderr]. destruct (includes "standard" err); reflexivity.
Qed.

(** X7.  Whatever the compiler does, the search starts it on a prefix
    of the list of standards, in the order of the list and once for
    each: no standard is tried twice, none is skipped, and the number of
    compiler runs is at most the length of the list.  The search itself
    never rejects. *)
Theorem searchStandards_runs_a_prefix_in_order
        (command : string -> string) (stds : list (string * string))
        (le : option JsError) (w : World) :
  exists n s w',
    run o (ServerJs.searchStandards command stds le) w = (Fulfilled s, w')
    /\ (n <= length stds)%nat
    /\ trace w' = trace w ++ map (fun p => EvExec (command (fst p))) (take n stds).
Proof.
  revert le w. induction stds as [|[std name] rest IH]; intros le w.
  - exists 0%nat. eexists _, _. cbn [ServerJs.searchStandards run].
    split; [reflexivity|]. split; [lia|]. rewrite app_nil_r. reflexivity.
  - rewrite run_search_step.
    destruct (o_exec o (command std) None) as [out err fs | e out err fs].
    + exists 1%nat. eexists _, _. split; [reflexivity|].
      split; [cbn; lia | reflexivity].
    + cbv zeta. destruct (includes "standard" err); cbn [negb].
      * destruct (IH (Some {| message := message e; stderr := Some err;
                              signal := signal e; errcode := errcode e |})
                     (executed (command std) None w)) as (n & s & w' & Hr & Hn & Ht).
        exists (S n), s, w'. split; [exact Hr|]. split; [cbn; lia|].
        rewrite Ht. cbn [Steps.executed emit trace take map fst].
        rewrite <- app_assoc. reflexivity.
      * exists 1%nat. eexists _, _. split; [reflexivity|].
        split; [cbn; lia | reflexivity].
Qed.

(** When every standard fails with a complaint about the standard, the
    loop ends with no standard settled on and the last failure kept. *)
Lemma searchStandards_exhausted (command : string -> string)
      (stds : list (string * string)) :
  (forall s n, (s, n) ∈ stds ->
     exists e out err fs,
       o_exec o (command s) None = ExecFail e out err fs
       /\ includes "standard" err = true) ->
  forall le w, exists le' w',
    run o (ServerJs.searchStandards command stds le) w
    = (Fulfilled {| ServerJs.success := false; ServerJs.lastError := le';
                    ServerJs.usedStandard := None |}, w')
    /\ (stds <> [] \/ (exists e err, le = Some e /\ stderr e = Some err) ->
        exists e err, le' = Some e /\ stderr e = Some err).
Proof.
  induction stds as [|[std name] rest IH]; intros Hall le w.
  - eexists _, _. cbn [ServerJs.searchStandards run]. split; [reflexivity|].
    intros [H|H]; [contradiction | exact H].
  - rewrite run_search_step.
    assert (Hhd : (std, name) ∈ (std, name) :: rest) by left.
    destruct (Hall std name Hhd) as (e & out & err & fs & Hx & Hstd).
    rewrite Hx. cbv zeta. rewrite Hstd. cbn [negb].
    edestruct IH as (le' & w' & Hr & Hle).
    { intros s n Hin. apply (Hall s n). right. exact Hin. }
    rewrite Hr. eexists _, _. split; [reflexivity|].
    intros _. apply Hle. right. eexists _, _. split; reflexivity.
Qed.

(** X8.  When g++ rejects the code under every standard of the list
    with output that mentions "standard", [checkCPPSyntax] of
    [server.js] settles (it does not reject) with an invalid result
    whose [standard] is 'Unknown'. *)
Theorem ServerJs_checkCPPSyntax_exhausted_reports_Unknown
        (w : World) (code : string) :
  len code <= 1000000 ->
  o_write o (cppTempFileAt (o_clock o (reads w))) = None ->
  (forall s n, (s, n) ∈ ServerJs.standards ->
     exists e out err fs,
       o_exec o (ServerJs.gppCommand (cppTempFileAt (o_clock o (reads w))) s) None
       = ExecFail e out err fs
       /\ includes "standard" err = true) ->
  exists r w',
    run o (ServerJs.checkCPPSyntax code) w = (Fulfilled r, w')
    /\ valid r = false
    /\ r_standard r = Some "Unknown".
Proof.
  intros Hsize Hw Hall. apply N.ltb_ge in Hsize.
  unfold ServerJs.checkCPPSyntax. rewrite run_dateNow. cbv beta zeta.
  fold (cppTempFileAt (o_clock o (reads w))).
  rewrite run_tryCatch, Hsize, (run_writeFile_ok o _ _ _ _ Hw).
  unfold ServerJs.checkWithStandards. rewrite run_tryCatch, run_mbind.
  edestruct (searchStandards_exhausted
               (ServerJs.gppCommand (cppTempFileAt (o_clock o (reads w))))
               ServerJs.standards Hall None) as (le' & w' & Hr & Hle).
  rewrite Hr. cbv beta iota. cbn [ServerJs.success ServerJs.lastError ServerJs.usedStandard].
  destruct Hle as (e & err & -> & He); [left; discriminate|].
  rewrite He.
  destruct (ServerJs.collectErrors _ _ _ _ _ _) as [errors mainError].
  rewrite run_cleanup_then. cbn [run].
  eexists _, _. split; [reflexivity|]. split; reflexivity.
Qed.

End DialectSearch.

Section DialectSearchExamples.
Import Js Regex Eff Common Steps Outcome.

Lemma ServerJs_checkCPPSyntax_exhausted_witness :
  exists r w',
    run (Scenario.withExec (fun _ _ =>
           Scenario.exitsWith "t.cpp:1:1: error: this feature needs a newer standard"))
        (ServerJs.checkCPPSyntax "auto x = 1;") world0 = (Fulfilled r, w')
    /\ valid r = false
    /\ r_standard r = Some "Unknown".
Proof.
  apply (ServerJs_checkCPPSyntax_exhausted_reports_Unknown
           (Scenario.withExec (fun _ _ =>
              Scenario.exitsWith "t.cpp:1:1: error: this feature needs a newer standard"))
           world0 "auto x = 1;").
  - vm_compute. congruence.
  - reflexivity.
  - intros s n _. eexists _, _, _, _. split; vm_compute; reflexivity.
Defined.

End DialectSearchExamples.

(* ================================================================== *)
(** * The loop over the compiler's output lines *)
(* ================================================================== *)

Section ErrorLines.
Import Js Regex Eff Common.
Context (skip : string -> bool) (adjust : N -> N) (suggest : string -> string).

Lemma trim_nonempty (s : string) : trim s <> EmptyString -> s <> EmptyString.
Proof. intros H ->. apply H. reflexivity. Qed.

Lemma collectErrors_invariant (lns : list string) :
  forall errors mainError,
  exists new,
    fst (ServerJs.collectErrors skip adjust suggest lns errors mainError)
    = errors ++ new
    /\ (length new <= length lns)%nat
    /\ (forall d, d ∈ new ->
          (type d = "warning" \/ type d = "error")
          /\ exists msg, dmessage d = trim msg /\ suggestion d = Some (suggest msg))
    /\ (mainError <> EmptyString ->
        snd (ServerJs.collectErrors skip adjust suggest lns errors mainError)
        = mainError)
    /\ (mainError = EmptyString ->
        snd (ServerJs.collectErrors skip adjust suggest lns errors mainError)
        <> EmptyString ->
        exists d, d ∈ new /\ type d = "error"
          /\ dmessage d
             = trim (snd (ServerJs.collectErrors skip adjust suggest lns
                            errors mainError)))
    /\ (mainError = EmptyString ->
        (exists d, d ∈ new /\ type d = "error" /\ dmessage d <> EmptyString) ->
        snd (ServerJs.collectErrors skip adjust suggest lns errors mainError)
        <> EmptyString).
Proof.
  induction lns as [|ln rest IH]; intros errors mainError.
  - exists []. cbn [ServerJs.collectErrors fst snd]. rewrite app_nil_r.
    split; [reflexivity|]. split; [cbn; lia|].
    split; [intros d Hd; inversion Hd|].
    split; [reflexivity|].
    split; [intros -> H; contradiction|].
    intros _ (d & Hd & _). inversion Hd.
  - cbn [ServerJs.collectErrors].
    assert (Hskip :
      (exists new,
        fst (ServerJs.collectErrors skip adjust suggest rest errors mainError)
        = errors ++ new
        /\ (length new <= length (ln :: rest))%nat
        /\ (forall d, d ∈ new ->
              (type d = "warning" \/ type d = "error")
              /\ exists msg, dmessage d = trim msg
                             /\ suggestion d = Some (suggest msg))
        /\ (mainError <> EmptyString ->
            snd (ServerJs.collectErrors skip adjust suggest rest errors mainError)
            = mainError)
        /\ (mainError = EmptyString ->
            snd (ServerJs.collectErrors skip adjust suggest rest errors mainError)
            <> EmptyString ->
            exists d, d ∈ new /\ type d = "error"
              /\ dmessage d
                 = trim (snd (ServerJs.collectErrors skip adjust suggest rest
                                errors mainError)))
        /\ (mainError = EmptyString ->
            (exists d, d ∈ new /\ type d = "error" /\ dmessage d <> EmptyString) ->
            snd (ServerJs.collectErrors skip adjust suggest rest errors mainError)
            <> EmptyString))).
    { destruct (IH errors mainError) as (new & H1 & H2 & H3 & H4 & H5 & H6).
      exists new. repeat split; try assumption; try (apply H3; assumption).
      cbn [length]. lia. }
    destruct (skip ln); [exact Hskip|].
    destruct (search gccLine ln) as [m|] eqn:Hm; [|exact Hskip].
    clear Hskip. cbv zeta.
    destruct (gccLine_groups ln m Hm)
      as (f & l & c0 & ty & msg & Hg & _ & _ & _ & _ & Hty).
    unfold group. rewrite Hg. cbn [nth pred].
    set (d0 := {| line := adjust (parseInt l); column := parseInt c0;
                  type := ty; dmessage := trim msg;
                  suggestion := Some (suggest msg) |}).
    set (main' := if String.eqb ty "error" && negb (truthy mainError)
                  then msg else mainError).
    destruct (IH (errors ++ [d0]) main') as (new & H1 & H2 & H3 & H4 & H5 & H6).
    exists (d0 :: new).
    split; [rewrite H1, <- app_assoc; reflexivity|].
    split; [cbn [length]; lia|].
    split.
    { intros d Hd. apply elem_of_cons in Hd. destruct Hd as [-> | Hd].
      - split; [exact Hty|]. exists msg. split; reflexivity.
      - apply H3. exact Hd. }
    split.
    { intros Hne. assert (main' = mainError) as Hm'.
      { unfold main'. destruct mainError; [contradiction|].
        cbn [truthy negb]. rewrite andb_false_r. reflexivity. }
      rewrite Hm'. rewrite Hm' in H4. apply H4. exact Hne. }
    split.
    { intros -> Hne. unfold main' in *. cbn [truthy negb] in *.
      rewrite andb_true_r in *.
      destruct (String.eqb ty "error") eqn:Hte.
      - apply String.eqb_eq in Hte. destruct msg as [|ch msg'].
        + destruct (H5 eq_refl Hne) as (d & Hd & Hd1 & Hd2).
          exists d. split; [right; exact Hd|]. split; assumption.
        + rewrite (H4 ltac:(discriminate)). exists d0.
          split; [left|]. split; [exact Hte | reflexivity].
      - destruct (H5 eq_refl Hne) as (d & Hd & Hd1 & Hd2).
        exists d. split; [right; exact Hd|]. split; assumption. }
    intros -> (d & Hd & Hd1 & Hd2). unfold main' in *.
    cbn [truthy negb] in *. rewrite andb_true_r in *.
    apply elem_of_cons in Hd. destruct Hd as [-> | Hd].
    + unfold d0 in Hd1, Hd2. cbn [type dmessage] in Hd1, Hd2.
      apply String.eqb_eq in Hd1. rewrite Hd1 in *.
      apply trim_nonempty in Hd2. rewrite (H4 Hd2). exact Hd2.
    + destruct (String.eqb ty "error").
      * destruct msg as [|ch msg'].
        -- apply H6; [reflexivity|]. exists d. auto.
        -- rewrite (H4 ltac:(discriminate)). discriminate.
      * apply H6; [reflexivity|]. exists d. auto.
Qed.

(** X9.  The loop of the C++ checkers over the compiler's output, for
    any [continue] test, line adjustment and suggestion table: it makes
    at most one entry per line; every entry is a warning or an error,
    its message is the trimmed text after the severity and its
    suggestion is computed from that text untrimmed; a non-empty main
    error is the text of one of the entries of type error, kept
    untrimmed, so that it is the trimmed main error that equals the
    entry's message; and the main error is empty (so that the generic
    text is reported) only when no entry of type error has a
    message. *)
Theorem collectErrors_main_error_is_a_listed_error (lns : list string) :
  let errors := fst (ServerJs.collectErrors skip adjust suggest lns [] EmptyString) in
  let mainError := snd (ServerJs.collectErrors skip adjust suggest lns [] EmptyString) in
  (length errors <= length lns)%nat
  /\ (forall d, d ∈ errors ->
        (type d = "warning" \/ type d = "error")
        /\ exists msg, dmessage d = trim msg /\ suggestion d = Some (suggest msg))
  /\ (mainError <> EmptyString ->
      exists d, d ∈ errors /\ type d = "error" /\ dmessage d = trim mainError)
  /\ (mainError = EmptyString ->
      forall d, d ∈ errors -> type d = "error" -> dmessage d = EmptyString).
Proof.
  cbv zeta.
  destruct (collectErrors_invariant lns [] EmptyString)
    as (new & H1 & H2 & H3 & _ & H5 & H6).
  rewrite H1. cbn [app].
  split; [exact H2|]. split; [exact H3|].
  split; [apply H5; reflexivity|].
  intros Hempty d Hd Hty.
  destruct (string_dec (dmessage d) EmptyString) as [He|Hne]; [exact He|].
  exfalso. apply (H6 eq_refl); [|exact Hempty]. exists d. auto.
Qed.

End ErrorLines.

Section ErrorLineExamples.
Import Js Regex Eff Common.

(** Blanks at the end of the line stay in the main error and are gone
    from the entry's message. *)
Example collectErrors_keeps_trailing_blanks_in_main_error :
  ServerJs.collectErrors (includes "standard") (fun l => l)
    ServerJs.getSuggestionForError ["t.cpp:3:7: error: 'x' was not declared  "]
    [] EmptyString
  = ([ {| line := 3; column := 7; type := "error";
          dmessage := "'x' was not declared";
          suggestion :=
            Some (ServerJs.getSuggestionForError "'x' was not declared  ") |} ],
     "'x' was not declared  ").
Proof. vm_compute. reflexivity. Qed.

End ErrorLineExamples.

(* ================================================================== *)
(** * The class name taken from submitted Java code *)
(* ================================================================== *)

Section JavaClassName.
Import Js Regex Eff Common.

(** What the group of [publicClass] holds after a match. *)
Lemma publicClass_captures_a_word (code : string) (m : found) :
  search publicClass code = Some m ->
  exists ch rest,
    group 1 m = String ch rest /\ isWord ch = true
    /\ Forall (fun ch => isWord ch = true) (list_ascii_of_string rest).
Proof.
  intros Hm. unfold group. cbn [pred].
  apply searchFrom_sound in Hm. destruct Hm as (s0 & s' & H).
  unfold publicClass, Plus in H. cbn [seqs matches] in H.
  destruct H as (s1 & c1 & (_ & _ & ->) & H).
  destruct H as (s2 & c2 & (s2a & c2a & [_ ->] & [_ ->]) & H).
  destruct H as (s3 & c3 & (_ & _ & ->) & H).
  destruct H as (s4 & c4 & (s4a & c4a & [_ ->] & [_ ->]) & H).
  destruct H as (c5 & Hname & ->).
  destruct Hname as (s5 & c6 & [(ch & -> & Hch) ->] & [(rest & -> & Hrest) ->]).
  cbn [app nth].
  change (String ch (rest +:+ s')) with (String ch rest +:+ s').
  rewrite consumed_app. exists ch, rest. auto.
Qed.



End JavaClassName.

(* ================================================================== *)
(** * The execute functions of part_003 *)
(* ================================================================== *)

Section Executors.
Import Js Regex Eff Common Steps Outcome Artifacts.
Context (o : Oracle).
#[local] Abbreviation executed := (Steps.executed o).
#[local] Abbreviation cleaned := (Steps.cleaned o).

(** [try { body } catch (e) { return h e } finally { fin }] *)
Lemma run_caught_finally {A} (body : Prog A) (h : JsError -> A)
      (fin : Prog unit) (w : World) :
  run o (tryFinally (tryCatch body (fun e => Ret (h e))) fin) w =
  match run o fin (snd (run o body w)) with
  | (Fulfilled _, w2) =>
      (Fulfilled (match fst (run o body w) with
                  | Fulfilled r => r
                  | Rejected e => h e
                  end), w2)
  | (Rejected e, w2) => (Rejected e, w2)
  end.
Proof.
  rewrite run_tryFinally, run_tryCatch.
  destruct (run o body w) as [[r|e] w1]; cbn [run fst snd];
    destruct (run o fin w1) as [[[]|e'] w2]; reflexivity.
Qed.

Lemma run_cleanup3 (a b c0 : string) (w : World) :
  run o (cleanupTempFile a;; cleanupTempFile b;; cleanupTempFile c0) w
  = (Fulfilled tt, cleaned c0 (cleaned b (cleaned a w))).
Proof. rewrite run_cleanup_then. apply run_cleanup2. Qed.

Lemma run_rmi (cmd : string) (w : World) :
  run o (tryCatch (execAsync cmd;; Ret tt) (fun _ => Ret tt)) w
  = (Fulfilled tt, executed cmd None w).
Proof.
  rewrite run_tryCatch, run_mbind, (run_execAsync o).
  destruct (o_exec o cmd None); reflexivity.
Qed.

Lemma run_executeWithTimeout (cmd : string) (t : N) (w : World) :
  run o (Part003.executeWithTimeout cmd t) w =
  (match o_exec o cmd (Some t) with
   | ExecOk out err _ => Fulfilled (out, err)
   | ExecFail e _ _ _ =>
       if bool_decide (signal e = Some "SIGTERM")
       then Rejected (mkError "Command timed out")
       else Rejected e
   end, executed cmd (Some t) w).
Proof.
  unfold Steps.executed. simpl.
  destruct (o_exec o cmd (Some t)) as [out err fs | e out err fs];
    [reflexivity|].
  destruct (bool_decide (signal e = Some "SIGTERM")); reflexivity.
Qed.

Lemma executeJavaScript_removes (code : string) (w : World) :
  exists r w',
    run o (Part003.executeJavaScript code) w = (Fulfilled r, w')
    /\ (o_unlink o (jsRunFile (o_clock o (reads w))) = None ->
        jsRunFile (o_clock o (reads w)) ∉ files w').
Proof.
  unfold Part003.executeJavaScript. rewrite run_dateNow. cbv beta zeta.
  fold (jsRunFile (o_clock o (reads w))).
  rewrite run_tryCatch, run_mbind, (run_writeFile o).
  destruct (o_write o _) as [e|].
  - rewrite run_cleanup_ret. eexists _, _. split; [reflexivity|].
    apply cleaned_absent.
  - rewrite run_mbind, (run_execAsync o).
    destruct (o_exec o _ None) as [out err fs | e out err fs].
    + cbv beta iota. rewrite run_cleanup_then.
      destruct (truthy err); cbn [run]; rewrite ?run_cleanup_ret;
        eexists _, _; (split; [reflexivity|]); apply cleaned_absent.
    + rewrite run_cleanup_ret. eexists _, _. split; [reflexivity|].
      apply cleaned_absent.
Qed.

Lemma executePython_removes (code : string) (w : World) :
  exists r w',
    run o (Part003.executePython code) w = (Fulfilled r, w')
    /\ (o_unlink o (pythonRunFile (o_clock o (reads w))) = None ->
        pythonRunFile (o_clock o (reads w)) ∉ files w').
Proof.
  unfold Part003.executePython. rewrite run_dateNow. cbv beta zeta.
  fold (pythonRunFile (o_clock o (reads w))).
  rewrite run_caught_finally, run_cleanup.
  eexists _, _. split; [reflexivity|]. apply cleaned_absent.
Qed.

Lemma executeJava_removes (code : string) (w : World) :
  exists r w',
    run o (Part003.executeJava code) w = (Fulfilled r, w')
    /\ ((forall p, o_unlink o p = None) ->
        (javaRunFile (javaRunName code (o_clock o (reads w))) ∉ files w')
        /\ (javaClassFile (javaRunName code (o_clock o (reads w))) ∉ files w')).
Proof.
  unfold Part003.executeJava, javaRunName. rewrite run_mbind.
  destruct (Part003.extractJavaClassName code) as [n|].
  - cbn [run]. cbv beta zeta.
    fold (javaRunFile n). fold (javaClassFile n).
    rewrite run_caught_finally, run_cleanup2.
    eexists _, _. split; [reflexivity|]. intros Hu. split.
    + apply cleaned_keeps_absent. apply cleaned_absent. apply Hu.
    + apply cleaned_absent. apply Hu.
  - rewrite run_dateNow. cbn [run]. cbv beta zeta.
    fold (javaRunFile ("Solution_" +:+ ofN (o_clock o (reads w)))).
    fold (javaClassFile ("Solution_" +:+ ofN (o_clock o (reads w)))).
    rewrite run_caught_finally, run_cleanup2.
    eexists _, _. split; [reflexivity|]. intros Hu. split.
    + apply cleaned_keeps_absent. apply cleaned_absent. apply Hu.
    + apply cleaned_absent. apply Hu.
Qed.

Lemma executeCPP_removes (code : string) (w : World) :
  exists r w',
    run o (Part003.executeCPP code) w = (Fulfilled r, w')
    /\ ((forall p, o_unlink o p = None) ->
        (cppRunFile (o_clock o (reads w)) ∉ files w')
        /\ (cppRunBinary (o_clock o (reads w)) ∉ files w')
        /\ (cppDockerfile (o_clock o (reads w)) ∉ files w')).
Proof.
  unfold Part003.executeCPP. rewrite run_dateNow. cbv beta zeta.
  fold (cppRunFile (o_clock o (reads w))).
  fold (cppRunBinary (o_clock o (reads w))).
  fold (cppDockerfile (o_clock o (reads w))).
  rewrite run_caught_finally, run_cleanup3.
  eexists _, _. split; [reflexivity|]. intros Hu. split; [|split].
  - do 2 apply cleaned_keeps_absent. apply cleaned_absent. apply Hu.
  - apply cleaned_keeps_absent. apply cleaned_absent. apply Hu.
  - apply cleaned_absent. apply Hu.
Qed.

Lemma executeC_removes (code : string) (w : World) :
  exists r w',
    run o (Part003.executeC code) w = (Fulfilled r, w')
    /\ ((forall p, o_unlink o p = None) ->
        (cRunFile (o_clock o (reads w)) ∉ files w')
        /\ (cRunBinary (o_clock o (S (reads w))) ∉ files w')).
Proof.
  unfold Part003.executeC. rewrite run_dateNow. cbv beta zeta.
  rewrite run_dateNow. cbv beta zeta. cbn [tick reads].
  fold (cRunFile (o_clock o (reads w))).
  fold (cRunBinary (o_clock o (S (reads w)))).
  rewrite run_caught_finally, run_cleanup2.
  eexists _, _. split; [reflexivity|]. intros Hu. split.
  - apply cleaned_keeps_absent. apply cleaned_absent. apply Hu.
  - apply cleaned_absent. apply Hu.
Qed.

(** X11.  The five [execute...] functions of [part_003] never reject,
    whatever the file system, the containers and the clock do, and they
    leave none of their files behind ([unlink] itself not failing): the
    script of the JavaScript and Python runs; the [.java] and [.class]
    file named after the public class of the code or, without one,
    after the clock; the source, the binary and the Dockerfile of the
    C++ build; the source and the binary of the C build, which are
    named after two separate clock readings. *)
Theorem executors_settle_and_remove_their_files (w : World) (code : string) :
  (forall p, o_unlink o p = None) ->
  let now := o_clock o (reads w) in
  let later := o_clock o (S (reads w)) in
  (exists r w', run o (Part003.executeJavaScript code) w = (Fulfilled r, w')
                /\ jsRunFile now ∉ files w')
  /\ (exists r w', run o (Part003.executePython code) w = (Fulfilled r, w')
                   /\ pythonRunFile now ∉ files w')
  /\ (exists r w', run o (Part003.executeJava code) w = (Fulfilled r, w')
                   /\ (javaRunFile (javaRunName code now) ∉ files w')
                   /\ (javaClassFile (javaRunName code now) ∉ files w'))
  /\ (exists r w', run o (Part003.executeCPP code) w = (Fulfilled r, w')
                   /\ (cppRunFile now ∉ files w')
                   /\ (cppRunBinary now ∉ files w')
                   /\ (cppDockerfile now ∉ files w'))
  /\ (exists r w', run o (Part003.executeC code) w = (Fulfilled r, w')
                   /\ (cRunFile now ∉ files w')
                   /\ (cRunBinary later ∉ files w')).
Proof.
  intros Hu now later. subst now later.
  destruct (executeJavaScript_removes code w) as (r1 & w1 & H1 & A1).
  destruct (executePython_removes code w) as (r2 & w2 & H2 & A2).
  destruct (executeJava_removes code w) as (r3 & w3 & H3 & A3).
  destruct (executeCPP_removes code w) as (r4 & w4 & H4 & A4).
  destruct (executeC_removes code w) as (r5 & w5 & H5 & A5).
  split; [exists r1, w1; split; [exact H1 | apply A1, Hu]|].
  split; [exists r2, w2; split; [exact H2 | apply A2, Hu]|].
  split; [exists r3, w3; split; [exact H3 | apply A3, Hu]|].
  split; [exists r4, w4; split; [exact H4 | apply A4, Hu]|].
  exists r5, w5; split; [exact H5 | apply A5, Hu].
Qed.

End Executors.

Section ExecutorTimeouts.
Import Js Regex Eff Common Steps Outcome Artifacts.

Lemma executors_settle_and_remove_their_files_witness :
  let now := o_clock Scenario.quiet (reads world0) in
  let later := o_clock Scenario.quiet (S (reads world0)) in
  (exists r w', run Scenario.quiet (Part003.executeJavaScript "x") world0
                = (Fulfilled r, w')
                /\ jsRunFile now ∉ files w')
  /\ (exists r w', run Scenario.quiet (Part003.executePython "x") world0
                   = (Fulfilled r, w')
                   /\ pythonRunFile now ∉ files w')
  /\ (exists r w', run Scenario.quiet (Part003.executeJava "x") world0
                   = (Fulfilled r, w')
                   /\ (javaRunFile (javaRunName "x" now) ∉ files w')
                   /\ (javaClassFile (javaRunName "x" now) ∉ files w'))
  /\ (exists r w', run Scenario.quiet (Part003.executeCPP "x") world0
                   = (Fulfilled r, w')
                   /\ (cppRunFile now ∉ files w')
                   /\ (cppRunBinary now ∉ files w')
                   /\ (cppDockerfile now ∉ files w'))
  /\ (exists r w', run Scenario.quiet (Part003.executeC "x") world0
                   = (Fulfilled r, w')
                   /\ (cRunFile now ∉ files w')
                   /\ (cRunBinary later ∉ files w')).
Proof.
  apply (executors_settle_and_remove_their_files Scenario.quiet world0 "x").
  intros p. reflexivity.
Defined.

Context (o : Oracle).
#[local] Abbreviation executed := (Steps.executed o).

Lemma run_executeWithTimeout_killed {A} (cmd : string) (t : N)
      (f : string * string -> Prog A) (w : World) :
  alwaysTimesOut o ->
  run o (Part003.executeWithTimeout cmd t ≫= f) w
  = (Rejected (mkError "Command timed out"), executed cmd (Some t) w).
Proof.
  intros Hk. rewrite run_mbind, (run_executeWithTimeout o).
  destruct (Hk cmd t) as (e & out & err & fs & Hx & Hs).
  rewrite Hx, Hs. reflexivity.
Qed.

Lemma timedOutOr_timeout :
  Part003.timedOutOr (mkError "Command timed out") = timedOut.
Proof. reflexivity. Qed.

(** X12.  When the file system accepts every write and every command
    started with a timeout is killed by it, the four container based
    [execute...] functions of [part_003] all answer the same object,
    [success: false] with the error 'Execution timed out. Your code
    took too long to run.': a compile or build step that is killed is
    reported as the user's code running too long. *)
Theorem killed_steps_are_reported_as_execution_timeouts
        (w : World) (code : string) :
  (forall p, o_write o p = None) ->
  alwaysTimesOut o ->
  fst (run o (Part003.executePython code) w) = Fulfilled timedOut
  /\ fst (run o (Part003.executeJava code) w) = Fulfilled timedOut
  /\ fst (run o (Part003.executeCPP code) w) = Fulfilled timedOut
  /\ fst (run o (Part003.executeC code) w) = Fulfilled timedOut.
Proof.
  intros Hw Hk. split; [|split; [|split]].
  - unfold Part003.executePython. rewrite run_dateNow. cbv beta zeta.
    rewrite (run_caught_finally o), (run_cleanup o).
    rewrite (run_writeFile_ok o _ _ _ _ (Hw _)).
    rewrite (run_executeWithTimeout_killed _ _ _ _ Hk). reflexivity.
  - unfold Part003.executeJava. rewrite run_mbind.
    destruct (Part003.extractJavaClassName code) as [n|].
    + cbn [run]. cbv beta zeta.
      rewrite (run_caught_finally o), (run_cleanup2 o).
      rewrite (run_writeFile_ok o _ _ _ _ (Hw _)).
      rewrite (run_executeWithTimeout_killed _ _ _ _ Hk). reflexivity.
    + rewrite run_dateNow. cbn [run]. cbv beta zeta.
      rewrite (run_caught_finally o), (run_cleanup2 o).
      rewrite (run_writeFile_ok o _ _ _ _ (Hw _)).
      rewrite (run_executeWithTimeout_killed _ _ _ _ Hk). reflexivity.
  - unfold Part003.executeCPP. rewrite run_dateNow. cbv beta zeta.
    rewrite (run_caught_finally o), (run_cleanup3 o).
    rewrite (run_writeFile_ok o _ _ _ _ (Hw _)).
    rewrite (run_writeFile_ok o _ _ _ _ (Hw _)).
    rewrite (run_caught_finally o), (run_rmi o).
    rewrite (run_executeWithTimeout_killed _ _ _ _ Hk). reflexivity.
  - unfold Part003.executeC. rewrite run_dateNow. cbv beta zeta.
    rewrite run_dateNow. cbv beta zeta.
    rewrite (run_caught_finally o), (run_cleanup2 o).
    rewrite (run_writeFile_ok o _ _ _ _ (Hw _)).
    rewrite (run_executeWithTimeout_killed _ _ _ _ Hk). reflexivity.
Qed.

End ExecutorTimeouts.

Section ExecutorTimeoutExamples.
Import Js Regex Eff Common Steps Outcome Artifacts.

Lemma killed_steps_are_reported_as_execution_timeouts_witness :
  fst (run slow (Part003.executePython "while True: pass") world0)
  = Fulfilled timedOut
  /\ fst (run slow (Part003.executeJava "while True: pass") world0)
     = Fulfilled timedOut
  /\ fst (run slow (Part003.executeCPP "while True: pass") world0)
     = Fulfilled timedOut
  /\ fst (run slow (Part003.executeC "while True: pass") world0)
     = Fulfilled timedOut.
Proof.
  apply (killed_steps_are_reported_as_execution_timeouts
           slow world0 "while True: pass").
  - intros p. reflexivity.
  - intros cmd t. eexists _, _, _, _. split; reflexivity.
Defined.

End ExecutorTimeoutExamples.

(* ================================================================== *)
(** * The handlers, for every request and environment *)
(* ================================================================== *)

Section Handlers.
Import Js Regex Eff Common Steps Outcome Artifacts Requests.
Context (o : Oracle).

Lemma settles_caught {A} (body : Prog A) (h : JsError -> Prog A) :
  (forall e, settles o (h e)) -> settles o (tryCatch body h).
Proof.
  intros Hh w. rewrite run_tryCatch.
  destruct (run o body w) as [[a|e] w1]; [eauto | apply Hh].
Qed.

Lemma settles_after_clock {A} (f : N -> Prog A) :
  (forall n, settles o (f n)) -> settles o (dateNow ≫= f).
Proof. intros Hf w. rewrite run_dateNow. apply Hf. Qed.

Lemma settles_cleanup_ret {A} (path : string) (x : A) :
  settles o (cleanupTempFile path;; Ret x).
Proof. intros w. rewrite (run_cleanup_ret o). eauto. Qed.

Lemma checkJavaScriptSyntax_settles (code : string) :
  settles o (checkJavaScriptSyntax code).
Proof.
  intros w. unfold checkJavaScriptSyntax.
  destruct (1000000 <? len code); [cbn [run]; eauto|].
  simpl. destruct (o_babel o code true); [|simpl; eauto].
  simpl. destruct (o_babel o code false); simpl; eauto.
Qed.

Lemma checkPythonSyntax_settles (code : string) :
  settles o (checkPythonSyntax code).
Proof.
  apply settles_after_clock. intros n. apply settles_caught.
  intros e. apply settles_cleanup_ret.
Qed.

Lemma checkCSyntax_settles (code : string) : settles o (checkCSyntax code).
Proof.
  apply settles_after_clock. intros n. apply settles_caught.
  intros e. apply settles_cleanup_ret.
Qed.

Lemma ServerJs_checkJavaSyntax_settles (code : string) :
  settles o (ServerJs.checkJavaSyntax code).
Proof.
  apply settles_after_clock. intros n. apply settles_caught.
  intros e. apply settles_cleanup_ret.
Qed.

Lemma ServerJs_checkCPPSyntax_settles (code : string) :
  settles o (ServerJs.checkCPPSyntax code).
Proof.
  apply settles_after_clock. intros n. apply settles_caught.
  intros e. apply settles_cleanup_ret.
Qed.

Lemma Part003_checkJavaSyntax_settles (code : string) :
  settles o (Part003.checkJavaSyntax code).
Proof. apply settles_caught. intros e w. cbn [run]. eauto. Qed.

Lemma Part003_checkCPPSyntax_settles (code : string) :
  settles o (Part003.checkCPPSyntax code).
Proof.
  apply settles_after_clock. intros n. apply settles_caught.
  intros e. apply settles_cleanup_ret.
Qed.

Lemma Part003_checkSyntax_settles (lang : Lang) (code : string) :
  settles o (Part003.checkSyntax lang code).
Proof.
  destruct lang; cbn [Part003.checkSyntax].
  - apply checkJavaScriptSyntax_settles.
  - apply checkPythonSyntax_settles.
  - apply Part003_checkJavaSyntax_settles.
  - apply Part003_checkCPPSyntax_settles.
  - apply checkCSyntax_settles.
Qed.

Lemma Part003_execute_settles (lang : Lang) (code : string) :
  settles o (Part003.execute lang code).
Proof.
  intros w. destruct lang; cbn [Part003.execute].
  - destruct (executeJavaScript_removes o code w) as (r & w' & H & _). eauto.
  - destruct (executePython_removes o code w) as (r & w' & H & _). eauto.
  - destruct (executeJava_removes o code w) as (r & w' & H & _). eauto.
  - destruct (executeCPP_removes o code w) as (r & w' & H & _). eauto.
  - destruct (executeC_removes o code w) as (r & w' & H & _). eauto.
Qed.

Lemma ServerJs_wrapCodeSnippet_settles (code language : string) :
  settles o (ServerJs.wrapCodeSnippet code language).
Proof.
  intros w. unfold ServerJs.wrapCodeSnippet. cbv zeta.
  destruct (String.eqb (toLowerCase language) "cpp"); [cbn [run]; eauto|].
  destruct (String.eqb (toLowerCase language) "java").
  - unfold ServerJs.wrapJava. destruct (includes "class" code).
    + cbn [run]. eauto.
    + rewrite run_dateNow. cbn [run]. eauto.
  - destruct (String.eqb (toLowerCase language) "python"); [cbn [run]; eauto|].
    destruct (String.eqb (toLowerCase language) "c"); cbn [run]; eauto.
Qed.

Lemma ServerJs_checker_settles (lang : Lang) (code : string) :
  settles o (match lang with
             | javascript => checkJavaScriptSyntax code
             | python => checkPythonSyntax code
             | java => ServerJs.checkJavaSyntax code
             | cpp => ServerJs.checkCPPSyntax code
             | c => checkCSyntax code
             end).
Proof.
  destruct lang.
  - apply checkJavaScriptSyntax_settles.
  - apply checkPythonSyntax_settles.
  - apply ServerJs_checkJavaSyntax_settles.
  - apply ServerJs_checkCPPSyntax_settles.
  - apply checkCSyntax_settles.
Qed.

Lemma not_filled_missing (req : Request) :
  (Common.code req = None \/ Common.language req = None) ->
  forall code language, ~ filled req code language.
Proof.
  intros [H|H] code language (Hc & Hl & _); congruence.
Qed.

Lemma not_filled_empty (req : Request) (code language : string) :
  Common.code req = Some code -> Common.language req = Some language ->
  negb (truthy code) || negb (truthy language) = true ->
  forall code' language', ~ filled req code' language'.
Proof.
  intros Hc Hl Hempty code' language' (Hc' & Hl' & Ht & Ht').
  rewrite Hc in Hc'. rewrite Hl in Hl'.
  inversion Hc'; inversion Hl'; subst.
  rewrite Ht, Ht' in Hempty. discriminate.
Qed.

(** X13.  On a body whose [code] and [language] are strings or
    absent, the handler of [POST /check-syntax] in [server.js] answers
    in every environment, with exactly one of three statuses.  (A
    field that holds another kind of JSON value is not covered: a
    truthy [language] that is no string makes [normalizeLanguage]
    throw outside the [try], and the handler's promise rejects.)  The
    status is 200 exactly when both fields are non-empty, the
    code has at most 1,000,000 code units and the language, lower-cased,
    is a key of the alias table: no checker failure, file-system failure
    or oversized wrapped code turns such a request into an error
    response.  It is 500 exactly when the fields and size pass and the
    lower-cased language is a property every object inherits.  It is
    400 otherwise. *)
Theorem ServerJs_endpoint_status_is_decided_by_the_request
        (req : Request) (w : World) :
  exists resp w',
    run o (ServerJs.checkSyntaxEndpoint req) w = (Fulfilled resp, w')
    /\ (status resp = 200 <->
        exists code language lang,
          filled req code language /\ len code <= 1000000
          /\ normalizeLanguage language = Canonical lang)
    /\ (status resp = 500 <->
        exists code language key,
          filled req code language /\ len code <= 1000000
          /\ normalizeLanguage language = Inherited key)
    /\ (status resp = 200 \/ status resp = 400 \/ status resp = 500).
Proof.
  unfold ServerJs.checkSyntaxEndpoint.
  destruct (Common.code req) as [code|] eqn:Hc;
    [destruct (Common.language req) as [language|] eqn:Hl|].
  2,3: eexists _, _; (split; [reflexivity|]);
       cbn [status ServerJs.requiredResponse];
       (split; [split; [discriminate|];
                intros (c0 & l0 & x & Hf & _);
                exfalso; eapply not_filled_missing; eauto|]);
       (split; [split; [discriminate|];
                intros (c0 & l0 & x & Hf & _);
                exfalso; eapply not_filled_missing; eauto|]);
       auto.
  destruct (negb (truthy code) || negb (truthy language)) eqn:Hempty.
  { eexists _, _. split; [reflexivity|].
    cbn [status ServerJs.requiredResponse].
    split; [split; [discriminate|];
            intros (c0 & l0 & x & Hf & _);
            exfalso; eapply not_filled_empty; eauto|].
    split; [split; [discriminate|];
            intros (c0 & l0 & x & Hf & _);
            exfalso; eapply not_filled_empty; eauto|].
    auto. }
  apply orb_false_elim in Hempty. destruct Hempty as [Ht Ht'].
  apply negb_false_iff in Ht. apply negb_false_iff in Ht'.
  assert (Hfilled : filled req code language) by (repeat split; assumption).
  assert (Hsame : forall c0 l0, filled req c0 l0 -> c0 = code /\ l0 = language).
  { intros c0 l0 (Hc0 & Hl0 & _). rewrite Hc in Hc0. rewrite Hl in Hl0.
    inversion Hc0; inversion Hl0; auto. }
  destruct (1000000 <? len code) eqn:Hsize.
  { apply N.ltb_lt in Hsize. eexists _, _. split; [reflexivity|].
    cbn [status ServerJs.sizeResponse].
    split; [split; [discriminate|];
            intros (c0 & l0 & x & Hf & Hle & _);
            destruct (Hsame _ _ Hf) as [-> ->]; lia|].
    split; [split; [discriminate|];
            intros (c0 & l0 & x & Hf & Hle & _);
            destruct (Hsame _ _ Hf) as [-> ->]; lia|].
    auto. }
  apply N.ltb_ge in Hsize.
  destruct (normalizeLanguage language) as [lang|key|] eqn:Hn.
  - rewrite run_tryCatch. cbv zeta. rewrite run_mbind.
    destruct (ServerJs_wrapCodeSnippet_settles code (langName lang) w)
      as (wrapped & w1 & Hw).
    rewrite Hw, run_mbind.
    destruct (ServerJs_checker_settles lang wrapped w1) as (r & w2 & Hr).
    rewrite Hr. cbn [run].
    eexists _, _. split; [reflexivity|]. cbn [status].
    split; [split; [intros _; exists code, language, lang; auto | reflexivity]|].
    split; [split; [discriminate|];
            intros (c0 & l0 & x & Hf & _ & Hx);
            destruct (Hsame _ _ Hf) as [-> ->]; congruence|].
    auto.
  - rewrite run_tryCatch. cbn [run]. rewrite run_mbind. simpl.
    eexists _, _. split; [reflexivity|]. cbn [status].
    split; [split; [discriminate|];
            intros (c0 & l0 & x & Hf & _ & Hx);
            destruct (Hsame _ _ Hf) as [-> ->]; congruence|].
    split; [split; [intros _; exists code, language, key; auto | reflexivity]|].
    auto.
  - eexists _, _. split; [reflexivity|].
    cbn [status ServerJs.unsupportedResponse].
    split; [split; [discriminate|];
            intros (c0 & l0 & x & Hf & _ & Hx);
            destruct (Hsame _ _ Hf) as [-> ->]; congruence|].
    split; [split; [discriminate|];
            intros (c0 & l0 & x & Hf & _ & Hx);
            destruct (Hsame _ _ Hf) as [-> ->]; congruence|].
    auto.
Qed.

(** X14.  On a body whose [code] and [language] are strings or
    absent, the handler of [POST /check-syntax] in [part_003] answers
    in every environment, with status 200 or 400 and never with 500:
    nothing its checkers or execute functions do reaches its [catch]
    block.  (A field that holds another kind of JSON value is not
    covered: a truthy [language] that is no string makes
    [normalizeLanguage] throw outside the [try], and the handler's
    promise rejects.)  The status is 200 exactly when both fields are
    non-empty and the language, lower-cased, is a key of the alias
    table; there is no limit on the size of the code.  The answer has
    an [execution] part exactly when the syntax check said valid. *)
Theorem Part003_endpoint_answers_200_or_400
        (req : Request) (w : World) :
  exists resp w',
    run o (Part003.checkSyntaxEndpoint req) w = (Fulfilled resp, w')
    /\ (status resp = 200 <->
        exists code language lang,
          filled req code language
          /\ normalizeLanguage language = Canonical lang)
    /\ (status resp = 200 \/ status resp = 400)
    /\ (forall v m e d rq n ex,
          body resp = CheckedBody v m e d rq n ex -> (is_Some ex <-> v = true)).
Proof.
  unfold Part003.checkSyntaxEndpoint.
  destruct (Common.code req) as [code|] eqn:Hc;
    [destruct (Common.language req) as [language|] eqn:Hl|].
  2,3: eexists _, _; (split; [reflexivity|]);
       cbn [status body Part003.requiredResponse];
       (split; [split; [discriminate|];
                intros (c0 & l0 & x & Hf & _);
                exfalso; eapply not_filled_missing; eauto|]);
       (split; [auto | discriminate]).
  destruct (negb (truthy code) || negb (truthy language)) eqn:Hempty.
  { eexists _, _. split; [reflexivity|].
    cbn [status body Part003.requiredResponse].
    split; [split; [discriminate|];
            intros (c0 & l0 & x & Hf & _);
            exfalso; eapply not_filled_empty; eauto|].
    split; [auto | discriminate]. }
  apply orb_false_elim in Hempty. destruct Hempty as [Ht Ht'].
  apply negb_false_iff in Ht. apply negb_false_iff in Ht'.
  assert (Hfilled : filled req code language) by (repeat split; assumption).
  assert (Hsame : forall c0 l0, filled req c0 l0 -> c0 = code /\ l0 = language).
  { intros c0 l0 (Hc0 & Hl0 & _). rewrite Hc in Hc0. rewrite Hl in Hl0.
    inversion Hc0; inversion Hl0; auto. }
  rewrite run_mbind. cbn [run call perform]. cbv beta zeta.
  destruct (normalizeLanguage language) as [lang|key|] eqn:Hn.
  - rewrite run_tryCatch, run_mbind.
    destruct (Part003_checkSyntax_settles lang
                (match o_decode o code with Some d => d | None => code end) w)
      as (r & w1 & Hr).
    rewrite Hr, run_mbind.
    destruct (valid r) eqn:Hv.
    + rewrite run_mbind.
      destruct (Part003_execute_settles lang
                  (match o_decode o code with Some d => d | None => code end) w1)
        as (x & w2 & Hx).
      rewrite Hx. cbn [run].
      eexists _, _. split; [reflexivity|]. cbn [status body option_map].
      split; [split; [intros _; exists code, language, lang; auto | reflexivity]|].
      split; [auto|].
      intros v m e d rq n ex Hb. inversion Hb; subst.
      split; [reflexivity | intros _; eexists; reflexivity].
    + cbn [run].
      eexists _, _. split; [reflexivity|]. cbn [status body].
      split; [split; [intros _; exists code, language, lang; auto | reflexivity]|].
      split; [auto|].
      intros v m e d rq n ex Hb. inversion Hb; subst.
      split; [intros [? Hs]; discriminate | discriminate].
  - eexists _, _. split; [reflexivity|].
    cbn [status body Part003.unsupportedResponse].
    split; [split; [discriminate|];
            intros (c0 & l0 & x & Hf & Hx);
            destruct (Hsame _ _ Hf) as [-> ->]; congruence|].
    split; [auto | discriminate].
  - eexists _, _. split; [reflexivity|].
    cbn [status body Part003.unsupportedResponse].
    split; [split; [discriminate|];
            intros (c0 & l0 & x & Hf & Hx);
            destruct (Hsame _ _ Hf) as [-> ->]; congruence|].
    split; [auto | discriminate].
Qed.

End Handlers.

(* ================================================================== *)
(** * Removing the indentation *)
(* ================================================================== *)

Section Unindent.
Import Js Regex Eff Common Shape.

Lemma split_nl_lines (s : string) : Forall oneLine (split_nl s).
Proof.
  induction s as [|ch s IH]; cbn [split_nl].
  - repeat constructor.
  - destruct (Ascii.eqb ch (chr 10)) eqn:E.
    + constructor; [constructor | exact IH].
    + destruct (split_nl s) as [|l ls]; [repeat constructor; exact E|].
      inversion IH; subst. constructor; [|assumption].
      unfold oneLine. cbn [list_ascii_of_string]. constructor; assumption.
Qed.

Lemma oneLine_slice (n : nat) (s : string) : oneLine s -> oneLine (slice n s).
Proof.
  revert s. induction n as [|n IH]; intros s H; [destruct s; exact H|].
  destruct s as [|ch s]; [exact H|]. cbn [slice]. apply IH.
  unfold oneLine in *. cbn [list_ascii_of_string] in H. inversion H; assumption.
Qed.

Lemma concat_split_lines (xs : list string) :
  Forall oneLine xs -> concat (map split_nl xs) = xs.
Proof.
  induction 1 as [|x xs Hx _ IH]; [reflexivity|].
  cbn [map concat]. rewrite (split_nl_oneLine x Hx), IH. reflexivity.
Qed.

(** Splitting what was joined gives the lines back. *)
Lemma split_nl_join_lines (xs : list string) :
  xs <> [] -> Forall oneLine xs -> split_nl (join nl xs) = xs.
Proof.
  intros Hne H. destruct xs as [|x xs]; [contradiction|].
  rewrite split_nl_join. apply concat_split_lines. exact H.
Qed.

(** Joining what was split gives the text back. *)
Lemma join_split_nl (s : string) : join nl (split_nl s) = s.
Proof.
  induction s as [|ch s IH]; [reflexivity|]. cbn [split_nl].
  destruct (Ascii.eqb ch (chr 10)) eqn:E.
  - apply Ascii.eqb_eq in E. subst ch.
    destruct (split_nl s) as [|l ls] eqn:Hs;
      [exfalso; exact (split_nl_nonempty s Hs)|].
    change (join nl (EmptyString :: l :: ls))
      with (String (chr 10) (join nl (l :: ls))).
    rewrite IH. reflexivity.
  - destruct (split_nl s) as [|l ls] eqn:Hs;
      [exfalso; exact (split_nl_nonempty s Hs)|].
    rewrite <- IH. destruct ls; reflexivity.
Qed.

Lemma slice_0 (s : string) : slice 0 s = s.
Proof. destruct s; reflexivity. Qed.

Lemma leadingSpaces_slice (l : string) :
  leadingSpaces (slice (leadingSpaces l) l) = 0%nat.
Proof.
  induction l as [|ch l IH]; [reflexivity|]. cbn [leadingSpaces].
  destruct (isSpace ch) eqn:E.
  - cbn [slice]. exact IH.
  - cbn [slice leadingSpaces]. rewrite E. reflexivity.
Qed.

Lemma slice_length (n : nat) (s : string) :
  String.length (slice n s) = (String.length s - n)%nat.
Proof.
  revert s. induction n as [|n IH]; intros s.
  - rewrite slice_0. lia.
  - destruct s as [|ch s]; [reflexivity|]. cbn [slice String.length]. apply IH.
Qed.

Lemma unindent_split (code : string) :
  split_nl (ServerJs.unindent code)
  = map (slice (leadingSpaces (hd EmptyString (split_nl code)))) (split_nl code).
Proof.
  unfold ServerJs.unindent. cbv zeta. apply split_nl_join_lines.
  - destruct (split_nl code) eqn:Hs;
      [exfalso; exact (split_nl_nonempty code Hs)|].
    discriminate.
  - apply Forall_forall. intros x Hx. apply list_elem_of_fmap in Hx.
    destruct Hx as (l & -> & Hl). apply oneLine_slice.
    exact (proj1 (Forall_forall _ _) (split_nl_lines code) l Hl).
Qed.

(** X15.  The first three statements of [wrapCodeSnippet] keep the
    number of lines and drop from the front of every line as many code
    units as the first line has leading white space, whatever those
    code units are (a line with less indentation than the first loses
    text), and never more than the line has.  Afterwards the first line
    starts without white space, so doing it again changes nothing. *)
Theorem unindent_drops_the_first_lines_indentation (code : string) :
  let n := leadingSpaces (hd EmptyString (split_nl code)) in
  split_nl (ServerJs.unindent code) = map (slice n) (split_nl code)
  /\ (forall j l, split_nl code !! j = Some l ->
        exists l', split_nl (ServerJs.unindent code) !! j = Some l'
                   /\ String.length l' = (String.length l - n)%nat)
  /\ leadingSpaces (hd EmptyString (split_nl (ServerJs.unindent code))) = 0%nat
  /\ ServerJs.unindent (ServerJs.unindent code) = ServerJs.unindent code.
Proof.
  cbv zeta.
  assert (Hfirst :
    leadingSpaces (hd EmptyString (split_nl (ServerJs.unindent code))) = 0%nat).
  { rewrite unindent_split.
    destruct (split_nl code) as [|l ls] eqn:Hs;
      [exfalso; exact (split_nl_nonempty code Hs)|].
    cbn [map hd]. apply leadingSpaces_slice. }
  split; [apply unindent_split|]. split; [|split; [exact Hfirst|]].
  - intros j l Hj. rewrite unindent_split, list_lookup_fmap, Hj.
    eexists. split; [reflexivity|]. apply slice_length.
  - unfold ServerJs.unindent at 1. cbv zeta. rewrite Hfirst.
    rewrite (map_ext _ (fun s => s) slice_0), map_id.
    apply join_split_nl.
Qed.

End Unindent.

(* ================================================================== *)
(** * Which reported lines are the user's lines *)
(* ================================================================== *)

Section ReportedLines.
Import Js Regex Eff Common Steps Outcome Requests.

Lemma wrapC_lines (code u : string) :
  includes "main(" code = false ->
  exists l ls,
    split_nl u = l :: ls
    /\ split_nl (ServerJs.wrapC code u)
       = [ "#include <stdio.h>"; "#include <stdlib.h>"; "#include <string.h>";
           EmptyString; "int main() {" ]
         ++ (("    " +:+ l) :: ls) ++ [ "    return 0;"; "}" ].
Proof.
  intros Hm. unfold ServerJs.wrapC. rewrite Hm. rewrite split_nl_join.
  destruct (split_nl_indented "    " u) as (l & ls & ls' & Hu & Hp & ->).
  { repeat constructor. }
  exists l, ls. split; [exact Hu|].
  cbn [map concat]. rewrite Hp. reflexivity.
Qed.

(** [adjustErrorLineNumbers] reads [line] and [errors] only. *)
Lemma adjustErrorLineNumbers_without_lines (r : SyntaxResult)
      (language : string) (hasWrapper : bool) :
  r_line r = None -> r_errors r = None ->
  ServerJs.adjustErrorLineNumbers r language hasWrapper = r.
Proof.
  intros Hl He. unfold ServerJs.adjustErrorLineNumbers.
  destruct (negb hasWrapper); [reflexivity|]. cbv zeta.
  rewrite Hl, He. destruct r. cbn in Hl, He. subst. reflexivity.
Qed.

Lemma wrapPython_lines (u : string) (j : nat) :
  split_nl (ServerJs.wrapPython u) !! (5 + j)%nat = split_nl u !! j.
Proof.
  unfold ServerJs.wrapPython. rewrite split_nl_join. cbn [map concat].
  rewrite app_nil_r. reflexivity.
Qed.

Context (o : Oracle).

(** X17.  The Python answers of [server.js] are never adjusted.  The
    wrapper always puts five lines before the code, so line [j] of the
    unindented code is line [5 + j] of the checked file; but when the
    compile fails the handler answers the checker's result as it is,
    with the compiler's output as [error] and the line numbers found in
    it as [details], whether or not [hasWrapper] holds:
    [adjustErrorLineNumbers] touches [line] and [errors] only, and the
    Python result has neither. *)
Theorem ServerJs_python_lines_are_those_of_the_wrapped_file
        (w : World) (code language : string)
        (e : JsError) (out err : string) (fs : list string) :
  truthy code = true -> truthy language = true ->
  len code <= 1000000 ->
  normalizeLanguage language = Canonical python ->
  let wrapped := ServerJs.wrapPython (ServerJs.unindent code) in
  let tempFile := pythonTempFile (o_clock o (reads w)) in
  len wrapped <= 1000000 ->
  o_write o tempFile = None ->
  o_exec o ("/usr/bin/python3 -m py_compile " +:+ quoted tempFile) None
  = ExecFail e out err fs ->
  (forall j, split_nl wrapped !! (5 + j)%nat
             = split_nl (ServerJs.unindent code) !! j)
  /\ fst (run o (ServerJs.checkSyntaxEndpoint (Scenario.request language code)) w)
     = Fulfilled
         {| status := 200;
            body := ResultBody
                      (withDetails (DetailList (pythonDetails err))
                                   (invalidResult (Some err)))
                      language python |}.
Proof.
  intros Ht Ht' Hsize Hn wrapped tempFile Hwsize Hw Hx.
  split; [intros j; apply wrapPython_lines|].
  apply N.ltb_ge in Hsize. apply N.ltb_ge in Hwsize.
  unfold ServerJs.checkSyntaxEndpoint, Scenario.request.
  cbn [Common.code Common.language]. rewrite Ht, Ht'. cbn [negb orb].
  rewrite Hsize, Hn. rewrite run_tryCatch. cbv zeta.
  change (langName python) with "python".
  change (ServerJs.wrapCodeSnippet code "python")
    with (Ret (A := string) wrapped).
  rewrite run_mbind. cbn [run]. rewrite run_mbind.
  unfold checkPythonSyntax. rewrite run_dateNow. cbv beta zeta.
  fold (pythonTempFile (o_clock o (reads w))). fold tempFile.
  rewrite run_tryCatch, Hwsize, (run_writeFile_ok o _ _ _ _ Hw).
  rewrite run_tryCatch, (run_execAsync_fail o _ _ _ _ _ _ _ Hx).
  cbn [stderr]. cbv zeta. rewrite run_cleanup_then. cbn [run fst].
  rewrite adjustErrorLineNumbers_without_lines by reflexivity.
  destruct (negb _ && _); reflexivity.
Qed.

End ReportedLines.

Section ReportedLineExamples.
Import Js Regex Eff Common Steps Outcome Requests Artifacts.

Lemma ServerJs_python_lines_are_those_of_the_wrapped_file_witness :
  (forall j, split_nl (ServerJs.wrapPython (ServerJs.unindent "x = (")) !! (5 + j)%nat
             = split_nl (ServerJs.unindent "x = (") !! j)
  /\ fst (run pythonRejects
            (ServerJs.checkSyntaxEndpoint (Scenario.request "py" "x = (")) world0)
     = Fulfilled
         {| status := 200;
            body := ResultBody
                      (withDetails (DetailList (pythonDetails pythonComplaint))
                                   (invalidResult (Some pythonComplaint)))
                      "py" python |}.
Proof.
  apply (ServerJs_python_lines_are_those_of_the_wrapped_file
           pythonRejects world0 "x = (" "py"
           {| message := "Command failed"; Eff.stderr := None;
              signal := None; errcode := None |}
           EmptyString pythonComplaint []).
  - reflexivity.
  - reflexivity.
  - vm_compute. congruence.
  - reflexivity.
  - vm_compute. congruence.
  - reflexivity.
  - reflexivity.
Defined.

(** In that answer the error on the user's first line is listed at
    line 6. *)
Example python_first_line_is_listed_as_line_6 :
  map d_line (pythonDetails pythonComplaint) = [6].
Proof. vm_compute. reflexivity. Qed.

End ReportedLineExamples.

(* ================================================================== *)
(** * The Stack template *)
(* ================================================================== *)

Section StackProperties.
Import StackHpp.
Context {T : Type} (h : Header).
Local Open Scope Z_scope.

Lemma contents_length (s : Stack T) :
  wellFormed s -> Z.of_nat (length (contents s)) = size s.
Proof.
  intros [Hl Ht]. unfold contents, size, MAX_SIZE in *.
  rewrite length_take_le; lia.
Qed.

Lemma push_spec (v : T) (s : Stack T) :
  wellFormed s ->
  (size s < MAX_SIZE ->
   exists s', push h v s = Returns s' /\ wellFormed s'
              /\ contents s' = contents s ++ [v])
  /\ (size s = MAX_SIZE -> push h v s = Throws (overflow_error (fullText h))).
Proof.
  intros [Hl Ht]. unfold push, size, inArray, MAX_SIZE in *. split; intros Hs.
  - destruct (top s >=? 100 - 1) eqn:E; [rewrite Z.geb_leb in E; lia|].
    cbv zeta.
    replace ((0 <=? top s + 1) && (top s + 1 <? Z.of_nat (length (arr s))))
      with true by (symmetry; apply andb_true_iff; split; lia).
    eexists. split; [reflexivity|]. split.
    + unfold wellFormed, MAX_SIZE. cbn [arr top]. rewrite length_insert. lia.
    + unfold contents. cbn [arr top].
      replace (Z.to_nat (top s + 1 + 1)) with (S (Z.to_nat (top s + 1))) by lia.
      rewrite (take_S_r _ _ v) by (apply list_lookup_insert_eq; lia).
      rewrite take_insert_ge by lia. reflexivity.
  - destruct (top s >=? 100 - 1) eqn:E; [reflexivity|].
    rewrite Z.geb_leb in E. lia.
Qed.

Lemma pop_spec (s : Stack T) :
  wellFormed s ->
  (forall xs v, contents s = xs ++ [v] ->
     exists s', pop h s = Returns (v, s') /\ wellFormed s'
                /\ contents s' = xs /\ arr s' = arr s)
  /\ (contents s = [] -> pop h s = Throws (underflow_error (emptyText h))).
Proof.
  intros Hwf. pose proof (contents_length s Hwf) as Hlen.
  destruct Hwf as [Hl Ht].
  unfold pop, isEmpty, size, inArray, MAX_SIZE in *. split.
  - intros xs v Hc. rewrite Hc, length_app in Hlen. cbn [length] in Hlen.
    destruct (top s =? -1) eqn:E; [lia|].
    replace ((0 <=? top s) && (top s <? Z.of_nat (length (arr s))))
      with true by (symmetry; apply andb_true_iff; split; lia).
    destruct (arr s !! Z.to_nat (top s)) as [v'|] eqn:Hv.
    2:{ apply lookup_ge_None in Hv. lia. }
    unfold contents in Hc.
    replace (Z.to_nat (top s + 1)) with (S (Z.to_nat (top s))) in Hc by lia.
    rewrite (take_S_r _ _ _ Hv) in Hc. apply app_inj_tail in Hc.
    destruct Hc as [Hxs ->].
    eexists. split; [reflexivity|]. split; [|split].
    + unfold wellFormed, MAX_SIZE. cbn [arr top]. lia.
    + unfold contents. cbn [arr top].
      replace (top s - 1 + 1) with (top s) by lia. exact Hxs.
    + reflexivity.
  - intros Hc. rewrite Hc in Hlen. cbn [length] in Hlen.
    destruct (top s =? -1) eqn:E; [reflexivity | lia].
Qed.

Lemma peek_spec (s : Stack T) :
  wellFormed s ->
  (forall xs v, contents s = xs ++ [v] -> peek h s = Returns v)
  /\ (contents s = [] -> peek h s = Throws (underflow_error (emptyText h))).
Proof.
  intros Hwf. pose proof (contents_length s Hwf) as Hlen.
  destruct Hwf as [Hl Ht].
  unfold peek, isEmpty, size, inArray, MAX_SIZE in *. split.
  - intros xs v Hc. rewrite Hc, length_app in Hlen. cbn [length] in Hlen.
    destruct (top s =? -1) eqn:E; [lia|].
    replace ((0 <=? top s) && (top s <? Z.of_nat (length (arr s))))
      with true by (symmetry; apply andb_true_iff; split; lia).
    destruct (arr s !! Z.to_nat (top s)) as [v'|] eqn:Hv.
    2:{ apply lookup_ge_None in Hv. lia. }
    unfold contents in Hc.
    replace (Z.to_nat (top s + 1)) with (S (Z.to_nat (top s))) in Hc by lia.
    rewrite (take_S_r _ _ _ Hv) in Hc. apply app_inj_tail in Hc.
    destruct Hc as [_ ->]. reflexivity.
  - intros Hc. rewrite Hc in Hlen. cbn [length] in Hlen.
    destruct (top s =? -1) eqn:E; [reflexivity | lia].
Qed.

Lemma contents_cases (s : Stack T) :
  contents s = [] \/ exists xs v, contents s = xs ++ [v].
Proof.
  destruct (contents s) as [|x xs] using rev_ind; [left; reflexivity|].
  right. eauto.
Qed.

Lemma construct_wellFormed (storage : list T) :
  Z.of_nat (length storage) = MAX_SIZE ->
  wellFormed (construct storage) /\ contents (construct storage) = [].
Proof.
  intros Hl. unfold wellFormed, construct, contents, MAX_SIZE in *.
  cbn [arr top]. split; [lia | reflexivity].
Qed.

Lemma after_wellFormed (c : Call T) (s : Stack T) :
  wellFormed s -> exists s', after h c s = Some s' /\ wellFormed s'.
Proof.
  intros Hwf. pose proof (contents_length s Hwf) as Hlen.
  destruct c as [v| |]; cbn [after].
  - destruct (push_spec v s Hwf) as [Hroom Hfull].
    destruct (Z.eq_dec (size s) MAX_SIZE) as [E|E].
    + rewrite (Hfull E). eauto.
    + destruct Hroom as (s' & Hp & Hwf' & _).
      { destruct Hwf as [_ Ht]. unfold size in *. lia. }
      rewrite Hp. eauto.
  - destruct (pop_spec s Hwf) as [Hsome Hnone].
    destruct (contents_cases s) as [E | (xs & v & E)].
    + rewrite (Hnone E). eauto.
    + destruct (Hsome xs v E) as (s' & Hp & Hwf' & _). rewrite Hp. eauto.
  - destruct (peek_spec s Hwf) as [Hsome Hnone].
    destruct (contents_cases s) as [E | (xs & v & E)].
    + rewrite (Hnone E). eauto.
    + rewrite (Hsome xs v E). eauto.
Qed.

(** X18.  No sequence of [push], [pop] and [peek] calls on a newly
    constructed stack, with their exceptions caught, ever indexes
    [arr] outside its 100 elements, and after it [top] is [-1] or
    an index of the array. *)
Theorem Stack_never_leaves_its_array (storage : list T) (cs : list (Call T)) :
  Z.of_nat (length storage) = MAX_SIZE ->
  exists s, afterAll h cs (construct storage) = Some s
            /\ -1 <= top s < MAX_SIZE
            /\ Z.of_nat (length (arr s)) = MAX_SIZE.
Proof.
  intros Hl. destruct (construct_wellFormed storage Hl) as [Hwf _].
  revert Hwf. generalize (construct storage).
  induction cs as [|c0 rest IH]; intros s Hwf.
  - exists s. destruct Hwf. cbn [afterAll]. auto.
  - cbn [afterAll]. destruct (after_wellFormed c0 s Hwf) as (s' & Ha & Hwf').
    rewrite Ha. apply IH. exact Hwf'.
Qed.

(** X19.  The stack is a last-in first-out list of at most 100
    elements.  On an object whose array has its 100 elements and whose
    [top] is in range: [size] is the number of elements and [isEmpty]
    holds exactly when there is none; [push] appends the value when
    there are fewer than 100 and throws [overflow_error] with the
    header's text when there are 100; [pop] returns the last element
    and removes it, [peek] returns it and removes nothing, and both
    throw [underflow_error] when there is none. *)
Theorem Stack_is_a_bounded_lifo (s : Stack T) (v : T) :
  wellFormed s ->
  size s = Z.of_nat (length (contents s))
  /\ (isEmpty s = true <-> contents s = [])
  /\ (size s < MAX_SIZE ->
      exists s', push h v s = Returns s' /\ wellFormed s'
                 /\ contents s' = contents s ++ [v]
                 /\ exists s'', pop h s' = Returns (v, s'')
                                /\ contents s'' = contents s /\ top s'' = top s)
  /\ (size s = MAX_SIZE -> push h v s = Throws (overflow_error (fullText h)))
  /\ (forall xs x, contents s = xs ++ [x] ->
        peek h s = Returns x
        /\ exists s', pop h s = Returns (x, s') /\ wellFormed s'
                      /\ contents s' = xs)
  /\ (contents s = [] ->
      pop h s = Throws (underflow_error (emptyText h))
      /\ peek h s = Throws (underflow_error (emptyText h))).
Proof.
  intros Hwf. pose proof (contents_length s Hwf) as Hlen.
  destruct (push_spec v s Hwf) as [Hroom Hfull].
  destruct (pop_spec s Hwf) as [Hsome Hnone].
  destruct (peek_spec s Hwf) as [Hpsome Hpnone].
  split; [lia|]. split.
  { unfold isEmpty. rewrite Z.eqb_eq. unfold size in Hlen. split.
    - intros E. destruct (contents s); [reflexivity | cbn [length] in Hlen; lia].
    - intros E. rewrite E in Hlen. cbn [length] in Hlen. lia. }
  split.
  { intros Hs. destruct (Hroom Hs) as (s' & Hp & Hwf' & Hc).
    exists s'. split; [exact Hp|]. split; [exact Hwf'|]. split; [exact Hc|].
    destruct (pop_spec s' Hwf') as [Hsome' _].
    destruct (Hsome' _ _ Hc) as (s'' & Hpop & _ & Hc'' & _).
    exists s''. split; [exact Hpop|]. split; [exact Hc''|].
    unfold push in Hp. destruct (top s >=? MAX_SIZE - 1); [discriminate|].
    cbv zeta in Hp. destruct (inArray s (top s + 1)); [|discriminate].
    inversion Hp; subst s'. clear Hp.
    unfold pop, isEmpty in Hpop. cbn [top arr] in Hpop.
    destruct (top s + 1 =? -1); [discriminate|].
    destruct (if inArray _ _ then _ else _); [|discriminate].
    inversion Hpop; subst. cbn [top]. lia. }
  split; [exact Hfull|]. split.
  { intros xs x Hc. split; [exact (Hpsome xs x Hc)|].
    destruct (Hsome xs x Hc) as (s' & Hp & Hwf' & Hc' & _). eauto. }
  intros Hc. split; [exact (Hnone Hc) | exact (Hpnone Hc)].
Qed.

Lemma pushAll_spec (values : list T) :
  forall s : Stack T, wellFormed s ->
  (size s + Z.of_nat (length values) <= MAX_SIZE ->
   exists s', pushAll h values s = Returns s' /\ wellFormed s'
              /\ contents s' = contents s ++ values)
  /\ (size s + Z.of_nat (length values) > MAX_SIZE ->
      pushAll h values s = Throws (overflow_error (fullText h))).
Proof.
  induction values as [|v rest IH]; intros s Hwf.
  - cbn [pushAll length]. split.
    + intros _. exists s. rewrite app_nil_r. auto.
    + intros Hs. destruct Hwf as [_ Ht]. unfold size in Hs. lia.
  - cbn [pushAll]. change (length (v :: rest)) with (S (length rest)).
    pose proof (contents_length s Hwf) as Hlen.
    destruct (push_spec v s Hwf) as [Hroom Hfull].
    destruct (Z.eq_dec (size s) MAX_SIZE) as [E|E].
    + rewrite (Hfull E). split; [lia | reflexivity].
    + destruct Hroom as (s' & Hp & Hwf' & Hc).
      { destruct Hwf as [_ Ht]. unfold size in *. lia. }
      rewrite Hp. pose proof (contents_length s' Hwf') as Hlen'.
      rewrite Hc, length_app in Hlen'. cbn [length] in Hlen'.
      destruct (IH s' Hwf') as [Hfit Hover]. split.
      * intros Hs. destruct Hfit as (s'' & Hq & Hwf'' & Hc''); [lia|].
        exists s''. split; [exact Hq|]. split; [exact Hwf''|].
        rewrite Hc'', Hc, <- app_assoc. reflexivity.
      * intros Hs. apply Hover. lia.
Qed.

Lemma drain_spec (fuel : nat) :
  forall s : Stack T, wellFormed s ->
  (length (contents s) < fuel)%nat ->
  drain h fuel s
  = Some (Returns (rev (contents s), {| arr := arr s; top := -1 |})).
Proof.
  induction fuel as [|fuel IH]; intros s Hwf Hf; [lia|].
  cbn [drain]. pose proof (contents_length s Hwf) as Hlen.
  destruct (pop_spec s Hwf) as [Hsome Hnone].
  destruct (contents_cases s) as [E | (xs & v & E)].
  - rewrite E in *. cbn [length] in Hlen. unfold isEmpty, size in *.
    replace (top s =? -1) with true by (symmetry; apply Z.eqb_eq; lia).
    cbn [rev]. destruct s as [a t]. cbn [top arr] in *.
    replace t with (-1) by lia. reflexivity.
  - rewrite E in *. rewrite length_app in Hlen, Hf. cbn [length] in Hlen, Hf.
    unfold isEmpty, size in *.
    replace (top s =? -1) with false by (symmetry; apply Z.eqb_neq; lia).
    destruct (Hsome xs v eq_refl) as (s' & Hp & Hwf' & Hc' & Ha).
    rewrite Hp, (IH s' Hwf') by (rewrite Hc'; lia).
    rewrite Hc', Ha, rev_unit. reflexivity.
Qed.

(** X20.  What the test programs print.  Values pushed one after the
    other onto a newly constructed stack all go in when there are at
    most 100 of them, and the loop [while (!isEmpty()) pop()] then
    ends, having printed them in reverse order and left the stack
    empty; with more than 100 values the pushing loop ends in
    [overflow_error]. *)
Theorem Stack_programs_print_in_reverse (storage : list T) (values : list T) :
  Z.of_nat (length storage) = MAX_SIZE ->
  (Z.of_nat (length values) <= MAX_SIZE ->
   exists s, pushAll h values (construct storage) = Returns s
             /\ forall fuel, (length values < fuel)%nat ->
                  exists s', drain h fuel s = Some (Returns (rev values, s'))
                             /\ isEmpty s' = true)
  /\ (Z.of_nat (length values) > MAX_SIZE ->
      pushAll h values (construct storage)
      = Throws (overflow_error (fullText h))).
Proof.
  intros Hl. destruct (construct_wellFormed storage Hl) as [Hwf Hc].
  destruct (pushAll_spec values _ Hwf) as [Hfit Hover].
  unfold size in Hfit, Hover. cbn [construct top] in Hfit, Hover. split.
  - intros Hn. destruct Hfit as (s & Hp & Hwf' & Hc'); [lia|].
    exists s. split; [exact Hp|]. intros fuel Hf.
    rewrite Hc in Hc'. cbn [app] in Hc'.
    exists {| arr := arr s; top := -1 |}. split; [|reflexivity].
    rewrite (drain_spec fuel s Hwf') by (rewrite Hc'; exact Hf).
    rewrite Hc'. reflexivity.
  - intros Hn. apply Hover. lia.
Qed.

End StackProperties.

Section StackExamples.
Import StackHpp.
Local Open Scope Z_scope.

Lemma Stack_never_leaves_its_array_witness :
  exists s, afterAll Stack_hpp [CallPop; CallPush 10; CallPush 20; CallPeek; CallPop]
              (construct (replicate 100%nat 0)) = Some s
            /\ -1 <= top s < MAX_SIZE
            /\ Z.of_nat (length (arr s)) = MAX_SIZE.
Proof.
  apply (Stack_never_leaves_its_array Stack_hpp (replicate 100%nat 0)
           [CallPop; CallPush 10; CallPush 20; CallPeek; CallPop]).
  reflexivity.
Defined.

Lemma Stack_is_a_bounded_lifo_witness :
  size fresh = Z.of_nat (length (contents fresh))
  /\ (isEmpty fresh = true <-> contents fresh = [])
  /\ (size fresh < MAX_SIZE ->
      exists s', push Stack_hpp 7 fresh = Returns s' /\ wellFormed s'
                 /\ contents s' = contents fresh ++ [7]
                 /\ exists s'', pop Stack_hpp s' = Returns (7, s'')
                                /\ contents s'' = contents fresh
                                /\ top s'' = top fresh)
  /\ (size fresh = MAX_SIZE ->
      push Stack_hpp 7 fresh = Throws (overflow_error (fullText Stack_hpp)))
  /\ (forall xs x, contents fresh = xs ++ [x] ->
        peek Stack_hpp fresh = Returns x
        /\ exists s', pop Stack_hpp fresh = Returns (x, s') /\ wellFormed s'
                      /\ contents s' = xs)
  /\ (contents fresh = [] ->
      pop Stack_hpp fresh = Throws (underflow_error (emptyText Stack_hpp))
      /\ peek Stack_hpp fresh = Throws (underflow_error (emptyText Stack_hpp))).
Proof.
  apply (Stack_is_a_bounded_lifo Stack_hpp fresh 7).
  split; [reflexivity|].
  unfold fresh, construct, MAX_SIZE. cbn [top]. lia.
Defined.

Lemma Stack_programs_print_in_reverse_witness :
  (Z.of_nat (length [10; 20; 30]) <= MAX_SIZE ->
   exists s, pushAll Stack_hpp [10; 20; 30] (construct (replicate 100%nat 0))
             = Returns s
             /\ forall fuel, (length [10; 20; 30] < fuel)%nat ->
                  exists s', drain Stack_hpp fuel s
                             = Some (Returns (rev [10; 20; 30], s'))
                             /\ isEmpty s' = true)
  /\ (Z.of_nat (length [10; 20; 30]) > MAX_SIZE ->
      pushAll Stack_hpp [10; 20; 30] (construct (replicate 100%nat 0))
      = Throws (overflow_error (fullText Stack_hpp))).
Proof.
  apply (Stack_programs_print_in_reverse Stack_hpp (replicate 100%nat 0)
           [10; 20; 30]).
  reflexivity.
Defined.

End StackExamples.

(* ================================================================== *)
(** * The execute functions of part_002 *)
(* ================================================================== *)

Section HostExecution.
Import Js Regex Eff Common Steps Outcome.
Context (o : Oracle).
#[local] Abbreviation executed := (Steps.executed o).
#[local] Abbreviation cleaned := (Steps.cleaned o).

Lemma cleaned2_absent (a b : string) (w : World) :
  (forall p, o_unlink o p = None) ->
  (a ∉ files (cleaned b (cleaned a w))) /\ (b ∉ files (cleaned b (cleaned a w))).
Proof.
  intros Hu. split.
  - apply cleaned_keeps_absent. apply cleaned_absent. apply Hu.
  - apply cleaned_absent. apply Hu.
Qed.

Lemma run_cleanup2_ret {A} (a b : string) (x : A) (w : World) :
  run o (cleanupTempFile a;; cleanupTempFile b;; Ret x) w
  = (Fulfilled x, cleaned b (cleaned a w)).
Proof. rewrite !run_cleanup_then. reflexivity. Qed.

Lemma buildAndRun_spec (sourceFile executableFile build code : string)
      (w : World) :
  exists r w',
    run o (Part002.buildAndRun sourceFile executableFile build code) w
    = (Fulfilled r, w')
    /\ (Part003.e_success r = true <->
        o_write o sourceFile = None
        /\ Part002.exitedCleanly (o_exec o build None)
        /\ Part002.exitedCleanly (o_exec o (quoted executableFile) None))
    /\ (forall out err fs,
          Part003.e_success r = true ->
          o_exec o (quoted executableFile) None = ExecOk out err fs ->
          r = Part002.succeeded out)
    /\ ((forall p, o_unlink o p = None) ->
        (sourceFile ∉ files w') /\ (executableFile ∉ files w')).
Proof.
  unfold Part002.buildAndRun, Part002.exitedCleanly.
  rewrite run_tryCatch, run_mbind, (run_writeFile o).
  destruct (o_write o sourceFile) as [e|] eqn:Hw.
  { rewrite run_cleanup2_ret. eexists _, _. split; [reflexivity|].
    cbn [Part002.failed Part003.e_success].
    split; [split; [discriminate | intros (H & _); discriminate]|].
    split; [discriminate | apply cleaned2_absent]. }
  rewrite run_mbind, (run_execAsync o).
  destruct (o_exec o build None) as [bo be bfs | e bo be bfs] eqn:Hb.
  2:{ rewrite run_cleanup2_ret. eexists _, _. split; [reflexivity|].
      cbn [Part002.failed Part003.e_success message].
      split; [split; [discriminate|];
              intros (_ & (x & y & z & H) & _); discriminate|].
      split; [discriminate | apply cleaned2_absent]. }
  rewrite run_mbind, (run_execAsync o).
  destruct (o_exec o (quoted executableFile) None)
    as [ro re rfs | e ro re rfs] eqn:Hr.
  2:{ rewrite run_cleanup2_ret. eexists _, _. split; [reflexivity|].
      cbn [Part002.failed Part003.e_success message].
      split; [split; [discriminate|];
              intros (_ & _ & (x & y & z & H)); discriminate|].
      split; [discriminate | apply cleaned2_absent]. }
  cbv beta iota. rewrite run_cleanup2_ret.
  eexists _, _. split; [reflexivity|].
  cbn [Part002.succeeded Part003.e_success].
  split; [split; [intros _; repeat split; eauto | reflexivity]|].
  split; [|apply cleaned2_absent].
  intros out err fs _ H. inversion H; subst. reflexivity.
Qed.

(** X21.  [executeCPP] and [executeC] of [part_002] never reject and
    report success exactly when the source was written and both the
    compiler and the program exited with status 0.  What the program
    writes to stderr is never looked at: the result of a successful
    run is its stdout (or the fixed text when that is empty) whatever
    stderr holds.  On every way out both the source and the executable
    are removed ([unlink] itself not failing). *)
Theorem Part002_compiled_runs_ignore_stderr (w : World) (code : string) :
  let now := o_clock o (reads w) in
  (exists r w',
     run o (Part002.executeCPP code) w = (Fulfilled r, w')
     /\ (Part003.e_success r = true <->
         o_write o (Part002.cppSource now) = None
         /\ Part002.exitedCleanly (o_exec o (Part002.gppBuild now) None)
         /\ Part002.exitedCleanly
              (o_exec o (quoted (Part002.cppExecutable now)) None))
     /\ (forall out err fs,
           Part003.e_success r = true ->
           o_exec o (quoted (Part002.cppExecutable now)) None = ExecOk out err fs ->
           r = Part002.succeeded out)
     /\ ((forall p, o_unlink o p = None) ->
         (Part002.cppSource now ∉ files w')
         /\ (Part002.cppExecutable now ∉ files w')))
  /\ (exists r w',
        run o (Part002.executeC code) w = (Fulfilled r, w')
        /\ (Part003.e_success r = true <->
            o_write o (Part002.cSource now) = None
            /\ Part002.exitedCleanly (o_exec o (Part002.gccBuild now) None)
            /\ Part002.exitedCleanly
                 (o_exec o (quoted (Part002.cExecutable now)) None))
        /\ (forall out err fs,
              Part003.e_success r = true ->
              o_exec o (quoted (Part002.cExecutable now)) None = ExecOk out err fs ->
              r = Part002.succeeded out)
        /\ ((forall p, o_unlink o p = None) ->
            (Part002.cSource now ∉ files w')
            /\ (Part002.cExecutable now ∉ files w'))).
Proof.
  cbv zeta. split.
  - unfold Part002.executeCPP. rewrite run_dateNow. cbv beta zeta.
    apply buildAndRun_spec.
  - unfold Part002.executeC. rewrite run_dateNow. cbv beta zeta.
    apply buildAndRun_spec.
Qed.

(** X22.  [executeJava] of [part_002] never rejects.  It reports
    success exactly when the file was written, [javac] and [java] both
    exited with status 0 and [java] wrote nothing to stderr: unlike the
    C and C++ runs of the same file, output on stderr alone makes the
    run a failure whose error is that output.  Both the [.java] and the
    [.class] file are removed on every way out. *)
Theorem Part002_executeJava_fails_on_stderr (w : World) (code : string) :
  let className := Part002.javaClassName code (o_clock o (reads w)) in
  let javaFile := pathJoin tempDir (className +:+ ".java") in
  let classFile := pathJoin tempDir (className +:+ ".class") in
  exists r w',
    run o (Part002.executeJava code) w = (Fulfilled r, w')
    /\ (Part003.e_success r = true <->
        o_write o javaFile = None
        /\ Part002.exitedCleanly (o_exec o (Part002.javacCommand javaFile) None)
        /\ exists out fs,
             o_exec o (Part002.javaCommand className) None
             = ExecOk out EmptyString fs)
    /\ (forall out err fs,
          o_write o javaFile = None ->
          Part002.exitedCleanly (o_exec o (Part002.javacCommand javaFile) None) ->
          o_exec o (Part002.javaCommand className) None = ExecOk out err fs ->
          r = if truthy err then Part002.failed err else Part002.succeeded out)
    /\ ((forall p, o_unlink o p = None) ->
        (javaFile ∉ files w') /\ (classFile ∉ files w')).
Proof.
  cbv zeta. unfold Part002.executeJava, Part002.javaClassName,
    Part002.exitedCleanly.
  rewrite run_mbind.
  assert (Hbody : forall className w0,
    exists r w',
      run o
        (tryCatch
           (let wrappedCode := Part002.wrappedJava code className in
            writeFile (pathJoin tempDir (className +:+ ".java")) wrappedCode;;
            execAsync (Part002.javacCommand
                         (pathJoin tempDir (className +:+ ".java")));;
            '(stdout, stderr) ← execAsync (Part002.javaCommand className);
            cleanupTempFile (pathJoin tempDir (className +:+ ".java"));;
            cleanupTempFile (pathJoin tempDir (className +:+ ".class"));;
            if truthy stderr then Ret (Part002.failed stderr)
            else Ret (Part002.succeeded stdout))
           (fun error =>
              cleanupTempFile (pathJoin tempDir (className +:+ ".java"));;
              cleanupTempFile (pathJoin tempDir (className +:+ ".class"));;
              Ret (Part002.failed (message error)))) w0
      = (Fulfilled r, w')
      /\ (Part003.e_success r = true <->
          o_write o (pathJoin tempDir (className +:+ ".java")) = None
          /\ (exists out err fs,
                o_exec o (Part002.javacCommand
                            (pathJoin tempDir (className +:+ ".java"))) None
                = ExecOk out err fs)
          /\ exists out fs,
               o_exec o (Part002.javaCommand className) None
               = ExecOk out EmptyString fs)
      /\ (forall out err fs,
            o_write o (pathJoin tempDir (className +:+ ".java")) = None ->
            (exists out err fs,
                o_exec o (Part002.javacCommand
                            (pathJoin tempDir (className +:+ ".java"))) None
                = ExecOk out err fs) ->
            o_exec o (Part002.javaCommand className) None = ExecOk out err fs ->
            r = if truthy err then Part002.failed err else Part002.succeeded out)
      /\ ((forall p, o_unlink o p = None) ->
          (pathJoin tempDir (className +:+ ".java") ∉ files w')
          /\ (pathJoin tempDir (className +:+ ".class") ∉ files w'))).
  { intros className w0. cbv zeta.
    rewrite run_tryCatch, run_mbind, (run_writeFile o).
    destruct (o_write o _) as [e|] eqn:Hw.
    { rewrite run_cleanup2_ret. eexists _, _. split; [reflexivity|].
      cbn [Part002.failed Part003.e_success].
      split; [split; [discriminate | intros (H & _); discriminate]|].
      split; [intros ? ? ? H; discriminate | apply cleaned2_absent]. }
    rewrite run_mbind, (run_execAsync o).
    destruct (o_exec o (Part002.javacCommand _) None)
      as [bo be bfs | e bo be bfs] eqn:Hb.
    2:{ rewrite run_cleanup2_ret. eexists _, _. split; [reflexivity|].
        cbn [Part002.failed Part003.e_success message].
        split; [split; [discriminate|];
                intros (_ & (x & y & z & H) & _); discriminate|].
        split; [intros ? ? ? _ (x & y & z & H); discriminate
               | apply cleaned2_absent]. }
    rewrite run_mbind, (run_execAsync o).
    destruct (o_exec o (Part002.javaCommand className) None)
      as [ro re rfs | e ro re rfs] eqn:Hr.
    2:{ rewrite run_cleanup2_ret. eexists _, _. split; [reflexivity|].
        cbn [Part002.failed Part003.e_success message].
        split; [split; [discriminate|];
                intros (_ & _ & (x & y & H)); discriminate|].
        split; [intros ? ? ? _ _ H; discriminate | apply cleaned2_absent]. }
    cbv beta iota. rewrite !run_cleanup_then.
    destruct re as [|ch re]; cbn [truthy run].
    - eexists _, _. split; [reflexivity|].
      cbn [Part002.succeeded Part003.e_success].
      split; [split; [intros _; repeat split; eauto | reflexivity]|].
      split; [|apply cleaned2_absent].
      intros out err fs _ _ H. inversion H; subst. reflexivity.
    - eexists _, _. split; [reflexivity|].
      cbn [Part002.failed Part003.e_success].
      split; [split; [discriminate|];
              intros (_ & _ & (x & y & H)); discriminate|].
      split; [|apply cleaned2_absent].
      intros out err fs _ _ H. inversion H; subst. reflexivity. }
  destruct (search publicClass code) as [m|].
  - cbn [run]. apply Hbody.
  - rewrite run_dateNow. cbn [run]. apply Hbody.
Qed.

End HostExecution.

(* ================================================================== *)
(** * The file part_002 writes for Java *)
(* ================================================================== *)

Section JavaFileName.
Import Js Regex Eff Common.

Lemma append_assoc (a b c0 : string) : (a +:+ b) +:+ c0 = a +:+ (b +:+ c0).
Proof.
  induction a as [|ch a IH]; [reflexivity|].
  change (String ch ((a +:+ b) +:+ c0) = String ch (a +:+ (b +:+ c0))).
  f_equal. exact IH.
Qed.



Lemma digit_is_word (ch : ascii) : isDigit ch = true -> isWord ch = true.
Proof.
  destruct ch as [[] [] [] [] [] [] [] []]; vm_compute; congruence.
Qed.

Lemma uint_digits (d : Decimal.uint) :
  Forall (fun ch => isWord ch = true)
         (list_ascii_of_string (NilEmpty.string_of_uint d)).
Proof. induction d; simpl; constructor; auto. Qed.


Lemma searchFrom_skip (r : re) (pre : string) (c0 : ascii) (s : string) :
  matchAt r (String c0 s) [] (fun s' caps => Some (s', caps)) = None ->
  searchFrom r pre (String c0 s)
  = searchFrom r (pre +:+ String c0 EmptyString) s.
Proof. intros H. cbn [searchFrom]. rewrite H. reflexivity. Qed.



End JavaFileName.

(* ================================================================== *)
(** * What the line adjustment changes *)
(* ================================================================== *)

Section Adjustment.
Import Js Regex Eff Common.

Lemma adjustLine_bounds (k l : N) :
  ServerJs.adjustLine k l <= l /\ (1 <= l -> 1 <= ServerJs.adjustLine k l).
Proof.
  unfold ServerJs.adjustLine. destruct (l =? 0) eqn:E.
  - apply N.eqb_eq in E. lia.
  - apply N.eqb_neq in E. lia.
Qed.

Lemma adjustLine_monotone (k a b : N) :
  a <= b -> ServerJs.adjustLine k a <= ServerJs.adjustLine k b.
Proof.
  intros H. unfold ServerJs.adjustLine.
  destruct (a =? 0) eqn:Ea; destruct (b =? 0) eqn:Eb.
  - lia.
  - apply N.eqb_eq in Ea. apply N.eqb_neq in Eb. lia.
  - apply N.eqb_eq in Eb. apply N.eqb_neq in Ea. lia.
  - apply N.eqb_neq in Ea. apply N.eqb_neq in Eb. lia.
Qed.

(** X24.  [adjustErrorLineNumbers], called with one of the five
    canonical language codes (the handler passes nothing else), changes
    line numbers and nothing else: [valid], [message], [error],
    [column], [details], [standard] and [help] stay; [errors] keeps its
    length and order and every entry its column, type, message and
    suggestion.  With [hasWrapper] a line number other than 0 loses the
    table's number for the language (24 for cpp, 13 for java, 5 for
    python and c, nothing for javascript) but never falls below 1;
    without it nothing changes.  So a line number never grows, a
    positive one stays positive, and the order of two line numbers is
    never reversed (lines inside the wrapper all become 1). *)
Theorem adjustErrorLineNumbers_changes_line_numbers_only
        (r : SyntaxResult) (lang : Lang) (hasWrapper : bool) :
  let r' := ServerJs.adjustErrorLineNumbers r (langName lang) hasWrapper in
  let k := match lang with
           | cpp => 24 | java => 13 | python => 5 | c => 5 | javascript => 0
           end in
  let f := fun l : N =>
             if hasWrapper then (if l =? 0 then l else N.max 1 (l - k)) else l in
  (valid r' = valid r /\ r_message r' = r_message r /\ r_error r' = r_error r
   /\ r_column r' = r_column r /\ r_details r' = r_details r
   /\ r_standard r' = r_standard r /\ r_help r' = r_help r)
  /\ (forall l, f l <= l /\ (1 <= l -> 1 <= f l))
  /\ (forall a b, a <= b -> f a <= f b)
  /\ r_line r' = option_map f (r_line r)
  /\ match r_errors r, r_errors r' with
     | Some ds, Some ds' =>
         length ds' = length ds
         /\ forall i d, ds !! i = Some d ->
              exists d', ds' !! i = Some d'
                         /\ line d' = f (line d)
                         /\ column d' = column d /\ type d' = type d
                         /\ dmessage d' = dmessage d
                         /\ suggestion d' = suggestion d
     | None, None => True
     | _, _ => False
     end.
Proof.
  cbv zeta. unfold ServerJs.adjustErrorLineNumbers.
  destruct hasWrapper; cbn [negb].
  - cbv zeta. cbn [valid r_message r_error r_column r_details r_standard
                   r_help r_line r_errors].
    assert (Hk : ServerJs.wrapperLines (langName lang)
                 = match lang with
                   | cpp => 24 | java => 13 | python => 5 | c => 5
                   | javascript => 0
                   end) by (destruct lang; reflexivity).
    rewrite Hk. clear Hk.
    set (k := match lang with
              | cpp => 24 | java => 13 | python => 5 | c => 5 | javascript => 0
              end).
    change (fun l : N => if l =? 0 then l else N.max 1 (l - k))
      with (ServerJs.adjustLine k).
    split; [repeat split|].
    split; [apply adjustLine_bounds|]. split; [apply adjustLine_monotone|].
    split; [reflexivity|].
    destruct (r_errors r) as [ds|]; cbn [option_map]; [|exact I].
    split; [apply length_map|].
    intros i d Hd. exists (ServerJs.adjustDiag k d).
    split; [|repeat split].
    change (map (ServerJs.adjustDiag k) ds) with (ServerJs.adjustDiag k <$> ds).
    rewrite list_lookup_fmap, Hd. reflexivity.
  - split; [repeat split|].
    split; [intros l; lia|]. split; [auto|].
    split; [destruct (r_line r); reflexivity|].
    destruct (r_errors r) as [ds|]; [|exact I].
    split; [reflexivity|]. intros i d Hd. exists d. repeat split; auto.
Qed.

End Adjustment.

(* ================================================================== *)
(** * What part_003 writes and starts when it runs C and C++ *)
(* ================================================================== *)

Section RunArtifacts.
Import Js Regex Eff Common Steps Outcome Artifacts.
Context (o : Oracle).
#[local] Abbreviation executed := (Steps.executed o).
#[local] Abbreviation cleaned := (Steps.cleaned o).

Lemma trace_after_write {A} (path content : string) (k : Prog A) (w : World) :
  exists evs,
    trace (snd (run o (writeFile path content;; k) w))
    = trace w ++ EvWrite path content :: evs.
Proof.
  rewrite run_mbind, (run_writeFile o).
  destruct (o_write o path) as [e|].
  - exists []. reflexivity.
  - destruct (run_trace o k (written path content w)) as [evs H].
    exists evs. rewrite H. cbn [written emit trace setFiles].
    rewrite <- app_assoc. reflexivity.
Qed.

Lemma cleaned_trace (path : string) (w : World) :
  exists evs,
    trace (cleaned path w) = trace w ++ evs
    /\ Forall (fun ev => isExec ev = false) evs.
Proof.
  unfold Steps.cleaned, cleanupTempFile.
  rewrite run_tryCatch, run_mbind. simpl.
  destruct (bool_decide (path ∈ files w)) eqn:Hin; simpl.
  - rewrite Hin. destruct (o_unlink o path) as [e|]; simpl.
    + destruct (bool_decide (errcode e = Some "ENOENT")); simpl;
        eexists; (split; [try rewrite <- app_assoc; reflexivity|]);
        repeat constructor.
    + eexists. split; [reflexivity|]. repeat constructor.
  - exists []. rewrite app_nil_r. split; [reflexivity | constructor].
Qed.

Lemma stripped_main (rest : string) :
  includes "main()" ("int main() {" +:+ rest) = true
  /\ replaceFirst intMain (fun _ => EmptyString) ("int main() {" +:+ rest) = rest.
Proof. split; reflexivity. Qed.

(** X25.  [executeC] of [part_003] on code that begins with
    [int main() {] writes a program in whose [main] the rest of the
    code stands without its last code unit, whatever that code unit is:
    the function's own [main] header is cut off by the pattern and one
    code unit, meant to be the closing brace, by [slice(0, -1)].  Code
    without "main()" is put into [main] whole. *)
Theorem Part003_executeC_inlines_the_body_of_main (w : World) (rest code : string) :
  (exists evs,
     trace (snd (run o (Part003.executeC ("int main() {" +:+ rest)) w))
     = trace w ++ EvWrite (cRunFile (o_clock o (reads w)))
                          (Part003.cProgram (dropLast rest)) :: evs)
  /\ (includes "main()" code = false ->
      exists evs,
        trace (snd (run o (Part003.executeC code) w))
        = trace w ++ EvWrite (cRunFile (o_clock o (reads w)))
                             (Part003.cProgram code) :: evs).
Proof.
  assert (Hgen : forall code0 body,
    (if includes "main()" code0
     then dropLast (replaceFirst intMain (fun _ => EmptyString) code0)
     else code0) = body ->
    exists evs,
      trace (snd (run o (Part003.executeC code0) w))
      = trace w ++ EvWrite (cRunFile (o_clock o (reads w)))
                           (Part003.cProgram body) :: evs).
  { intros code0 body Hbody. unfold Part003.executeC.
    rewrite run_dateNow. cbv beta zeta. rewrite run_dateNow. cbv beta zeta.
    fold (cRunFile (o_clock o (reads w))). rewrite Hbody.
    rewrite (run_caught_finally o), (run_cleanup2 o). cbn [snd].
    match goal with
    | |- context [cleaned ?b (cleaned ?a ?w0)] =>
        destruct (cleaned_trace b (cleaned a w0)) as (evs2 & H2 & _);
        destruct (cleaned_trace a w0) as (evs1 & H1 & _)
    end.
    rewrite H2, H1. clear H2 H1.
    match goal with
    | |- context [run o (writeFile ?p ?c0;; ?k) ?w0] =>
        destruct (trace_after_write p c0 k w0) as (evs0 & H0)
    end.
    rewrite H0. cbn [tick trace].
    exists (evs0 ++ evs1 ++ evs2).
    rewrite <- !app_assoc. reflexivity. }
  split.
  - apply Hgen. destruct (stripped_main rest) as [Hi Hr].
    rewrite Hi, Hr. reflexivity.
  - intros Hc. apply Hgen. rewrite Hc. reflexivity.
Qed.

End RunArtifacts.

Section ImageRemoval.
Import Js Regex Eff Common Steps Outcome Artifacts.
Context (o : Oracle).
#[local] Abbreviation executed := (Steps.executed o).
#[local] Abbreviation cleaned := (Steps.cleaned o).

Lemma cleaned3_trace (a b c0 : string) (w : World) :
  exists evs,
    trace (cleaned c0 (cleaned b (cleaned a w))) = trace w ++ evs
    /\ Forall (fun ev => isExec ev = false) evs.
Proof.
  destruct (cleaned_trace o c0 (cleaned b (cleaned a w))) as (e3 & H3 & F3).
  destruct (cleaned_trace o b (cleaned a w)) as (e2 & H2 & F2).
  destruct (cleaned_trace o a w) as (e1 & H1 & F1).
  exists (e1 ++ e2 ++ e3). rewrite H3, H2, H1, <- !app_assoc.
  split; [reflexivity|]. repeat (apply Forall_app; split); assumption.
Qed.

(** X26.  [executeCPP] of [part_003] tries to remove the image exactly
    when it tried to build one.  When the source and the Dockerfile
    were written, then whatever the build and the run do (succeed,
    fail, compile errors, timeout), [docker rmi cpp_program_<clock>] is
    started, it is the last command started, and its own failure
    changes nothing.  When one of the two writes fails no command is
    started at all. *)
Theorem Part003_executeCPP_removes_the_image_it_built (w : World) (code : string) :
  let now := o_clock o (reads w) in
  let after := trace (snd (run o (Part003.executeCPP code) w)) in
  (o_write o (cppRunFile now) = None ->
   o_write o (cppDockerfile now) = None ->
   exists evs1 evs2,
     after = trace w ++ evs1
             ++ EvExec ("docker rmi cpp_program_" +:+ ofN now) :: evs2
     /\ Forall (fun ev => isExec ev = false) evs2)
  /\ (o_write o (cppRunFile now) <> None \/ o_write o (cppDockerfile now) <> None ->
      exists evs,
        after = trace w ++ evs /\ Forall (fun ev => isExec ev = false) evs).
Proof.
  cbv zeta. unfold Part003.executeCPP. rewrite run_dateNow. cbv beta zeta.
  fold (cppRunFile (o_clock o (reads w))).
  fold (cppRunBinary (o_clock o (reads w))).
  fold (cppDockerfile (o_clock o (reads w))).
  rewrite (run_caught_finally o), (run_cleanup3 o). cbn [snd].
  match goal with
  | |- context [cleaned ?c0 (cleaned ?b (cleaned ?a ?w0))] =>
      destruct (cleaned3_trace a b c0 w0) as (evs3 & H3 & F3)
  end.
  rewrite H3. clear H3. split.
  - intros Hw1 Hw2.
    rewrite (run_writeFile_ok o _ _ _ _ Hw1), (run_writeFile_ok o _ _ _ _ Hw2).
    rewrite (run_caught_finally o), (run_rmi o). cbn [snd].
    match goal with
    | |- context [run o ?body (written ?p2 ?c2 (written ?p1 ?c1 (tick w)))] =>
        destruct (run_trace o body (written p2 c2 (written p1 c1 (tick w))))
          as (evsB & HB)
    end.
    unfold Steps.executed at 1. cbn [emit trace setFiles]. rewrite HB.
    cbn [written emit trace setFiles tick].
    eexists (_ :: _ :: evsB), evs3.
    split; [|exact F3].
    rewrite <- !app_assoc. cbn [app]. reflexivity.
  - intros Hfail. rewrite run_mbind, (run_writeFile o).
    destruct (o_write o (cppRunFile (o_clock o (reads w)))) as [e1|] eqn:Hw1.
    + cbn [snd emit trace tick]. eexists (_ :: evs3).
      split; [rewrite <- app_assoc; reflexivity|].
      constructor; [reflexivity | exact F3].
    + rewrite run_mbind, (run_writeFile o).
      destruct (o_write o (cppDockerfile (o_clock o (reads w)))) as [e2|] eqn:Hw2.
      * cbn [snd emit trace written setFiles tick]. eexists (_ :: _ :: evs3).
        split; [rewrite <- !app_assoc; reflexivity|].
        constructor; [reflexivity|]. constructor; [reflexivity | exact F3].
      * destruct Hfail as [H|H]; contradiction.
Qed.

End ImageRemoval.

(* ================================================================== *)
(** * The class file of part_003's Java checker *)
(* ================================================================== *)

Section ClassFile.
Import Js Regex Eff Common Steps Outcome Artifacts.

Lemma word_is_not_dot (ch : ascii) :
  isWord ch = true -> Ascii.eqb "." ch = false.
Proof.
  destruct ch as [[] [] [] [] [] [] [] []]; vm_compute; congruence.
Qed.

(** The first [.java] in a word followed by [.java] is the one at the
    end. *)
Lemma search_java_suffix (w pre : string) :
  Forall (fun ch => isWord ch = true) (list_ascii_of_string w) ->
  searchFrom (Lit ".java") pre (w +:+ ".java")
  = Some {| before := pre +:+ w; whole := ".java"; groups := [];
            after := EmptyString |}.
Proof.
  revert pre. induction w as [|ch w IH]; intros pre Hw.
  - change (EmptyString +:+ ".java") with ".java".
    replace (pre +:+ EmptyString) with pre; [reflexivity|].
    clear. induction pre as [|c0 pre IH]; [reflexivity|].
    change (String c0 pre = String c0 (pre +:+ EmptyString)). f_equal. exact IH.
  - cbn [list_ascii_of_string] in Hw. inversion Hw as [|? ? Hch Hrest]; subst.
    change (String ch w +:+ ".java") with (String ch (w +:+ ".java")).
    rewrite searchFrom_skip.
    + rewrite (IH _ Hrest). rewrite append_assoc. reflexivity.
    + cbn [matchAt startsWith]. rewrite (word_is_not_dot ch Hch). reflexivity.
Qed.

Lemma class_file_beside (name : string) :
  Forall (fun ch => isWord ch = true) (list_ascii_of_string name) ->
  replaceFirst (Lit ".java") (fun _ => ".class")
               (pathJoin tempDir (name +:+ ".java"))
  = pathJoin tempDir (name +:+ ".class").
Proof.
  intros Hw. unfold replaceFirst, search, pathJoin, tempDir.
  set (tail := name +:+ ".java"). cbv [String.append].
  rewrite !searchFrom_skip by reflexivity.
  subst tail. rewrite (search_java_suffix name _ Hw).
  cbn [before after]. rewrite append_assoc. reflexivity.
Qed.

Context (o : Oracle).

(** The name [checkJavaSyntax] gives the class it compiles. *)
Lemma checked_name_is_a_word (code : string) (now : N) :
  Forall (fun ch => isWord ch = true)
    (list_ascii_of_string
       (match search publicClass code with
        | Some m => group 1 m
        | None => "Check_" +:+ ofN now
        end)).
Proof.
  destruct (search publicClass code) as [m|] eqn:Hm.
  - destruct (publicClass_captures_a_word code m Hm) as (ch & rest & -> & Hch & Hr).
    cbn [list_ascii_of_string]. constructor; assumption.
  - unfold ofN.
    change ("Check_" +:+ NilEmpty.string_of_uint (N.to_uint now))
      with (String "C" (String "h" (String "e" (String "c" (String "k"
             (String "_" (NilEmpty.string_of_uint (N.to_uint now)))))))).
    cbn [list_ascii_of_string].
    repeat (constructor; [reflexivity|]). apply uint_digits.
Qed.

(** X27.  When [javac] accepts the code, [checkJavaSyntax] of
    [part_003] answers valid and leaves neither the [.java] file nor
    the [.class] file of the same name in the temp directory: the path
    it gets by replacing [.java] in the path of the source is the
    [.class] file beside it, because the class name has no dot in it
    and the directory has no [.java]. *)
Theorem Part003_checkJavaSyntax_removes_the_class_file
        (w : World) (code out err : string) (fs : list string) :
  let className := match search publicClass code with
                   | Some m => group 1 m
                   | None => "Check_" +:+ ofN (o_clock o (reads w))
                   end in
  let javaFile := pathJoin tempDir (className +:+ ".java") in
  let classFile := pathJoin tempDir (className +:+ ".class") in
  (forall p, o_unlink o p = None) ->
  o_write o javaFile = None ->
  o_exec o (Part003.dockerRun "openjdk:11"
              ("javac /code/" +:+ Part003.basenameOf javaFile)) None
  = ExecOk out err fs ->
  exists w',
    run o (Part003.checkJavaSyntax code) w = (Fulfilled validResult, w')
    /\ (javaFile ∉ files w') /\ (classFile ∉ files w').
Proof.
  cbv zeta. intros Hu Hw Hx.
  pose proof (checked_name_is_a_word code (o_clock o (reads w))) as Hword.
  unfold Part003.checkJavaSyntax. rewrite run_tryCatch, run_mbind.
  destruct (search publicClass code) as [m|].
  - cbn [run]. cbv beta zeta.
    rewrite (run_writeFile_ok o _ _ _ _ Hw).
    rewrite (run_execAsync_ok o _ _ _ _ _ _ Hx).
    rewrite (class_file_beside _ Hword).
    rewrite !run_cleanup_then. cbn [run].
    eexists. split; [reflexivity|]. split.
    + apply cleaned_keeps_absent. apply cleaned_absent. apply Hu.
    + apply cleaned_absent. apply Hu.
  - rewrite run_dateNow. cbn [run]. cbv beta zeta.
    rewrite (run_writeFile_ok o _ _ _ _ Hw).
    rewrite (run_execAsync_ok o _ _ _ _ _ _ Hx).
    rewrite (class_file_beside _ Hword).
    rewrite !run_cleanup_then. cbn [run].
    eexists. split; [reflexivity|]. split.
    + apply cleaned_keeps_absent. apply cleaned_absent. apply Hu.
    + apply cleaned_absent. apply Hu.
Qed.

End ClassFile.

Section ClassFileExamples.
Import Js Regex Eff Common Steps Outcome Artifacts.

Lemma Part003_checkJavaSyntax_removes_the_class_file_witness :
  exists w',
    run Scenario.quiet (Part003.checkJavaSyntax "public class Main { }") world0
    = (Fulfilled validResult, w')
    /\ (pathJoin tempDir ("Main" +:+ ".java") ∉ files w')
    /\ (pathJoin tempDir ("Main" +:+ ".class") ∉ files w').
Proof.
  apply (Part003_checkJavaSyntax_removes_the_class_file
           Scenario.quiet world0 "public class Main { }"
           EmptyString EmptyString []).
  - intros p. reflexivity.
  - reflexivity.
  - reflexivity.
Defined.

End ClassFileExamples.

(* ================================================================== *)
(** * The order in which the standards are tried *)
(* ================================================================== *)

Section DialectOrder.
Import Js Regex Eff Common Stated Steps.
Context (o : Oracle).
#[local] Abbreviation executed := (Steps.executed o).

(** The compiler runs of a search that ends in a success: one for each
    standard up to the accepting one, in the order of the list. *)
Lemma searchStandards_success_trace (command : string -> string)
      (pre post : list (string * string)) (std name : string) :
  (forall s n, (s, n) ∈ pre ->
     exists e out err fs,
       o_exec o (command s) None = ExecFail e out err fs
       /\ includes "standard" err = true) ->
  (exists out err fs, o_exec o (command std) None = ExecOk out err fs) ->
  forall le w, exists le' w',
    run o (ServerJs.searchStandards command (pre ++ (std, name) :: post) le) w
    = (Fulfilled {| ServerJs.success := true; ServerJs.lastError := le';
                    ServerJs.usedStandard := Some name |}, w')
    /\ trace w' = trace w
                  ++ map (fun p => EvExec (command (fst p))) (pre ++ [(std, name)]).
Proof.
  intros Hpre (out & err & fs & Hok).
  induction pre as [|[s n] pre IH]; intros le w.
  - cbn [app]. rewrite run_search_step, Hok.
    eexists _, _. split; reflexivity.
  - assert (Hhd : (s, n) ∈ (s, n) :: pre) by left.
    destruct (Hpre s n Hhd) as (e & out' & err' & fs' & Hfail & Hstd).
    cbn [app]. rewrite run_search_step, Hfail. cbv zeta. rewrite Hstd.
    cbn [negb].
    edestruct IH as (le' & w' & Hrun & Htr).
    { intros s' n' Hin. apply (Hpre s' n'). right. exact Hin. }
    rewrite Hrun. eexists _, _. split; [reflexivity|].
    rewrite Htr. cbn [Steps.executed emit trace map fst].
    rewrite <- app_assoc. reflexivity.
Qed.

Lemma append_inj_r (a b c0 : string) : a +:+ c0 = b +:+ c0 -> a = b.
Proof.
  revert b. induction a as [|x a IH]; intros b H.
  - destruct b as [|y b]; [reflexivity|]. exfalso.
    assert (Hl : String.length (EmptyString +:+ c0)
                 = String.length (String y b +:+ c0)) by (rewrite H; reflexivity).
    rewrite !string_length_app in Hl. cbn [String.length] in Hl. lia.
  - destruct b as [|y b].
    + exfalso.
      assert (Hl : String.length (String x a +:+ c0)
                   = String.length (EmptyString +:+ c0)) by (rewrite H; reflexivity).
      rewrite !string_length_app in Hl. cbn [String.length] in Hl. lia.
    + change (String x (a +:+ c0) = String y (b +:+ c0)) in H.
      inversion H; subst. f_equal. apply IH. assumption.
Qed.

(** Two standards of the list are given different command lines. *)
Lemma gppCommand_inj (tempFile s s' : string) :
  ServerJs.gppCommand tempFile s = ServerJs.gppCommand tempFile s' -> s = s'.
Proof.
  unfold ServerJs.gppCommand. intros H.
  apply append_inj_l in H. rewrite <- !append_assoc in H.
  apply append_inj_r in H. apply append_inj_r in H. exact H.
Qed.

Lemma standards_flags_differ : NoDup (map fst ServerJs.standards).
Proof. apply (bool_decide_unpack _). vm_compute. exact I. Qed.

(** C2, amended.  [checkCPPSyntax] tries the standards of its list in
    the order of the list, newest first.  When every standard newer
    than [std] fails with output that mentions "standard" and [std]
    compiles, the result is valid and reports [std], the newest
    standard that accepts the code.  After the write of the temp file
    the compiler is started once for each standard down to [std], in
    that order, and for nothing else: no standard older than [std] is
    tried. *)
Theorem C2_newest_accepting_standard_is_reported
        (w : World) (code : string)
        (pre post : list (string * string)) (std name : string) :
  ServerJs.standards = pre ++ (std, name) :: post ->
  len code <= 1000000 ->
  o_write o (cppTempFile o w) = None ->
  (forall s n, (s, n) ∈ pre ->
     exists e out err fs,
       o_exec o (ServerJs.gppCommand (cppTempFile o w) s) None = ExecFail e out err fs
       /\ includes "standard" err = true) ->
  (exists out err fs,
      o_exec o (ServerJs.gppCommand (cppTempFile o w) std) None = ExecOk out err fs) ->
  exists r w' evs,
    run o (ServerJs.checkCPPSyntax code) w = (Fulfilled r, w')
    /\ valid r = true
    /\ r_standard r = Some name
    /\ trace w'
       = trace w
         ++ EvWrite (cppTempFile o w) code
            :: map (fun p => EvExec (ServerJs.gppCommand (cppTempFile o w) (fst p)))
                   (pre ++ [(std, name)])
         ++ evs
    /\ Forall (fun ev => isExec ev = false) evs
    /\ (forall s n, (s, n) ∈ post ->
          EvExec (ServerJs.gppCommand (cppTempFile o w) s)
          ∉ drop (length (trace w)) (trace w')).
Proof.
  intros Hstds Hsize Hw Hpre Hok.
  assert (Hs : (1000000 <? len code) = false) by (apply N.ltb_ge; exact Hsize).
  unfold ServerJs.checkCPPSyntax. rewrite run_dateNow. cbv beta zeta.
  fold (cppTempFile o w).
  rewrite run_tryCatch, Hs, (run_writeFile_ok o _ _ _ _ Hw).
  unfold ServerJs.checkWithStandards. rewrite run_tryCatch, run_mbind, Hstds.
  edestruct (searchStandards_success_trace (ServerJs.gppCommand (cppTempFile o w))
               pre post std name Hpre Hok) as (le' & w1 & Hrun & Htr).
  rewrite Hrun. cbv beta iota. cbn [ServerJs.success ServerJs.usedStandard].
  rewrite run_cleanup_then. cbn [run].
  destruct (cleaned_trace o (cppTempFile o w) w1) as (evs & Hc & Hne).
  eexists _, _, evs. split; [reflexivity|].
  split; [reflexivity|]. split; [reflexivity|].
  assert (Hfull :
    trace (Steps.cleaned o (cppTempFile o w) w1)
    = trace w
      ++ EvWrite (cppTempFile o w) code
         :: map (fun p => EvExec (ServerJs.gppCommand (cppTempFile o w) (fst p)))
                (pre ++ [(std, name)])
      ++ evs).
  { rewrite Hc, Htr. cbn [written emit trace setFiles tick].
    rewrite <- !app_assoc. reflexivity. }
  split; [exact Hfull|]. split; [exact Hne|].
  intros s n Hin Hev. rewrite Hfull, drop_app_length in Hev.
  apply elem_of_cons in Hev. destruct Hev as [Hev | Hev]; [discriminate|].
  apply elem_of_app in Hev. destruct Hev as [Hev | Hev].
  - apply list_elem_of_fmap in Hev. destruct Hev as ([s' n'] & Heq & Hin').
    cbv beta in Heq. cbn [fst] in Heq.
    assert (Hcmd : ServerJs.gppCommand (cppTempFile o w) s
                   = ServerJs.gppCommand (cppTempFile o w) s') by congruence.
    apply gppCommand_inj in Hcmd. subst s'.
    pose proof standards_flags_differ as Hnd.
    rewrite Hstds in Hnd.
    replace (pre ++ (std, name) :: post) with ((pre ++ [(std, name)]) ++ post) in Hnd
      by (rewrite <- app_assoc; reflexivity).
    rewrite map_app in Hnd. apply NoDup_app in Hnd.
    destruct Hnd as (_ & Hdisj & _).
    apply (Hdisj s).
    + apply list_elem_of_fmap. exists (s, n'). split; [reflexivity | exact Hin'].
    + apply list_elem_of_fmap. exists (s, n). split; [reflexivity | exact Hin].
  - rewrite Forall_forall in Hne. specialize (Hne _ Hev). discriminate.
Qed.

End DialectOrder.

Section DialectOrderExamples.
Import Js Regex Eff Common Stated Steps.

Lemma C2_witness :
  exists r w' evs,
    run Scenario.rejectedByCpp20 (ServerJs.checkCPPSyntax "auto_ptr<int> p;") world0
    = (Fulfilled r, w')
    /\ valid r = true
    /\ r_standard r = Some "C++17"
    /\ trace w'
       = trace world0
         ++ EvWrite (cppTempFile Scenario.rejectedByCpp20 world0) "auto_ptr<int> p;"
            :: map (fun p => EvExec (ServerJs.gppCommand
                                       (cppTempFile Scenario.rejectedByCpp20 world0)
                                       (fst p)))
                   ([("c++20", "C++20")] ++ [("c++17", "C++17")])
         ++ evs
    /\ Forall (fun ev => isExec ev = false) evs
    /\ (forall s n,
          (s, n) ∈ [("c++14", "C++14"); ("c++11", "C++11"); ("c++98", "C++98")] ->
          EvExec (ServerJs.gppCommand (cppTempFile Scenario.rejectedByCpp20 world0) s)
          ∉ drop (length (trace world0)) (trace w')).
Proof.
  apply (C2_newest_accepting_standard_is_reported Scenario.rejectedByCpp20
           world0 "auto_ptr<int> p;" [("c++20", "C++20")]
           [("c++14", "C++14"); ("c++11", "C++11"); ("c++98", "C++98")]
           "c++17" "C++17").
  - reflexivity.
  - vm_compute. congruence.
  - reflexivity.
  - intros s n Hin. apply list_elem_of_singleton in Hin. inversion Hin; subst.
    eexists _, _, _, _. split; vm_compute; reflexivity.
  - eexists _, _, _. vm_compute. reflexivity.
Defined.

End DialectOrderExamples.

(* ================================================================== *)
(** * Preparing the same code twice *)
(* ================================================================== *)

Section Determinism.
Import Js Regex Eff Common Stated Shape Prepared.

(** C3, as stated, fails: the same Java fragment prepared at two
    different clock readings gives two different texts. *)
Lemma C3_counterexample :
  ~ deterministic ServerJs.wrapCodeSnippet "int x = 1;" java.
Proof.
  intros H.
  specialize (H (Scenario.withClock (fun _ => 1)) (Scenario.withClock (fun _ => 2))
                world0 world0).
  vm_compute in H. discriminate.
Qed.

(** What wrapping gives, path by path. *)
Lemma ServerJs_wrap_paths (code : string) (lang : Lang) :
  (synthesizesClass code lang = false
   /\ exists s, forall o w,
        fst (run o (ServerJs.wrapCodeSnippet code (langName lang)) w) = Fulfilled s)
  \/ (synthesizesClass code lang = true
      /\ forall o w,
           fst (run o (ServerJs.wrapCodeSnippet code (langName lang)) w)
           = Fulfilled (ServerJs.javaClassWrapper
                          (ServerJs.solutionName (o_clock o (reads w)))
                          (ServerJs.unindent code))).
Proof.
  destruct lang; cbn [synthesizesClass langName].
  1,2,4,5: left; split; [reflexivity|]; eexists; intros; reflexivity.
  unfold ServerJs.wrapCodeSnippet, ServerJs.wrapJava. cbv zeta.
  cbn [toLowerCase]. simpl String.eqb. cbv iota.
  destruct (includes "class" code); cbn [negb].
  - left. split; [reflexivity|]. eexists. intros. reflexivity.
  - right. split; [reflexivity|]. intros. reflexivity.
Qed.

Lemma Part003_wrap_paths (code : string) (lang : Lang) :
  (synthesizesClass code lang = false
   /\ exists s, forall o w,
        fst (run o (Part003.wrapCodeSnippet code (langName lang)) w) = Fulfilled s)
  \/ (synthesizesClass code lang = true
      /\ forall o w,
           fst (run o (Part003.wrapCodeSnippet code (langName lang)) w)
           = Fulfilled (ServerJs.javaClassWrapper
                          (ServerJs.solutionName (o_clock o (reads w)))
                          (ServerJs.unindent code))).
Proof.
  destruct lang; cbn [synthesizesClass langName].
  1,2,4,5: left; split; [reflexivity|]; eexists; intros; reflexivity.
  unfold Part003.wrapCodeSnippet, ServerJs.wrapJava. cbv zeta.
  cbn [toLowerCase]. simpl String.eqb. cbv iota.
  destruct (includes "class" code); cbn [negb].
  - left. split; [reflexivity|]. eexists. intros. reflexivity.
  - right. split; [reflexivity|]. intros. reflexivity.
Qed.

(** The synthesized class determines the clock reading it was made
    at. *)
Lemma javaClassWrapper_inj (t1 t2 : N) (u : string) :
  ServerJs.javaClassWrapper (ServerJs.solutionName t1) u
  = ServerJs.javaClassWrapper (ServerJs.solutionName t2) u ->
  t1 = t2.
Proof.
  intros H.
  assert (Hl : split_nl (ServerJs.javaClassWrapper (ServerJs.solutionName t1) u)
                 !! 12%nat
               = split_nl (ServerJs.javaClassWrapper (ServerJs.solutionName t2) u)
                   !! 12%nat) by (rewrite H; reflexivity).
  rewrite !javaClassWrapper_lines in Hl by apply oneLine_solutionName.
  cbn in Hl. inversion Hl as [Hname].
  apply append_inj_r in Hname. apply ofN_inj. exact Hname.
Qed.

Lemma run_prepare (o : Oracle) (w : World)
      (wrap : string -> string -> Prog string) (code : string) (lang : Lang)
      (s : string) :
  fst (run o (wrap code (langName lang)) w) = Fulfilled s ->
  fst (run o (prepare wrap code lang) w)
  = Fulfilled (s, wrapperLineOffset code lang).
Proof.
  intros H. unfold prepare. cbv zeta. rewrite run_mbind.
  destruct (run o (wrap code (langName lang)) w) as [[s0|e] w0];
    cbn [fst] in H; inversion H; subst. reflexivity.
Qed.

Lemma alike_of_paths (wrap : string -> string -> Prog string)
      (code : string) (lang : Lang) :
  ((synthesizesClass code lang = false
    /\ exists s, forall o w,
         fst (run o (wrap code (langName lang)) w) = Fulfilled s)
   \/ (synthesizesClass code lang = true
       /\ forall o w,
            fst (run o (wrap code (langName lang)) w)
            = Fulfilled (ServerJs.javaClassWrapper
                           (ServerJs.solutionName (o_clock o (reads w)))
                           (ServerJs.unindent code)))) ->
  forall o1 o2 w1 w2, alike wrap o1 o2 w1 w2 code lang.
Proof.
  intros [[Hno [s Hs]] | [Hyes Hj]] o1 o2 w1 w2; unfold alike.
  - exists s, s, (wrapperLineOffset code lang).
    rewrite !(run_prepare _ _ _ _ _ s) by apply Hs.
    repeat split; auto.
  - eexists _, _, (wrapperLineOffset code lang).
    split; [apply run_prepare, Hj|]. split; [apply run_prepare, Hj|].
    split; [apply javaClassWrapper_same_length|].
    split; [intros i Hi; apply javaClassWrapper_same_lines; exact Hi|].
    split.
    + intros H. right. exact (javaClassWrapper_inj _ _ _ H).
    + intros [H | H]; [congruence | rewrite H; reflexivity].
Qed.

(** C3, amended.  Two preparations of the same code for the same
    language, at any two moments and in any two environments, get the
    same line offset and texts with the same number of lines that agree
    on every line except line 13.  The two texts are the same exactly
    when the pair is not on the Java path that synthesizes a wrapper
    class or the two clock readings are equal: on that path each text
    declares the class named after its own clock reading.  This holds
    for [wrapCodeSnippet] of [server.js] and of [part_003]. *)
Theorem C3_preparations_differ_only_in_the_class_name
        (o1 o2 : Oracle) (w1 w2 : World) (code : string) (lang : Lang) :
  alike ServerJs.wrapCodeSnippet o1 o2 w1 w2 code lang
  /\ alike Part003.wrapCodeSnippet o1 o2 w1 w2 code lang.
Proof.
  split.
  - apply alike_of_paths, ServerJs_wrap_paths.
  - apply alike_of_paths, Part003_wrap_paths.
Qed.

End Determinism.

(* ================================================================== *)
(** * Code over the size limit *)
(* ================================================================== *)

Section BodyLimit.
Import Js Regex Eff Common Steps App.

Lemma utf8Length_len (s : string) : len s <= utf8Length s <= 2 * len s.
Proof.
  induction s as [|ch s IH]; cbn [len utf8Length]; [lia|].
  destruct (Js.code ch <? 128); lia.
Qed.


End BodyLimit.

Section BodyLimitExamples.
Import Js Regex Eff Common Steps App.


End BodyLimitExamples.

(* ================================================================== *)
(** * The matcher finds every match *)
(* ================================================================== *)

Section RegexCompleteness.
Import Js Regex.

Lemma startsWith_app (l s : string) : startsWith l (l +:+ s) = true.
Proof.
  induction l as [|ch l IH]; [destruct s; reflexivity|].
  change (String ch l +:+ s) with (String ch (l +:+ s)).
  cbn [startsWith]. rewrite Ascii.eqb_refl. exact IH.
Qed.

Lemma slice_app (l s : string) : slice (String.length l) (l +:+ s) = s.
Proof.
  induction l as [|ch l IH]; [destruct s; reflexivity|].
  change (String ch l +:+ s) with (String ch (l +:+ s)).
  cbn [String.length slice]. exact IH.
Qed.

Lemma app_length_inj (a b a' b' : string) :
  a +:+ b = a' +:+ b' -> String.length a = String.length a' ->
  a = a' /\ b = b'.
Proof.
  revert a'. induction a as [|ch a IH]; intros [|ch' a'] H Hl;
    try discriminate Hl.
  - split; [reflexivity | exact H].
  - change (String ch (a +:+ b) = String ch' (a' +:+ b')) in H.
    inversion H; subst ch'. cbn [String.length] in Hl.
    destruct (IH a') as [-> ->]; [assumption | lia | split; reflexivity].
Qed.

Lemma starGreedy_complete {R} (p : ascii -> bool) (w s' : string)
      (k : string -> option R) :
  Forall (fun ch => p ch = true) (list_ascii_of_string w) ->
  is_Some (k s') ->
  is_Some (starGreedy p (w +:+ s') k).
Proof.
  intros Hw Hk. induction w as [|ch w IH].
  - change (EmptyString +:+ s') with s'.
    destruct s' as [|c0 t]; cbn [starGreedy]; [exact Hk|].
    destruct (p c0); [|exact Hk].
    destruct (starGreedy p t k); [eexists; reflexivity | exact Hk].
  - cbn [list_ascii_of_string] in Hw. inversion Hw as [|? ? Hch Hrest]; subst.
    change (String ch w +:+ s') with (String ch (w +:+ s')).
    cbn [starGreedy]. rewrite Hch.
    destruct (IH Hrest) as [x Hx]. rewrite Hx. eexists; reflexivity.
Qed.

Lemma starLazy_complete {R} (p : ascii -> bool) (w s' : string)
      (k : string -> option R) :
  Forall (fun ch => p ch = true) (list_ascii_of_string w) ->
  is_Some (k s') ->
  is_Some (starLazy p (w +:+ s') k).
Proof.
  intros Hw Hk. induction w as [|ch w IH].
  - change (EmptyString +:+ s') with s'.
    destruct Hk as [x Hx].
    destruct s' as [|c0 t]; cbn [starLazy]; rewrite Hx; eexists; reflexivity.
  - cbn [list_ascii_of_string] in Hw. inversion Hw as [|? ? Hch Hrest]; subst.
    change (String ch w +:+ s') with (String ch (w +:+ s')).
    cbn [starLazy].
    destruct (k (String ch (w +:+ s'))); [eexists; reflexivity|].
    rewrite Hch. exact (IH Hrest).
Qed.

(** Whenever the pattern matches in the sense of [matches] and the
    continuation accepts that match, the matcher returns a result. *)
Lemma matchAt_complete {R} (r : re) :
  forall (s : string) (caps : list string) (s' : string) (caps' : list string)
         (k : string -> list string -> option R),
    matches r s caps s' caps' ->
    is_Some (k s' caps') ->
    is_Some (matchAt r s caps k).
Proof.
  induction r as [l | p | p | p | a IHa b IHb | a IHa b IHb | a IHa];
    intros s caps s' caps' k Hm Hk; cbn [matches] in Hm; cbn [matchAt].
  - destruct Hm as (Hs & -> & ->). rewrite Hs. exact Hk.
  - destruct Hm as ((ch & -> & Hch) & ->). rewrite Hch. exact Hk.
  - destruct Hm as ((w & -> & Hw) & ->).
    apply starGreedy_complete; assumption.
  - destruct Hm as ((w & -> & Hw) & ->).
    apply starLazy_complete; assumption.
  - destruct Hm as (s1 & c1 & Ha & Hb).
    apply (IHa s caps s1 c1); [exact Ha|].
    apply (IHb s1 c1 s' caps'); assumption.
  - destruct Hm as [Ha | Hb].
    + destruct (IHa s caps s' caps' k Ha Hk) as [x Hx]. rewrite Hx.
      eexists; reflexivity.
    + destruct (matchAt a s caps k); [eexists; reflexivity|].
      apply (IHb s caps s' caps'); assumption.
  - destruct Hm as (c1 & Ha & ->).
    apply (IHa s caps s' c1); [exact Ha | exact Hk].
Qed.

(** A lazy star stops at the first place its continuation accepts. *)
Lemma starLazy_first {R} (p : ascii -> bool) (s : string)
      (k : string -> option R) (x : R) :
  starLazy p s k = Some x ->
  exists w s',
    s = w +:+ s'
    /\ Forall (fun ch => p ch = true) (list_ascii_of_string w)
    /\ k s' = Some x
    /\ forall w' s'', s = w' +:+ s'' ->
                      (String.length w' < String.length w)%nat ->
                      k s'' = None.
Proof.
  induction s as [|ch s IH]; intros H.
  - cbn [starLazy] in H. destruct (k EmptyString) as [y|] eqn:Hk; [|discriminate].
    exists EmptyString, EmptyString. repeat split; [constructor | congruence |].
    intros w' s'' _ Hlt. cbn [String.length] in Hlt. lia.
  - cbn [starLazy] in H. destruct (k (String ch s)) as [y|] eqn:Hk.
    + exists EmptyString, (String ch s). repeat split; [constructor | congruence |].
      intros w' s'' _ Hlt. cbn [String.length] in Hlt. lia.
    + destruct (p ch) eqn:Hch; [|discriminate].
      destruct (IH H) as (w & s' & -> & Hw & Hx & Hmin).
      exists (String ch w), s'. split; [reflexivity|].
      split; [cbn [list_ascii_of_string]; constructor; assumption|].
      split; [exact Hx|].
      intros [|ch' w'] s'' Heq Hlt.
      * change (EmptyString +:+ s'') with s'' in Heq. subst s''. exact Hk.
      * change (String ch (w +:+ s') = String ch' (w' +:+ s'')) in Heq.
        inversion Heq; subst ch'. cbn [String.length] in Hlt.
        apply (Hmin w' s''); [assumption | lia].
Qed.

(** A greedy star whose continuation accepts everything takes all it
    can. *)
Lemma starGreedy_all {R} (p : ascii -> bool) (s : string)
      (k : string -> option R) :
  (forall s', is_Some (k s')) ->
  exists w s',
    s = w +:+ s'
    /\ Forall (fun ch => p ch = true) (list_ascii_of_string w)
    /\ match s' with
       | EmptyString => True
       | String ch _ => p ch = false
       end
    /\ starGreedy p s k = k s'.
Proof.
  intros Hk. induction s as [|ch s IH].
  - exists EmptyString, EmptyString. repeat split; constructor.
  - cbn [starGreedy]. destruct (p ch) eqn:Hch.
    + destruct IH as (w & s' & -> & Hw & Hend & Hrun).
      exists (String ch w), s'. split; [reflexivity|].
      split; [cbn [list_ascii_of_string]; constructor; assumption|].
      split; [exact Hend|]. rewrite Hrun.
      destruct (Hk s') as [x Hx]. rewrite Hx. reflexivity.
    + exists EmptyString, (String ch s). split; [reflexivity|].
      split; [constructor|]. split; [exact Hch | reflexivity].
Qed.

(** Where a found match lies in the text: at the first index at which
    the pattern matches. *)
Lemma searchFrom_leftmost (r : re) (s pre : string) (m : found) :
  searchFrom r pre s = Some m ->
  exists skipped s0,
    s = skipped +:+ s0
    /\ matchAt r s0 [] (fun s' caps => Some (s', caps))
       = Some (after m, groups m)
    /\ forall sk' s0', s = sk' +:+ s0' ->
                       (String.length sk' < String.length skipped)%nat ->
                       matchAt r s0' [] (fun s' caps => Some (s', caps)) = None.
Proof.
  revert pre. induction s as [|ch s IH]; intros pre H; cbn [searchFrom] in H.
  - destruct (matchAt r EmptyString [] _) as [[s' caps]|] eqn:Hm; [|discriminate].
    inversion H; subst m. exists EmptyString, EmptyString.
    split; [reflexivity|]. split; [exact Hm|].
    intros sk' s0' _ Hlt. cbn [String.length] in Hlt. lia.
  - destruct (matchAt r (String ch s) [] _) as [[s' caps]|] eqn:Hm.
    + inversion H; subst m. exists EmptyString, (String ch s).
      split; [reflexivity|]. split; [exact Hm|].
      intros sk' s0' _ Hlt. cbn [String.length] in Hlt. lia.
    + destruct (IH _ H) as (skipped & s0 & -> & Hs0 & Hmin).
      exists (String ch skipped), s0. split; [reflexivity|]. split; [exact Hs0|].
      intros [|ch' sk'] s0' Heq Hlt.
      * change (EmptyString +:+ s0') with s0' in Heq. subst s0'. exact Hm.
      * change (String ch (skipped +:+ s0) = String ch' (sk' +:+ s0')) in Heq.
        inversion Heq; subst ch'. cbn [String.length] in Hlt.
        apply (Hmin sk' s0'); [assumption | lia].
Qed.

(** A match that exists somewhere in the text is found, there or
    further left. *)
Lemma searchFrom_complete (r : re) (skipped s0 : string) :
  is_Some (matchAt r s0 [] (fun s' caps => Some (s', caps))) ->
  forall pre, is_Some (searchFrom r pre (skipped +:+ s0)).
Proof.
  intros Hm. induction skipped as [|ch skipped IH]; intros pre.
  - change (EmptyString +:+ s0) with s0. destruct Hm as [[s' caps] Hx].
    destruct s0; cbn [searchFrom]; rewrite Hx; eexists; reflexivity.
  - change (String ch skipped +:+ s0) with (String ch (skipped +:+ s0)).
    cbn [searchFrom].
    destruct (matchAt r (String ch (skipped +:+ s0)) [] _) as [[s' caps]|];
      [eexists; reflexivity | apply IH].
Qed.

End RegexCompleteness.

(* ================================================================== *)
(** * What the C checker captures *)
(* ================================================================== *)

Section CapturedDiagnostics.
Import Js Regex Eff Common Stated Steps Diagnosed.

#[local] Abbreviation gccMiddle :=
  (seqs [Lit ":"; Cap (Plus isDigit); Lit ":"; Cap (Plus isDigit); Lit ":";
         Star isSpace; Cap (Alt (Lit "warning") (Lit "error")); Lit ":"]).
#[local] Abbreviation gccTail := (Seq (Star isSpace) (Cap (Star isDot))).
#[local] Abbreviation accept :=
  (fun (s' : string) (caps : list string) => Some (s', caps)).

Lemma matches_Lit (l s s' : string) (caps caps' : list string) :
  matches (Lit l) s caps s' caps' <-> s = l +:+ s' /\ caps' = caps.
Proof.
  cbn [matches]. split.
  - intros (Hs & -> & ->). split; [apply startsWith_split; exact Hs | reflexivity].
  - intros (-> & ->). split; [apply startsWith_app|].
    split; [rewrite slice_app; reflexivity | reflexivity].
Qed.

Lemma matches_Plus (p : ascii -> bool) (s s' : string) (caps caps' : list string) :
  matches (Plus p) s caps s' caps' <->
  exists w, s = w +:+ s' /\ w <> EmptyString
            /\ Forall (fun ch => p ch = true) (list_ascii_of_string w)
            /\ caps' = caps.
Proof.
  unfold Plus. cbn [matches]. split.
  - intros (s1 & c1 & [(ch & -> & Hch) ->] & [(w & -> & Hw) ->]).
    exists (String ch w). split; [reflexivity|]. split; [discriminate|].
    split; [cbn [list_ascii_of_string]; constructor; assumption | reflexivity].
  - intros (w & -> & Hne & Hw & ->). destruct w as [|ch w]; [contradiction|].
    cbn [list_ascii_of_string] in Hw. inversion Hw; subst.
    exists (w +:+ s'), caps. split.
    + split; [exists ch; split; [reflexivity | assumption] | reflexivity].
    + split; [exists w; split; [reflexivity | assumption] | reflexivity].
Qed.

(** The diagnostic pattern in three parts: the lazy file group, the
    middle up to the severity's colon, and the tail. *)
Lemma gccLine_parts (s : string) :
  matchAt gccLine s [] accept
  = starLazy isDot s
      (fun s1 => matchAt gccMiddle s1 [consumed s s1]
                   (fun s2 c2 => matchAt gccTail s2 c2 accept)).
Proof. reflexivity. Qed.

Lemma gccMiddle_matches (s s' : string) (caps caps' : list string) :
  matches gccMiddle s caps s' caps' <->
  exists l c0 g sv,
    s = ":" +:+ l +:+ ":" +:+ c0 +:+ ":" +:+ g +:+ sv +:+ ":" +:+ s'
    /\ digits l /\ digits c0 /\ blanks g /\ severity sv
    /\ caps' = caps ++ [l; c0; sv].
Proof.
  cbn [seqs]. split.
  - intros H. cbn [matches] in H.
    destruct H as (s2 & c2 & H2 & H). apply matches_Lit in H2.
    destruct H2 as [-> ->].
    destruct H as (s3 & c3 & (c3' & H3 & ->) & H).
    apply matches_Plus in H3. destruct H3 as (l & -> & Hl0 & Hl & ->).
    destruct H as (s4 & c4 & H4 & H). apply matches_Lit in H4.
    destruct H4 as [-> ->].
    destruct H as (s5 & c5 & (c5' & H5 & ->) & H).
    apply matches_Plus in H5. destruct H5 as (c0 & -> & Hc0 & Hc & ->).
    destruct H as (s6 & c6 & H6 & H). apply matches_Lit in H6.
    destruct H6 as [-> ->].
    destruct H as (s7 & c7 & [(g & -> & Hg) ->] & H).
    destruct H as (s8 & c8 & (c8' & H8 & ->) & H).
    apply matches_Lit in H. destruct H as [-> ->].
    destruct H8 as [H8 | H8]; apply matches_Lit in H8; destruct H8 as [-> ->].
    + exists l, c0, g, "warning".
      rewrite !consumed_app, <- !app_assoc.
      split; [reflexivity|].
      repeat split; auto. left; reflexivity.
    + exists l, c0, g, "error".
      rewrite !consumed_app, <- !app_assoc.
      split; [reflexivity|].
      repeat split; auto. right; reflexivity.
  - intros (l & c0 & g & sv & -> & [Hl0 Hl] & [Hc0 Hc] & Hg & Hsv & ->).
    cbn [matches].
    eexists _, _. split; [apply matches_Lit; split; reflexivity|].
    eexists _, _. split.
    { eexists. split; [apply matches_Plus; exists l; repeat split; auto|]. reflexivity. }
    eexists _, _. split; [apply matches_Lit; split; reflexivity|].
    eexists _, _. split.
    { eexists. split; [apply matches_Plus; exists c0; repeat split; auto|]. reflexivity. }
    eexists _, _. split; [apply matches_Lit; split; reflexivity|].
    eexists _, _. split; [split; [exists g; split; [reflexivity | exact Hg] | reflexivity]|].
    eexists _, _. split.
    { eexists. split.
      - destruct Hsv as [-> | ->]; [left | right]; apply matches_Lit; split; reflexivity.
      - reflexivity. }
    apply matches_Lit.
    rewrite !consumed_app, <- !app_assoc. split; reflexivity.
Qed.

(** The tail of the pattern always matches: all the blanks there are,
    then all of the line that is left. *)
Lemma gccTail_runs (s : string) (caps : list string) :
  exists g' msg post,
    s = g' +:+ msg +:+ post
    /\ blanks g' /\ stopsAt isSpace (msg +:+ post)
    /\ withinLine msg /\ stopsAt isDot post
    /\ matchAt gccTail s caps accept = Some (post, caps ++ [msg]).
Proof.
  cbn [matchAt].
  assert (Hin : forall s1,
             exists msg post,
               s1 = msg +:+ post /\ withinLine msg /\ stopsAt isDot post
               /\ starGreedy isDot s1 (fun s2 => Some (s2, caps ++ [consumed s1 s2]))
                  = Some (post, caps ++ [msg])).
  { intros s1.
    destruct (starGreedy_all isDot s1 (fun s2 => Some (s2, caps ++ [consumed s1 s2])))
      as (msg & post & -> & Hmsg & Hend & Hrun); [intros; eexists; reflexivity|].
    exists msg, post. rewrite Hrun, consumed_app. auto. }
  destruct (starGreedy_all isSpace s
              (fun s1 => starGreedy isDot s1
                           (fun s2 => Some (s2, caps ++ [consumed s1 s2]))))
    as (g' & s1 & -> & Hg' & Hstop & Hrun).
  { intros s1. destruct (Hin s1) as (msg & post & _ & _ & _ & ->).
    eexists; reflexivity. }
  destruct (Hin s1) as (msg & post & -> & Hmsg & Hend & Hrun1).
  exists g', msg, post. rewrite Hrun, Hrun1. auto 10.
Qed.

(** Every reading of a line is a match of the pattern's middle and
    tail after its file part ... *)
Lemma reading_after_file (r : Reading) (ln : string) (caps : list string) :
  readsAs ln r ->
  is_Some (matchAt gccMiddle
             (":" +:+ lineText r +:+ ":" +:+ columnText r +:+ ":" +:+ gap r
              +:+ severityText r +:+ ":" +:+ gap' r +:+ messageText r +:+ trail r)
             caps (fun s2 c2 => matchAt gccTail s2 c2 accept)).
Proof.
  intros (_ & Hf & Hl & Hc & Hg & Hsv & Hg' & Hmsg & Hend).
  apply (matchAt_complete _ _ _ (gap' r +:+ messageText r +:+ trail r)
           (caps ++ [lineText r; columnText r; severityText r])).
  - apply gccMiddle_matches.
    exists (lineText r), (columnText r), (gap r), (severityText r). auto 10.
  - destruct (gccTail_runs (gap' r +:+ messageText r +:+ trail r)
                (caps ++ [lineText r; columnText r; severityText r]))
      as (? & ? & ? & _ & _ & _ & _ & _ & ->).
    eexists; reflexivity.
Qed.

(** ... and a match of the accept pattern after its lead. *)
Lemma reading_after_lead (r : Reading) (ln : string) :
  readsAs ln r ->
  is_Some (matchAt gccLine
             (file r +:+ ":" +:+ lineText r +:+ ":" +:+ columnText r +:+ ":"
              +:+ gap r +:+ severityText r +:+ ":" +:+ gap' r
              +:+ messageText r +:+ trail r)
             [] accept).
Proof.
  intros Hr. rewrite gccLine_parts.
  apply starLazy_complete; [apply Hr|].
  apply (reading_after_file r ln). exact Hr.
Qed.

(** A line that reads as a diagnostic is one on which the pattern is
    found. *)
Lemma shaped_found (ln : string) :
  shaped ln -> is_Some (search gccLine ln).
Proof.
  intros (r & Hr). pose proof Hr as (Hln & _). rewrite Hln.
  unfold search. apply searchFrom_complete.
  apply (reading_after_lead r ln). exact Hr.
Qed.

(** A line on which the pattern is found reads as a diagnostic; the
    match is the preferred reading, and its groups are the parts of
    that reading. *)
Lemma gccLine_reads (ln : string) (m : found) :
  search gccLine ln = Some m ->
  exists r, readsAs ln r /\ preferred ln r
            /\ groups m = [file r; lineText r; columnText r; severityText r;
                           messageText r].
Proof.
  intros H. apply searchFrom_leftmost in H.
  destruct H as (skipped & s0 & -> & H & Hleft).
  rewrite gccLine_parts in H. apply starLazy_first in H.
  destruct H as (f & s1 & -> & Hf & H & Hshort).
  apply matchAt_sound in H. destruct H as (s2 & c2 & Hmid & Htail).
  apply gccMiddle_matches in Hmid.
  destruct Hmid as (l & c0 & g & sv & -> & Hl & Hc & Hg & Hsv & ->).
  destruct (gccTail_runs s2 ([consumed (f +:+ ":" +:+ l +:+ ":" +:+ c0 +:+ ":"
                                        +:+ g +:+ sv +:+ ":" +:+ s2)
                                       (":" +:+ l +:+ ":" +:+ c0 +:+ ":"
                                        +:+ g +:+ sv +:+ ":" +:+ s2)]
                             ++ [l; c0; sv]))
    as (g' & msg & post & -> & Hg' & Hstop & Hmsg & Hend & Hrun).
  rewrite Hrun in Htail. injection Htail as Hafter Hgroups.
  rewrite consumed_app in Hgroups. cbn [app] in Hgroups. clear Hrun.
  exists {| lead := skipped; file := f; lineText := l; columnText := c0;
            gap := g; severityText := sv; gap' := g'; messageText := msg;
            trail := post |}.
  split; [|split; [|rewrite <- Hgroups; reflexivity]].
  - unfold readsAs. cbn [lead file lineText columnText gap severityText gap'
                         messageText trail].
    split; [reflexivity|]. repeat (split; [assumption|]). assumption.
  - unfold preferred. cbn [lead file messageText trail].
    split; [|split; [|exact Hstop]].
    + intros r' Hr'. pose proof Hr' as (Hln' & _).
      destruct (Nat.le_gt_cases (String.length skipped) (String.length (lead r')))
        as [Hle | Hlt]; [exact Hle | exfalso].
      pose proof (Hleft _ _ Hln' Hlt) as Hnone.
      destruct (reading_after_lead r' _ Hr') as [x Hx]. congruence.
    + intros r' Hr' Hlead. pose proof Hr' as (Hln' & _).
      rewrite Hlead in Hln'. apply append_inj_l in Hln'.
      destruct (Nat.le_gt_cases (String.length f) (String.length (file r')))
        as [Hle | Hlt]; [exact Hle | exfalso].
      pose proof (Hshort _ _ Hln' Hlt) as Hnone.
      destruct (reading_after_file r' _
                  [consumed (f +:+ ":" +:+ l +:+ ":" +:+ c0 +:+ ":" +:+ g +:+ sv
                             +:+ ":" +:+ g' +:+ msg +:+ post)
                            (":" +:+ lineText r' +:+ ":" +:+ columnText r' +:+ ":"
                             +:+ gap r' +:+ severityText r' +:+ ":" +:+ gap' r'
                             +:+ messageText r' +:+ trail r')] Hr') as [x Hx].
      congruence.
Qed.

(** The entries of the C checker are what the lines of stderr hold. *)
Lemma cDiagnostics_captured (stderr : string) :
  captured (split_nl stderr) (cDiagnostics stderr).
Proof.
  unfold cDiagnostics. induction (split_nl stderr) as [|ln lns IH]; [constructor|].
  cbn [omap list_omap]. destruct (search gccLine ln) as [m|] eqn:Hm.
  - destruct (gccLine_reads ln m Hm) as (r & Hr & Hp & Hg).
    unfold group. rewrite Hg. cbn [nth pred].
    change {| line := parseInt (lineText r); column := parseInt (columnText r);
              type := severityText r; dmessage := trim (messageText r);
              suggestion := None |} with (entryOf r).
    apply captured_take; assumption.
  - apply captured_skip; [|exact IH].
    intros Hs. apply shaped_found in Hs. rewrite Hm in Hs.
    destruct Hs as [x Hx]. discriminate.
Qed.

(** A run of characters of one class that stops where the class stops
    is determined by the text. *)
Lemma run_unique (p : ascii -> bool) (w1 w2 s1 s2 : string) :
  Forall (fun ch => p ch = true) (list_ascii_of_string w1) ->
  Forall (fun ch => p ch = true) (list_ascii_of_string w2) ->
  stopsAt p s1 -> stopsAt p s2 ->
  w1 +:+ s1 = w2 +:+ s2 -> w1 = w2 /\ s1 = s2.
Proof.
  revert w2. induction w1 as [|ch w1 IH]; intros [|ch' w2] H1 H2 E1 E2 Heq.
  - split; [reflexivity | exact Heq].
  - change (s1 = String ch' (w2 +:+ s2)) in Heq. subst s1.
    cbn [list_ascii_of_string] in H2. inversion H2; subst.
    cbn [stopsAt] in E1. congruence.
  - change (String ch (w1 +:+ s1) = s2) in Heq. subst s2.
    cbn [list_ascii_of_string] in H1. inversion H1; subst.
    cbn [stopsAt] in E2. congruence.
  - change (String ch (w1 +:+ s1) = String ch' (w2 +:+ s2)) in Heq.
    inversion Heq; subst ch'.
    cbn [list_ascii_of_string] in H1, H2. inversion H1; inversion H2; subst.
    destruct (IH w2) as [-> ->]; auto.
Qed.

(** A line has at most one preferred reading. *)
Lemma preferred_unique (ln : string) (r1 r2 : Reading) :
  readsAs ln r1 -> preferred ln r1 ->
  readsAs ln r2 -> preferred ln r2 ->
  r1 = r2.
Proof.
  intros Hr1 (Ha1 & Hb1 & Hc1) Hr2 (Ha2 & Hb2 & Hc2).
  pose proof (Ha1 _ Hr2) as Hle1. pose proof (Ha2 _ Hr1) as Hle2.
  pose proof Hr1 as (Hln1 & Hf1 & [_ Hl1] & [_ Hk1] & Hg1 & Hsv1 & Hg1' & Hm1 & He1).
  pose proof Hr2 as (Hln2 & Hf2 & [_ Hl2] & [_ Hk2] & Hg2 & Hsv2 & Hg2' & Hm2 & He2).
  rewrite Hln1 in Hln2.
  apply app_length_inj in Hln2; [|lia]. destruct Hln2 as [Hlead Hrest].
  pose proof (Hb1 _ Hr2 (eq_sym Hlead)) as Hle3.
  pose proof (Hb2 _ Hr1 Hlead) as Hle4.
  apply app_length_inj in Hrest; [|lia]. destruct Hrest as [Hfile Hrest].
  apply append_inj_l in Hrest.
  apply run_unique with (p := isDigit) in Hrest;
    [|assumption|assumption|reflexivity|reflexivity].
  destruct Hrest as [Hline Hrest]. apply append_inj_l in Hrest.
  apply run_unique with (p := isDigit) in Hrest;
    [|assumption|assumption|reflexivity|reflexivity].
  destruct Hrest as [Hcol Hrest]. apply append_inj_l in Hrest.
  apply run_unique with (p := isSpace) in Hrest;
    [|assumption|assumption
     |destruct Hsv1 as [-> | ->]; reflexivity
     |destruct Hsv2 as [-> | ->]; reflexivity].
  destruct Hrest as [Hgap Hrest].
  assert (Hsev : severityText r1 = severityText r2
                 /\ gap' r1 +:+ messageText r1 +:+ trail r1
                    = gap' r2 +:+ messageText r2 +:+ trail r2).
  { destruct Hsv1 as [E1 | E1], Hsv2 as [E2 | E2]; rewrite E1, E2 in Hrest |- *;
      try (exfalso; revert Hrest; cbv [String.append]; discriminate).
    - split; [reflexivity|]. apply append_inj_l in Hrest.
      apply append_inj_l in Hrest. exact Hrest.
    - split; [reflexivity|]. apply append_inj_l in Hrest.
      apply append_inj_l in Hrest. exact Hrest. }
  destruct Hsev as [Hsev Hrest'].
  apply run_unique with (p := isSpace) in Hrest'; [|assumption..].
  destruct Hrest' as [Hgap' Hrest'].
  apply run_unique with (p := isDot) in Hrest'; [|assumption..].
  destruct Hrest' as [Hmsg Htrail].
  destruct r1, r2. cbn in *. subst. reflexivity.
Qed.

(** So the lines determine the entries. *)
Lemma captured_functional (lns : list string) (ds1 ds2 : list Diag) :
  captured lns ds1 -> captured lns ds2 -> ds1 = ds2.
Proof.
  intros H1. revert ds2.
  induction H1 as [| ln lns ds Hno _ IH | ln lns r ds Hr Hp _ IH];
    intros ds2 H2; inversion H2; subst.
  - reflexivity.
  - apply IH; assumption.
  - exfalso. apply Hno. eexists; eassumption.
  - exfalso. match goal with Hn : ~ shaped _ |- _ => apply Hn end.
    eexists; eassumption.
  - match goal with
    | Hr' : readsAs ln ?r', Hp' : preferred ln ?r' |- _ =>
        rewrite (preferred_unique ln r r' Hr Hp Hr' Hp')
    end.
    f_equal. apply IH. assumption.
Qed.

(** C9, amended.  For a C program within the size limit whose temp file
    can be written, [valid] is true exactly when the single gcc
    invocation exits successfully.  When it does, the result is
    [{ valid: true, message }] and carries no diagnostics, whatever gcc
    wrote to stderr.  When it does not, the result carries gcc's stderr
    as [error], and its [errors] are what the lines of stderr hold:
    every line that reads as [file:line:column: severity: message] with
    severity [warning] or [error] gives exactly one entry, made of the
    line number, the column, the severity and the trimmed message of
    the line's preferred reading, the entries stand in the order of the
    lines, and no other line gives an entry; no other list meets these
    conditions. *)
Theorem C9_c_validity_is_the_exit_status (o : Oracle) (w : World) (code : string) :
  len code <= 1000000 ->
  o_write o (pathJoin tempDir ("check_" +:+ ofN (o_clock o (reads w)) +:+ ".c")) = None ->
  exists r w',
    run o (checkCSyntax code) w = (Fulfilled r, w')
    /\ match o_exec o ("gcc -fsyntax-only -Wall -pedantic "
                       +:+ quoted (pathJoin tempDir
                             ("check_" +:+ ofN (o_clock o (reads w)) +:+ ".c")))
                    None with
       | ExecOk _ _ _ => valid r = true /\ r_errors r = None /\ r_error r = None
       | ExecFail _ _ err _ =>
           valid r = false
           /\ r_error r = Some err
           /\ exists ds,
                r_errors r = Some ds
                /\ captured (split_nl err) ds
                /\ (forall ds', captured (split_nl err) ds' -> ds' = ds)
                /\ (forall d, d ∈ ds -> type d = "warning" \/ type d = "error")
       end.
Proof.
  intros Hsize Hw.
  assert (Hs : (1000000 <? len code) = false) by (apply N.ltb_ge; exact Hsize).
  unfold checkCSyntax. rewrite run_dateNow. cbv beta zeta.
  rewrite run_tryCatch, Hs, (run_writeFile_ok o _ _ _ _ Hw), run_tryCatch.
  destruct (o_exec o _ None) as [out err fs | e out err fs] eqn:Hx.
  - rewrite (run_execAsync_ok o _ _ _ _ _ _ Hx), run_cleanup_then. cbn [run].
    eexists _, _. split; [reflexivity|]. repeat split; reflexivity.
  - rewrite (run_execAsync_fail o _ _ _ _ _ _ _ Hx). cbn [Eff.stderr].
    rewrite run_cleanup_then. cbn [run].
    eexists _, _. split; [reflexivity|].
    split; [reflexivity|]. split; [reflexivity|].
    exists (cDiagnostics err). split; [reflexivity|].
    split; [apply cDiagnostics_captured|].
    split; [|apply cDiagnostics_severity].
    intros ds' Hds'. apply (captured_functional (split_nl err));
      [exact Hds' | apply cDiagnostics_captured].
Qed.

End CapturedDiagnostics.

Section CapturedDiagnosticsExamples.
Import Js Regex Eff Common Stated Steps Diagnosed.

#[local] Abbreviation gccComplains :=
  (Scenario.withExec (fun _ _ =>
     Scenario.exitsWith
       ("t.c:1:18: warning: unused variable 'x' [-Wunused-variable]" +:+ nl
        +:+ "t.c:2:9: error: expected ';' before '}' token"))).

Lemma C9_witness :
  exists r w',
    run gccComplains (checkCSyntax "int main() { int x; return 0 }") world0
    = (Fulfilled r, w')
    /\ match o_exec gccComplains
               ("gcc -fsyntax-only -Wall -pedantic "
                +:+ quoted (pathJoin tempDir
                      ("check_" +:+ ofN (o_clock gccComplains (reads world0)) +:+ ".c")))
               None with
       | ExecOk _ _ _ => valid r = true /\ r_errors r = None /\ r_error r = None
       | ExecFail _ _ err _ =>
           valid r = false
           /\ r_error r = Some err
           /\ exists ds,
                r_errors r = Some ds
                /\ captured (split_nl err) ds
                /\ (forall ds', captured (split_nl err) ds' -> ds' = ds)
                /\ (forall d, d ∈ ds -> type d = "warning" \/ type d = "error")
       end.
Proof.
  apply (C9_c_validity_is_the_exit_status gccComplains world0
           "int main() { int x; return 0 }").
  - vm_compute. congruence.
  - reflexivity.
Defined.

End CapturedDiagnosticsExamples.

(* ================================================================== *)
(** * Line numbers reported for wrapped C fragments *)
(* ================================================================== *)

Section ReportedCLines.
Import Js Regex Eff Common Steps Outcome Requests.
Context (o : Oracle).

#[local] Abbreviation cTempFile w :=
  (pathJoin tempDir ("check_" +:+ ofN (o_clock o (reads w)) +:+ ".c")).

(** X16.  A C fragment without "main(" is always wrapped by
    [server.js]: exactly five lines are put before it, so line [j] of
    the unindented fragment is line [5 + j] of the compiled file (the
    first one behind four blanks).  When gcc rejects the file, the
    answer lists gcc's diagnostics in gcc's order, and what line
    numbers it gives them depends on [hasWrapper], which also asks for
    the absence of "class": when the fragment does not contain "class",
    five is taken from every line number (but never below 1), so a
    diagnostic on line [j] of the fragment is reported at line [j];
    when the fragment contains "class" the line numbers are those of
    the compiled file, five too high. *)
Theorem ServerJs_c_lines_map_back_unless_class
        (w : World) (code language : string)
        (e : JsError) (out err : string) (fs : list string) :
  truthy code = true -> truthy language = true ->
  len code <= 1000000 ->
  normalizeLanguage language = Canonical c ->
  includes "main(" code = false ->
  let wrapped := ServerJs.wrapC code (ServerJs.unindent code) in
  len wrapped <= 1000000 ->
  o_write o (cTempFile w) = None ->
  o_exec o ("gcc -fsyntax-only -Wall -pedantic " +:+ quoted (cTempFile w)) None
  = ExecFail e out err fs ->
  (forall j l, split_nl (ServerJs.unindent code) !! j = Some l ->
               exists pad, split_nl wrapped !! (5 + j)%nat = Some (pad +:+ l))
  /\ exists ds,
       fst (run o (ServerJs.checkSyntaxEndpoint (Scenario.request language code)) w)
       = Fulfilled
           {| status := 200;
              body := ResultBody (withErrors ds (invalidResult (Some err)))
                                 language c |}
       /\ length ds = length (cDiagnostics err)
       /\ forall i d, cDiagnostics err !! i = Some d ->
            exists d',
              ds !! i = Some d'
              /\ column d' = column d /\ type d' = type d
              /\ dmessage d' = dmessage d /\ suggestion d' = suggestion d
              /\ line d'
                 = if includes "class" code then line d
                   else if line d =? 0 then 0 else N.max 1 (line d - 5).
Proof.
  intros Ht Ht' Hsize Hn Hm wrapped Hwsize Hw Hx.
  split.
  { intros j l Hj.
    destruct (wrapC_lines code (ServerJs.unindent code) Hm)
      as (l0 & ls & Hu & Hwr).
    unfold wrapped. rewrite Hwr. rewrite Hu in Hj.
    change (([ "#include <stdio.h>"; "#include <stdlib.h>"; "#include <string.h>";
               EmptyString; "int main() {" ]
             ++ (("    " +:+ l0) :: ls) ++ [ "    return 0;"; "}" ]) !! (5 + j)%nat)
      with (((("    " +:+ l0) :: ls) ++ [ "    return 0;"; "}" ]) !! j).
    destruct j as [|j'].
    + inversion Hj; subst. exists "    ". reflexivity.
    + exists EmptyString. change (EmptyString +:+ l) with l.
      change (((("    " +:+ l0) :: ls) ++ [ "    return 0;"; "}" ]) !! S j')
        with ((ls ++ [ "    return 0;"; "}" ]) !! j').
      apply lookup_app_l_Some. exact Hj. }
  apply N.ltb_ge in Hsize. apply N.ltb_ge in Hwsize.
  unfold ServerJs.checkSyntaxEndpoint, Scenario.request.
  cbn [Common.code Common.language]. rewrite Ht, Ht'. cbn [negb orb].
  rewrite Hsize, Hn. rewrite run_tryCatch. cbv zeta.
  change (langName c) with "c".
  change (ServerJs.wrapCodeSnippet code "c") with (Ret (A := string) wrapped).
  rewrite run_mbind. cbn [run]. rewrite run_mbind.
  unfold checkCSyntax. rewrite run_dateNow. cbv beta zeta.
  rewrite run_tryCatch, Hwsize, (run_writeFile_ok o _ _ _ _ Hw).
  rewrite run_tryCatch, (run_execAsync_fail o _ _ _ _ _ _ _ Hx).
  cbn [stderr]. cbv zeta. rewrite run_cleanup_then. cbn [run fst].
  rewrite Hm. cbn [negb andb valid withErrors invalidResult].
  destruct (includes "class" code); cbn [negb andb].
  - exists (cDiagnostics err). split; [reflexivity|]. split; [reflexivity|].
    intros i d Hd. exists d. auto 10.
  - exists (map (ServerJs.adjustDiag 5) (cDiagnostics err)).
    split; [reflexivity|]. split; [apply length_map|].
    intros i d Hd. exists (ServerJs.adjustDiag 5 d).
    split; [|repeat split].
    + change (map (ServerJs.adjustDiag 5) (cDiagnostics err))
        with (ServerJs.adjustDiag 5 <$> cDiagnostics err).
      rewrite list_lookup_fmap, Hd. reflexivity.
    + cbn [ServerJs.adjustDiag line]. unfold ServerJs.adjustLine.
      destruct (line d =? 0) eqn:E; [apply N.eqb_eq in E; exact E | reflexivity].
Qed.

End ReportedCLines.

Section ReportedCLineExamples.
Import Js Regex Eff Common Steps Outcome Requests.

#[local] Abbreviation gccRejects :=
  (Scenario.withExec (fun _ _ =>
     Scenario.exitsWith
       "/usr/src/app/temp/check_1700000000000.c:6:20: error: expected expression before ';' token")).

Lemma ServerJs_c_lines_map_back_unless_class_witness :
  (forall j l, split_nl (ServerJs.unindent "int classroom = ;") !! j = Some l ->
               exists pad,
                 split_nl (ServerJs.wrapC "int classroom = ;"
                             (ServerJs.unindent "int classroom = ;")) !! (5 + j)%nat
                 = Some (pad +:+ l))
  /\ exists ds,
       fst (run gccRejects
              (ServerJs.checkSyntaxEndpoint (Scenario.request "c" "int classroom = ;"))
              world0)
       = Fulfilled
           {| status := 200;
              body := ResultBody
                        (withErrors ds
                           (invalidResult
                              (Some "/usr/src/app/temp/check_1700000000000.c:6:20: error: expected expression before ';' token")))
                        "c" c |}
       /\ length ds
          = length (cDiagnostics "/usr/src/app/temp/check_1700000000000.c:6:20: error: expected expression before ';' token")
       /\ forall i d,
            cDiagnostics "/usr/src/app/temp/check_1700000000000.c:6:20: error: expected expression before ';' token" !! i = Some d ->
            exists d',
              ds !! i = Some d'
              /\ column d' = column d /\ type d' = type d
              /\ dmessage d' = dmessage d /\ suggestion d' = suggestion d
              /\ line d'
                 = if includes "class" "int classroom = ;" then line d
                   else if line d =? 0 then 0 else N.max 1 (line d - 5).
Proof.
  apply (ServerJs_c_lines_map_back_unless_class gccRejects world0
           "int classroom = ;" "c"
           {| message := "Command failed"; Eff.stderr := None;
              signal := None; errcode := None |}
           EmptyString
           "/usr/src/app/temp/check_1700000000000.c:6:20: error: expected expression before ';' token"
           []).
  - reflexivity.
  - reflexivity.
  - vm_compute. congruence.
  - reflexivity.
  - reflexivity.
  - vm_compute. congruence.
  - reflexivity.
  - reflexivity.
Defined.

(** The error on the only line of [int classroom = ;] is reported at
    line 6, the error on the only line of [int room = ;] at line 1. *)
Example c_fragment_with_class_is_reported_at_line_6 :
  fst (run gccRejects
         (ServerJs.checkSyntaxEndpoint (Scenario.request "c" "int classroom = ;"))
         world0)
  = Fulfilled
      {| status := 200;
         body := ResultBody
                   (withErrors
                      [ {| line := 6; column := 20; type := "error";
                           dmessage := "expected expression before ';' token";
                           suggestion := None |} ]
                      (invalidResult
                         (Some "/usr/src/app/temp/check_1700000000000.c:6:20: error: expected expression before ';' token")))
                   "c" c |}.
Proof. vm_compute. reflexivity. Qed.

Example c_fragment_without_class_is_reported_at_line_1 :
  fst (run gccRejects
         (ServerJs.checkSyntaxEndpoint (Scenario.request "c" "int room = ;"))
         world0)
  = Fulfilled
      {| status := 200;
         body := ResultBody
                   (withErrors
                      [ {| line := 1; column := 20; type := "error";
                           dmessage := "expected expression before ';' token";
                           suggestion := None |} ]
                      (invalidResult
                         (Some "/usr/src/app/temp/check_1700000000000.c:6:20: error: expected expression before ';' token")))
                   "c" c |}.
Proof. vm_compute. reflexivity. Qed.

End ReportedCLineExamples.
